(** * The CDS cluster builder of Pilot

    A shallow embedding of [pilot/pkg/networking/core/v1alpha3/cluster.go]:
    the translation of services, destination rules and mesh configuration
    into the Envoy clusters served to one proxy.

    Go pointers that may be nil are [option]s, slices are lists, Go maps are
    stdpp [gmap]s, fixed-width integers are [Z] with the conversions written
    out, and every function that mutates a [*apiv2.Cluster] in place takes
    the cluster and returns the updated one. *)

From Stdlib Require Import ZArith DecimalString.
From stdpp Require Import gmap strings list.

Local Open Scope Z_scope.

(** ** Scalars *)

(** Go's conversion [uint32(x)]. *)
Definition uint32 (z : Z) : Z := z mod 2 ^ 32.

(** [types.Duration] and [duration.Duration] have the same two fields. *)
Record Duration := { Seconds : Z; Nanos : Z }.

(** [gogo.DurationToProtoDuration]: a nil duration stays nil, otherwise the
    seconds and nanoseconds are carried over. *)
Definition DurationToProtoDuration (d : option Duration) : option Duration := d.

(** [strconv.Itoa]. *)
Definition Itoa (z : Z) : string := NilEmpty.string_of_int (Z.to_int z).

(** [protocol.Instance] is a string type. *)
Definition Protocol := string.
Definition protocol_UDP : Protocol := "UDP".
Definition protocol_Redis : Protocol := "Redis".

(** ** [istio.io/api/networking/v1alpha3] *)

Inductive TLSSettings_TLSmode :=
  | TLSSettings_DISABLE
  | TLSSettings_SIMPLE
  | TLSSettings_MUTUAL
  | TLSSettings_ISTIO_MUTUAL.

Record TLSSettings := {
  TLS_Mode : TLSSettings_TLSmode;
  TLS_ClientCertificate : string;
  TLS_PrivateKey : string;
  TLS_CaCertificates : string;
  TLS_SubjectAltNames : list string;
  TLS_Sni : string
}.

Inductive LoadBalancerSettings_SimpleLB :=
  | LoadBalancerSettings_ROUND_ROBIN
  | LoadBalancerSettings_LEAST_CONN
  | LoadBalancerSettings_RANDOM
  | LoadBalancerSettings_PASSTHROUGH.

Record LoadBalancerSettings_ConsistentHashLB := {
  MinimumRingSize : Z
}.

(** The [LbPolicy] oneof of [LoadBalancerSettings]. *)
Inductive isLoadBalancerSettings_LbPolicy :=
  | LoadBalancerSettings_Simple (s : LoadBalancerSettings_SimpleLB)
  | LoadBalancerSettings_ConsistentHash (ch : LoadBalancerSettings_ConsistentHashLB).

Record LoadBalancerSettings := {
  LB_LbPolicy : option isLoadBalancerSettings_LbPolicy
}.

Definition GetSimple (lb : LoadBalancerSettings) : LoadBalancerSettings_SimpleLB :=
  match LB_LbPolicy lb with
  | Some (LoadBalancerSettings_Simple s) => s
  | _ => LoadBalancerSettings_ROUND_ROBIN
  end.

Definition GetConsistentHash (lb : LoadBalancerSettings)
  : option LoadBalancerSettings_ConsistentHashLB :=
  match LB_LbPolicy lb with
  | Some (LoadBalancerSettings_ConsistentHash ch) => Some ch
  | _ => None
  end.

Record networking_OutlierDetection := {
  OD_ConsecutiveErrors : Z;
  OD_Interval : option Duration;
  OD_BaseEjectionTime : option Duration;
  OD_MaxEjectionPercent : Z;
  OD_MinHealthPercent : Z
}.

Record TCPSettings_TcpKeepalive := {
  KA_Probes : Z;
  KA_Time : option Duration;
  KA_Interval : option Duration
}.

Record ConnectionPoolSettings_TCPSettings := {
  Tcp_MaxConnections : Z;
  Tcp_ConnectTimeout : option Duration;
  Tcp_TcpKeepalive : option TCPSettings_TcpKeepalive
}.

Record ConnectionPoolSettings_HTTPSettings := {
  Http1MaxPendingRequests : Z;
  Http2MaxRequests : Z;
  Http_MaxRequestsPerConnection : Z;
  Http_MaxRetries : Z;
  Http_IdleTimeout : option Duration
}.

Record ConnectionPoolSettings := {
  CP_Tcp : option ConnectionPoolSettings_TCPSettings;
  CP_Http : option ConnectionPoolSettings_HTTPSettings
}.

Record PortSelector := { Number : Z }.

Record TrafficPolicy_PortTrafficPolicy := {
  PTP_Port : option PortSelector;
  PTP_LoadBalancer : option LoadBalancerSettings;
  PTP_ConnectionPool : option ConnectionPoolSettings;
  PTP_OutlierDetection : option networking_OutlierDetection;
  PTP_Tls : option TLSSettings
}.

Record TrafficPolicy := {
  TP_LoadBalancer : option LoadBalancerSettings;
  TP_ConnectionPool : option ConnectionPoolSettings;
  TP_OutlierDetection : option networking_OutlierDetection;
  TP_Tls : option TLSSettings;
  TP_PortLevelSettings : list TrafficPolicy_PortTrafficPolicy
}.

Record Subset := {
  Subset_Name : string;
  Subset_Labels : gmap string string;
  Subset_TrafficPolicy : option TrafficPolicy
}.

Record DestinationRule := {
  DR_TrafficPolicy : option TrafficPolicy;
  DR_Subsets : list Subset
}.

Record IngressPort := {
  IP_Number : Z;
  IP_Protocol : string;
  IP_Name : string
}.

Record IstioIngressListener := {
  IL_Port : IngressPort;
  IL_DefaultEndpoint : string
}.

(** ** [istio.io/api/mesh/v1alpha1] *)

Record LocalityLoadBalancerSetting := {
  Distribute : list (string * list (string * Z));
  Failover : list (string * string)
}.

Record MeshConfig := {
  Mesh_ConnectTimeout : Duration;
  Mesh_DnsRefreshRate : option Duration;
  OutboundClusterStatName : string;
  InboundClusterStatName : string;
  Mesh_TcpKeepalive : option TCPSettings_TcpKeepalive;
  SdsUdsPath : string;
  EnableAutoMtls : bool;
  LocalityLbSetting : option LocalityLoadBalancerSetting
}.

(** ** [pilot/pkg/model] *)

Inductive TrafficDirection := TrafficDirectionInbound | TrafficDirectionOutbound.

Record Port := {
  Port_Name : string;
  Port_Port : Z;
  Port_Protocol : Protocol
}.

(** A [*model.Port]: the inbound generator keys a map on the pointer, so the
    address is kept next to the value it points to. *)
Record PortPtr := {
  ptr_addr : N;
  ptr_val : Port
}.

Inductive Resolution := ClientSideLB | DNSLB | Passthrough.

Record ServiceAttributes := {
  Attr_ServiceRegistry : string;
  Attr_Name : string;
  Attr_Namespace : string
}.

Record Service := {
  Hostname : string;
  Svc_Resolution : Resolution;
  MeshExternal : bool;
  Ports : list Port;
  Attributes : ServiceAttributes
}.

Inductive AddressFamily := AddressFamilyTCP | AddressFamilyUnix.

Record NetworkEndpoint := {
  EP_Family : AddressFamily;
  EP_Address : string;
  EP_Port : Z;
  EP_ServicePort : PortPtr;
  EP_UID : string;
  EP_Network : string;
  EP_Locality : string;
  EP_LbWeight : Z
}.

Record ServiceInstance := {
  SI_Endpoint : NetworkEndpoint;
  SI_Service : Service;
  SI_Labels : gmap string string;
  SI_ServiceAccount : string;
  SI_MTLSReady : bool
}.

Record ConfigMeta := {
  CM_Name : string;
  CM_Namespace : string;
  CM_ResourceVersion : string
}.

(** A [model.Config] whose [Spec] is a destination rule. *)
Record Config := {
  Cfg_ConfigMeta : ConfigMeta;
  Cfg_Spec : DestinationRule
}.

(** The sidecar scope of a proxy; [SC_Ingress] is the [Ingress] list of the
    [networking.Sidecar] held by [sidecarScope.Config]. *)
Record SidecarScope := {
  HasCustomIngressListeners : bool;
  SC_Name : string;
  SC_Namespace : string;
  SC_Ingress : list IstioIngressListener
}.

Inductive NodeType := SidecarProxy | Router.
Inductive RouterMode := StandardRouter | SniDnatRouter.
Inductive TrafficInterceptionMode := InterceptionNone | InterceptionTproxy | InterceptionRedirect.

Record NodeMetadata := {
  TLSClientRootCert : string;
  TLSClientCertChain : string;
  TLSClientKey : string
}.

Inductive core_Locality := ConvertLocality (locality : string).

Record Proxy := {
  Proxy_Type : NodeType;
  IPAddresses : list string;
  Proxy_Locality : option core_Locality;
  Proxy_Metadata : NodeMetadata;
  Proxy_SidecarScope : SidecarScope;
  ServiceInstances : list ServiceInstance;
  GetRouterMode : RouterMode;
  GetInterceptionMode : TrafficInterceptionMode
}.

Record Environment := {
  Mesh : MeshConfig;
  InstancesByPort : Service -> Z -> list (gmap string string) -> list ServiceInstance + string;
  ManagementPorts : string -> list Port
}.

(** The read side of [model.PushContext]. *)
Record PushContext := {
  Services : Proxy -> list Service;
  Push_DestinationRule : Proxy -> Service -> option Config;
  ServiceAccounts : string -> Z -> list string
}.

(** What [push.Add] appends to the push context. *)
Inductive PushMetric := DuplicatedClusters.

Record PushEvent := {
  Ev_Metric : PushMetric;
  Ev_Key : string;
  Ev_Proxy : Proxy;
  Ev_Msg : string
}.

(** [model.GetOrDefault]. *)
Definition GetOrDefault (s def : string) : string :=
  if decide (s = "") then def else s.

Definition direction_string (d : TrafficDirection) : string :=
  match d with
  | TrafficDirectionInbound => "inbound"
  | TrafficDirectionOutbound => "outbound"
  end.

(** Modelled from the spec: [model.BuildSubsetKey], which is not part of
    this file; the subset key is [<direction>|<port>|<subsetName>|<hostname>]. *)
Definition BuildSubsetKey (direction : TrafficDirection) (subsetName hostname : string)
    (port : Z) : string :=
  direction_string direction +:+ "|" +:+ Itoa port +:+ "|" +:+ subsetName +:+ "|" +:+ hostname.

(** Modelled from the spec: [model.BuildDNSSrvSubsetKey], the DNS-SRV form
    [<direction>_.<port>_.<subsetName>_.<hostname>]. *)
Definition BuildDNSSrvSubsetKey (direction : TrafficDirection) (subsetName hostname : string)
    (port : Z) : string :=
  direction_string direction +:+ "_." +:+ Itoa port +:+ "_." +:+ subsetName +:+ "_." +:+ hostname.

(** Modelled from the spec: the well-known cluster names of [util]. *)
Definition BlackHoleCluster : string := "BlackHoleCluster".
Definition PassthroughCluster : string := "PassthroughCluster".
Definition InboundPassthroughClusterIpv4 : string := "InboundPassthroughClusterIpv4".
Definition InboundPassthroughClusterIpv6 : string := "InboundPassthroughClusterIpv6".

(** ** [go-control-plane]: the Envoy API *)

Inductive Cluster_DiscoveryType :=
  | Cluster_STATIC
  | Cluster_STRICT_DNS
  | Cluster_LOGICAL_DNS
  | Cluster_EDS
  | Cluster_ORIGINAL_DST.

Inductive Cluster_LbPolicy :=
  | Cluster_ROUND_ROBIN
  | Cluster_LEAST_REQUEST
  | Cluster_RING_HASH
  | Cluster_RANDOM
  | Cluster_ORIGINAL_DST_LB
  | Cluster_MAGLEV
  | Cluster_CLUSTER_PROVIDED.

Inductive Cluster_DnsLookupFamily := Cluster_AUTO | Cluster_V4_ONLY | Cluster_V6_ONLY.

Inductive Cluster_ClusterProtocolSelection :=
  | Cluster_USE_CONFIGURED_PROTOCOL
  | Cluster_USE_DOWNSTREAM_PROTOCOL.

#[global] Instance Cluster_DiscoveryType_eq_dec : EqDecision Cluster_DiscoveryType.
Proof. solve_decision. Defined.

#[global] Instance Cluster_LbPolicy_eq_dec : EqDecision Cluster_LbPolicy.
Proof. solve_decision. Defined.

#[global] Instance TLSmode_eq_dec : EqDecision TLSSettings_TLSmode.
Proof. solve_decision. Defined.

#[global] Instance Resolution_eq_dec : EqDecision Resolution.
Proof. solve_decision. Defined.

#[global] Instance NodeType_eq_dec : EqDecision NodeType.
Proof. solve_decision. Defined.

#[global] Instance RouterMode_eq_dec : EqDecision RouterMode.
Proof. solve_decision. Defined.

#[global] Instance InterceptionMode_eq_dec : EqDecision TrafficInterceptionMode.
Proof. solve_decision. Defined.

#[global] Instance TrafficDirection_eq_dec : EqDecision TrafficDirection.
Proof. solve_decision. Defined.

(** [util.BuildAddress], [util.BuildLbEndpointMetadata] and
    [util.BuildConfigInfoMetadata] build values this file only stores; they
    are kept as the calls that made them. *)
Inductive core_Address := BuildAddress (bind : string) (port : Z).

Inductive core_Metadata :=
  | BuildConfigInfoMetadata (meta : ConfigMeta)
  | BuildLbEndpointMetadata (uid network : string) (mtlsReady : bool).

Record LbEndpoint := {
  LbEp_Address : core_Address;
  LbEp_LoadBalancingWeight : option Z;
  LbEp_Metadata : option core_Metadata
}.

Record LocalityLbEndpoints := {
  LLE_Locality : option core_Locality;
  LbEndpoints : list LbEndpoint;
  LLE_LoadBalancingWeight : option Z;
  LLE_Priority : Z
}.

Record ClusterLoadAssignment := {
  ClusterName : string;
  Endpoints : list LocalityLbEndpoints
}.

Record Cluster_EdsClusterConfig := {
  ServiceName : string;
  EdsConfig_Ads : bool;
  EdsConfig_InitialFetchTimeout : option Duration
}.

Record CircuitBreakers_Thresholds := {
  MaxConnections : option Z;
  MaxPendingRequests : option Z;
  MaxRequests : option Z;
  MaxRetries : option Z
}.

Record v2Cluster_CircuitBreakers := {
  Thresholds : list CircuitBreakers_Thresholds
}.

Record Cluster_OutlierDetection := {
  ConsecutiveGatewayFailure : option Z;
  EnforcingConsecutiveGatewayFailure : option Z;
  EnforcingConsecutive_5Xx : option Z;
  COD_Interval : option Duration;
  COD_BaseEjectionTime : option Duration;
  COD_MaxEjectionPercent : option Z
}.

(** [HealthyPanicThreshold] is a percentage converted from an [int32]; the
    integer is kept. *)
Record Cluster_CommonLbConfig := {
  HealthyPanicThreshold : option Z;
  LocalityWeightedLbConfig : bool
}.

Record core_TcpKeepalive := {
  KeepaliveProbes : option Z;
  KeepaliveTime : option Z;
  KeepaliveInterval : option Z
}.

Record apiv2_UpstreamConnectionOptions := {
  TcpKeepalive : option core_TcpKeepalive
}.

Record core_Http2ProtocolOptions := {
  MaxConcurrentStreams : option Z
}.

Record core_HttpProtocolOptions := {
  IdleTimeout : option Duration
}.

Record Cluster_RingHashLbConfig := {
  RH_MinimumRingSize : option Z
}.

Inductive BindAddress := InboundPassthroughBindIpv4 | InboundPassthroughBindIpv6.

Record core_BindConfig := {
  SourceAddress : BindAddress;
  SourcePortValue : Z
}.

(** *** TLS contexts *)

Record CertificateValidationContext := {
  TrustedCa : option string;
  VerifySubjectAltName : list string
}.

(** The resource names of [authn_model]. *)
Inductive SdsResourceName := SDSDefaultResourceName | SDSRootResourceName.

(** [authn_model.ConstructSdsSecretConfig], kept as the call. *)
Inductive SdsSecretConfig :=
  ConstructSdsSecretConfig (name : SdsResourceName) (sdsUdsPath : string) (meta : NodeMetadata).

Record TlsCertificate := {
  CertificateChain : string;
  PrivateKey : string
}.

Inductive isCommonTlsContext_ValidationContextType :=
  | CommonTlsContext_ValidationContext (ctx : CertificateValidationContext)
  | CommonTlsContext_CombinedValidationContext
      (DefaultValidationContext : CertificateValidationContext)
      (ValidationContextSdsSecretConfig : SdsSecretConfig).

(** The ALPN lists [util.ALPNH2Only], [util.ALPNInMeshH2], [util.ALPNInMesh]. *)
Inductive AlpnProfile := ALPNH2Only | ALPNInMeshH2 | ALPNInMesh.

Record CommonTlsContext := {
  ValidationContextType : option isCommonTlsContext_ValidationContextType;
  TlsCertificates : list TlsCertificate;
  TlsCertificateSdsSecretConfigs : list SdsSecretConfig;
  AlpnProtocols : option AlpnProfile
}.

Record UpstreamTlsContext := {
  UTC_CommonTlsContext : CommonTlsContext;
  UTC_Sni : string
}.

(** A marshalled message. *)
Record Any := { TypeUrl : string; Value : string }.

(** [util.EnvoyRawBufferSocketName] and [util.EnvoyTLSSocketName]. *)
Inductive TransportSocketName := EnvoyRawBufferSocketName | EnvoyTLSSocketName.

Record core_TransportSocket := {
  TS_Name : TransportSocketName;
  TS_TypedConfig : option Any
}.

(** [Match] is a [structpb.Struct] whose values are strings. *)
Record Cluster_TransportSocketMatch := {
  TSM_Name : string;
  TSM_Match : list (string * string);
  TSM_TransportSocket : core_TransportSocket
}.

(** *** The cluster

    [ClusterDiscoveryType] is the [Cluster_Type] case of the oneof, the only
    one this file builds. *)
Record Cluster := mkCluster {
  Name : string;
  AltStatName : string;
  ClusterDiscoveryType : Cluster_DiscoveryType;
  EdsClusterConfig : option Cluster_EdsClusterConfig;
  ConnectTimeout : option Duration;
  LbPolicy : Cluster_LbPolicy;
  LoadAssignment : option ClusterLoadAssignment;
  CircuitBreakers : option v2Cluster_CircuitBreakers;
  TlsContext : option UpstreamTlsContext;
  Http2ProtocolOptions : option core_Http2ProtocolOptions;
  CommonHttpProtocolOptions : option core_HttpProtocolOptions;
  MaxRequestsPerConnection : option Z;
  DnsRefreshRate : option Duration;
  DnsLookupFamily : Cluster_DnsLookupFamily;
  RespectDnsTtl : bool;
  OutlierDetection : option Cluster_OutlierDetection;
  UpstreamBindConfig : option core_BindConfig;
  LbConfig : option Cluster_RingHashLbConfig;
  CommonLbConfig : option Cluster_CommonLbConfig;
  UpstreamConnectionOptions : option apiv2_UpstreamConnectionOptions;
  ProtocolSelection : Cluster_ClusterProtocolSelection;
  Metadata : option core_Metadata;
  TransportSocketMatches : list Cluster_TransportSocketMatch
}.

Definition set_Name (v : string) (c : Cluster) : Cluster :=
  let '(mkCluster _ x1 x2 x3 x4 x5 x6 x7 x8 x9 x10 x11 x12 x13 x14 x15 x16 x17 x18 x19 x20 x21 x22) := c in
  mkCluster v x1 x2 x3 x4 x5 x6 x7 x8 x9 x10 x11 x12 x13 x14 x15 x16 x17 x18 x19 x20 x21 x22.
Definition set_AltStatName (v : string) (c : Cluster) : Cluster :=
  let '(mkCluster x0 _ x2 x3 x4 x5 x6 x7 x8 x9 x10 x11 x12 x13 x14 x15 x16 x17 x18 x19 x20 x21 x22) := c in
  mkCluster x0 v x2 x3 x4 x5 x6 x7 x8 x9 x10 x11 x12 x13 x14 x15 x16 x17 x18 x19 x20 x21 x22.
Definition set_ClusterDiscoveryType (v : Cluster_DiscoveryType) (c : Cluster) : Cluster :=
  let '(mkCluster x0 x1 _ x3 x4 x5 x6 x7 x8 x9 x10 x11 x12 x13 x14 x15 x16 x17 x18 x19 x20 x21 x22) := c in
  mkCluster x0 x1 v x3 x4 x5 x6 x7 x8 x9 x10 x11 x12 x13 x14 x15 x16 x17 x18 x19 x20 x21 x22.
Definition set_EdsClusterConfig (v : option Cluster_EdsClusterConfig) (c : Cluster) : Cluster :=
  let '(mkCluster x0 x1 x2 _ x4 x5 x6 x7 x8 x9 x10 x11 x12 x13 x14 x15 x16 x17 x18 x19 x20 x21 x22) := c in
  mkCluster x0 x1 x2 v x4 x5 x6 x7 x8 x9 x10 x11 x12 x13 x14 x15 x16 x17 x18 x19 x20 x21 x22.
Definition set_ConnectTimeout (v : option Duration) (c : Cluster) : Cluster :=
  let '(mkCluster x0 x1 x2 x3 _ x5 x6 x7 x8 x9 x10 x11 x12 x13 x14 x15 x16 x17 x18 x19 x20 x21 x22) := c in
  mkCluster x0 x1 x2 x3 v x5 x6 x7 x8 x9 x10 x11 x12 x13 x14 x15 x16 x17 x18 x19 x20 x21 x22.
Definition set_LbPolicy (v : Cluster_LbPolicy) (c : Cluster) : Cluster :=
  let '(mkCluster x0 x1 x2 x3 x4 _ x6 x7 x8 x9 x10 x11 x12 x13 x14 x15 x16 x17 x18 x19 x20 x21 x22) := c in
  mkCluster x0 x1 x2 x3 x4 v x6 x7 x8 x9 x10 x11 x12 x13 x14 x15 x16 x17 x18 x19 x20 x21 x22.
Definition set_LoadAssignment (v : option ClusterLoadAssignment) (c : Cluster) : Cluster :=
  let '(mkCluster x0 x1 x2 x3 x4 x5 _ x7 x8 x9 x10 x11 x12 x13 x14 x15 x16 x17 x18 x19 x20 x21 x22) := c in
  mkCluster x0 x1 x2 x3 x4 x5 v x7 x8 x9 x10 x11 x12 x13 x14 x15 x16 x17 x18 x19 x20 x21 x22.
Definition set_CircuitBreakers (v : option v2Cluster_CircuitBreakers) (c : Cluster) : Cluster :=
  let '(mkCluster x0 x1 x2 x3 x4 x5 x6 _ x8 x9 x10 x11 x12 x13 x14 x15 x16 x17 x18 x19 x20 x21 x22) := c in
  mkCluster x0 x1 x2 x3 x4 x5 x6 v x8 x9 x10 x11 x12 x13 x14 x15 x16 x17 x18 x19 x20 x21 x22.
Definition set_TlsContext (v : option UpstreamTlsContext) (c : Cluster) : Cluster :=
  let '(mkCluster x0 x1 x2 x3 x4 x5 x6 x7 _ x9 x10 x11 x12 x13 x14 x15 x16 x17 x18 x19 x20 x21 x22) := c in
  mkCluster x0 x1 x2 x3 x4 x5 x6 x7 v x9 x10 x11 x12 x13 x14 x15 x16 x17 x18 x19 x20 x21 x22.
Definition set_Http2ProtocolOptions (v : option core_Http2ProtocolOptions) (c : Cluster) : Cluster :=
  let '(mkCluster x0 x1 x2 x3 x4 x5 x6 x7 x8 _ x10 x11 x12 x13 x14 x15 x16 x17 x18 x19 x20 x21 x22) := c in
  mkCluster x0 x1 x2 x3 x4 x5 x6 x7 x8 v x10 x11 x12 x13 x14 x15 x16 x17 x18 x19 x20 x21 x22.
Definition set_CommonHttpProtocolOptions (v : option core_HttpProtocolOptions) (c : Cluster) : Cluster :=
  let '(mkCluster x0 x1 x2 x3 x4 x5 x6 x7 x8 x9 _ x11 x12 x13 x14 x15 x16 x17 x18 x19 x20 x21 x22) := c in
  mkCluster x0 x1 x2 x3 x4 x5 x6 x7 x8 x9 v x11 x12 x13 x14 x15 x16 x17 x18 x19 x20 x21 x22.
Definition set_MaxRequestsPerConnection (v : option Z) (c : Cluster) : Cluster :=
  let '(mkCluster x0 x1 x2 x3 x4 x5 x6 x7 x8 x9 x10 _ x12 x13 x14 x15 x16 x17 x18 x19 x20 x21 x22) := c in
  mkCluster x0 x1 x2 x3 x4 x5 x6 x7 x8 x9 x10 v x12 x13 x14 x15 x16 x17 x18 x19 x20 x21 x22.
Definition set_DnsRefreshRate (v : option Duration) (c : Cluster) : Cluster :=
  let '(mkCluster x0 x1 x2 x3 x4 x5 x6 x7 x8 x9 x10 x11 _ x13 x14 x15 x16 x17 x18 x19 x20 x21 x22) := c in
  mkCluster x0 x1 x2 x3 x4 x5 x6 x7 x8 x9 x10 x11 v x13 x14 x15 x16 x17 x18 x19 x20 x21 x22.
Definition set_DnsLookupFamily (v : Cluster_DnsLookupFamily) (c : Cluster) : Cluster :=
  let '(mkCluster x0 x1 x2 x3 x4 x5 x6 x7 x8 x9 x10 x11 x12 _ x14 x15 x16 x17 x18 x19 x20 x21 x22) := c in
  mkCluster x0 x1 x2 x3 x4 x5 x6 x7 x8 x9 x10 x11 x12 v x14 x15 x16 x17 x18 x19 x20 x21 x22.
Definition set_RespectDnsTtl (v : bool) (c : Cluster) : Cluster :=
  let '(mkCluster x0 x1 x2 x3 x4 x5 x6 x7 x8 x9 x10 x11 x12 x13 _ x15 x16 x17 x18 x19 x20 x21 x22) := c in
  mkCluster x0 x1 x2 x3 x4 x5 x6 x7 x8 x9 x10 x11 x12 x13 v x15 x16 x17 x18 x19 x20 x21 x22.
Definition set_OutlierDetection (v : option Cluster_OutlierDetection) (c : Cluster) : Cluster :=
  let '(mkCluster x0 x1 x2 x3 x4 x5 x6 x7 x8 x9 x10 x11 x12 x13 x14 _ x16 x17 x18 x19 x20 x21 x22) := c in
  mkCluster x0 x1 x2 x3 x4 x5 x6 x7 x8 x9 x10 x11 x12 x13 x14 v x16 x17 x18 x19 x20 x21 x22.
Definition set_UpstreamBindConfig (v : option core_BindConfig) (c : Cluster) : Cluster :=
  let '(mkCluster x0 x1 x2 x3 x4 x5 x6 x7 x8 x9 x10 x11 x12 x13 x14 x15 _ x17 x18 x19 x20 x21 x22) := c in
  mkCluster x0 x1 x2 x3 x4 x5 x6 x7 x8 x9 x10 x11 x12 x13 x14 x15 v x17 x18 x19 x20 x21 x22.
Definition set_LbConfig (v : option Cluster_RingHashLbConfig) (c : Cluster) : Cluster :=
  let '(mkCluster x0 x1 x2 x3 x4 x5 x6 x7 x8 x9 x10 x11 x12 x13 x14 x15 x16 _ x18 x19 x20 x21 x22) := c in
  mkCluster x0 x1 x2 x3 x4 x5 x6 x7 x8 x9 x10 x11 x12 x13 x14 x15 x16 v x18 x19 x20 x21 x22.
Definition set_CommonLbConfig (v : option Cluster_CommonLbConfig) (c : Cluster) : Cluster :=
  let '(mkCluster x0 x1 x2 x3 x4 x5 x6 x7 x8 x9 x10 x11 x12 x13 x14 x15 x16 x17 _ x19 x20 x21 x22) := c in
  mkCluster x0 x1 x2 x3 x4 x5 x6 x7 x8 x9 x10 x11 x12 x13 x14 x15 x16 x17 v x19 x20 x21 x22.
Definition set_UpstreamConnectionOptions (v : option apiv2_UpstreamConnectionOptions) (c : Cluster) : Cluster :=
  let '(mkCluster x0 x1 x2 x3 x4 x5 x6 x7 x8 x9 x10 x11 x12 x13 x14 x15 x16 x17 x18 _ x20 x21 x22) := c in
  mkCluster x0 x1 x2 x3 x4 x5 x6 x7 x8 x9 x10 x11 x12 x13 x14 x15 x16 x17 x18 v x20 x21 x22.
Definition set_ProtocolSelection (v : Cluster_ClusterProtocolSelection) (c : Cluster) : Cluster :=
  let '(mkCluster x0 x1 x2 x3 x4 x5 x6 x7 x8 x9 x10 x11 x12 x13 x14 x15 x16 x17 x18 x19 _ x21 x22) := c in
  mkCluster x0 x1 x2 x3 x4 x5 x6 x7 x8 x9 x10 x11 x12 x13 x14 x15 x16 x17 x18 x19 v x21 x22.
Definition set_Metadata (v : option core_Metadata) (c : Cluster) : Cluster :=
  let '(mkCluster x0 x1 x2 x3 x4 x5 x6 x7 x8 x9 x10 x11 x12 x13 x14 x15 x16 x17 x18 x19 x20 _ x22) := c in
  mkCluster x0 x1 x2 x3 x4 x5 x6 x7 x8 x9 x10 x11 x12 x13 x14 x15 x16 x17 x18 x19 x20 v x22.
Definition set_TransportSocketMatches (v : list Cluster_TransportSocketMatch) (c : Cluster) : Cluster :=
  let '(mkCluster x0 x1 x2 x3 x4 x5 x6 x7 x8 x9 x10 x11 x12 x13 x14 x15 x16 x17 x18 x19 x20 x21 _) := c in
  mkCluster x0 x1 x2 x3 x4 x5 x6 x7 x8 x9 x10 x11 x12 x13 x14 x15 x16 x17 x18 x19 x20 x21 v.

(** ** Collaborators

    Plugins are the [OnOutboundCluster] and [OnInboundCluster] callbacks of
    [plugin.Plugin]; they receive the cluster and may update it. *)

Record InputParams := {
  Params_Env : Environment;
  Params_Push : PushContext;
  Params_Node : Proxy;
  Params_Service : option Service;
  Params_Port : option Port;
  Params_ServiceInstance : option ServiceInstance;
  Params_Bind : string
}.

Record Plugin := {
  OnOutboundCluster : InputParams -> Cluster -> Cluster;
  OnInboundCluster : InputParams -> Cluster -> Cluster
}.

Record ConfigGeneratorImpl := {
  Plugins : list Plugin
}.

Inductive EnvoyFilter_PatchContext :=
  | EnvoyFilter_SIDECAR_INBOUND
  | EnvoyFilter_SIDECAR_OUTBOUND
  | EnvoyFilter_GATEWAY.

(** Functions, feature flags and constants of other packages ([util],
    [features], [constants], [protocol], [loadbalancer], [envoyfilter],
    [ptypes], [strings], [strconv]) and of the listener builder, which the
    cluster builder calls and which are not defined in cluster.go. *)
Record Externals := {
  IsHTTP2 : Protocol -> bool;
  protocol_Parse : string -> Protocol;
  IsIstioVersionGE13 : Proxy -> bool;
  IsProtocolSniffingEnabledForInboundPort : Proxy -> Port -> bool;
  IsProtocolSniffingEnabledForOutboundPort : Proxy -> Port -> bool;
  EnableRedisFilter : bool;
  RespectDNSTTL : bool;
  InitialFetchTimeout : option Duration;
  DefaultRootCert : string;
  DefaultCertChain : string;
  DefaultKey : string;
  MTLSReadyLabelShortname : string;
  KubernetesRegistry : string;
  UnixAddressPrefix : string;
  GetNetworkView : Proxy -> gmap string bool;
  GetLocality : ServiceInstance -> string;
  LocalityLbWeightNormalize : list LocalityLbEndpoints -> list LocalityLbEndpoints;
  ipv4AndIpv6Support : Proxy -> bool * bool;
  getActualWildcardAndLocalHost : Proxy -> string * string;
  ApplyLocalityLBSetting :
    core_Locality -> ClusterLoadAssignment -> LocalityLoadBalancerSetting -> bool ->
    ClusterLoadAssignment;
  ApplyClusterPatches :
    EnvoyFilter_PatchContext -> Proxy -> PushContext -> list Cluster -> list Cluster;
  MarshalAny : option UpstreamTlsContext -> Any + string;
  ReplaceAll : string -> string -> string -> string;
  Split : string -> string -> list string;
  Atoi : string -> Z + string
}.

(** ** cluster.go *)

Definition ManagementClusterHostname : string := "mgmtCluster".

Definition serviceStatPattern : string := "%SERVICE%".
Definition serviceFQDNStatPattern : string := "%SERVICE_FQDN%".
Definition servicePortStatPattern : string := "%SERVICE_PORT%".
Definition servicePortNameStatPattern : string := "%SERVICE_PORT_NAME%".
Definition subsetNameStatPattern : string := "%SUBSET_NAME%".

Definition DefaultLbType : LoadBalancerSettings_SimpleLB := LoadBalancerSettings_ROUND_ROBIN.

Definition defaultInboundCircuitBreakerThresholds : CircuitBreakers_Thresholds :=
  {| MaxConnections := None; MaxPendingRequests := None; MaxRequests := None;
     MaxRetries := None |}.

Definition defaultOutboundCircuitBreakerThresholds : CircuitBreakers_Thresholds :=
  {| MaxConnections := None; MaxPendingRequests := None; MaxRequests := None;
     MaxRetries := Some 1024 |}.

Definition defaultDestinationRule : DestinationRule :=
  {| DR_TrafficPolicy := None; DR_Subsets := [] |}.

Definition plaintextTransportSocketMatch : Cluster_TransportSocketMatch :=
  {| TSM_Name := "plaintext";
     TSM_Match := [];
     TSM_TransportSocket :=
       {| TS_Name := EnvoyRawBufferSocketName; TS_TypedConfig := None |} |}.

Definition getDefaultCircuitBreakerThresholds (direction : TrafficDirection)
  : CircuitBreakers_Thresholds :=
  if decide (direction = TrafficDirectionInbound)
  then defaultInboundCircuitBreakerThresholds
  else defaultOutboundCircuitBreakerThresholds.

(** The zero value [&apiv2.Cluster{}]. *)
Definition emptyCluster : Cluster :=
  {| Name := ""; AltStatName := ""; ClusterDiscoveryType := Cluster_STATIC;
     EdsClusterConfig := None; ConnectTimeout := None; LbPolicy := Cluster_ROUND_ROBIN;
     LoadAssignment := None; CircuitBreakers := None; TlsContext := None;
     Http2ProtocolOptions := None; CommonHttpProtocolOptions := None;
     MaxRequestsPerConnection := None; DnsRefreshRate := None;
     DnsLookupFamily := Cluster_AUTO; RespectDnsTtl := false; OutlierDetection := None;
     UpstreamBindConfig := None; LbConfig := None; CommonLbConfig := None;
     UpstreamConnectionOptions := None; ProtocolSelection := Cluster_USE_CONFIGURED_PROTOCOL;
     Metadata := None; TransportSocketMatches := [] |}.

(** The event [normalizeClusters] hands to [push.Add] for a rejected cluster. *)
Definition duplicateEvent (proxy : Proxy) (cluster : Cluster) : PushEvent :=
  {| Ev_Metric := DuplicatedClusters;
     Ev_Key := Name cluster;
     Ev_Proxy := proxy;
     Ev_Msg := "Duplicate cluster " +:+ Name cluster +:+ " found while pushing CDS" |}.

(** One iteration of the loop of [normalizeClusters]; the state is the map
    [have], the slice [out] and the events recorded by [push.Add] so far. *)
Definition normalizeStep (proxy : Proxy)
    (state : gmap string bool * list Cluster * list PushEvent) (cluster : Cluster)
  : gmap string bool * list Cluster * list PushEvent :=
  let '(have, out, events) := state in
  let '(out, events) :=
    if negb (default false (have !! Name cluster))
    then (out ++ [cluster], events)
    else (out, events ++ [duplicateEvent proxy cluster]) in
  (<[Name cluster := true]> have, out, events).

(** [normalizeClusters]: the clusters kept, and the events recorded, in the
    order of the calls. *)
Definition normalizeClusters (proxy : Proxy) (clusters : list Cluster)
  : list Cluster * list PushEvent :=
  let '(_, out, events) := foldl (normalizeStep proxy) (∅, [], []) clusters in
  (out, events).

Definition castDestinationRuleOrDefault (config : option Config) : DestinationRule :=
  match config with
  | Some config => Cfg_Spec config
  | None => defaultDestinationRule
  end.

Inductive mtlsContextType := userSupplied | autoDetected.

#[global] Instance mtlsContextType_eq_dec : EqDecision mtlsContextType.
Proof. solve_decision. Defined.

Inductive ClusterMode := SniDnatClusterMode | DefaultClusterMode.

#[global] Instance ClusterMode_eq_dec : EqDecision ClusterMode.
Proof. solve_decision. Defined.

Record buildClusterOpts := {
  opts_env : Environment;
  opts_cluster : Cluster;
  opts_policy : option TrafficPolicy;
  opts_port : option Port;
  opts_serviceAccounts : list string;
  opts_sni : string;
  opts_clusterMode : ClusterMode;
  opts_direction : TrafficDirection;
  opts_proxy : Proxy;
  opts_meshExternal : bool
}.

(** The loop of [SelectTrafficPolicyComponents] over the port-level
    settings: the entry at which [foundPort] becomes true, if any. *)
Fixpoint findPortLevelSettings (port : Port) (ps : list TrafficPolicy_PortTrafficPolicy)
  : option TrafficPolicy_PortTrafficPolicy :=
  match ps with
  | [] => None
  | p :: rest =>
      let foundPort :=
        match PTP_Port p with
        | Some sel => bool_decide (uint32 (Port_Port port) = Number sel)
        | None => false
        end in
      if foundPort then Some p else findPortLevelSettings port rest
  end.

Definition SelectTrafficPolicyComponents (policy : option TrafficPolicy) (port : option Port)
  : option ConnectionPoolSettings * option networking_OutlierDetection
    * option LoadBalancerSettings * option TLSSettings :=
  match policy with
  | None => (None, None, None, None)
  | Some policy =>
      let connectionPool := TP_ConnectionPool policy in
      let outlierDetection := TP_OutlierDetection policy in
      let loadBalancer := TP_LoadBalancer policy in
      let tls := TP_Tls policy in
      match port with
      | Some port =>
          if decide (0 < length (TP_PortLevelSettings policy))%nat then
            match findPortLevelSettings port (TP_PortLevelSettings policy) with
            | Some p =>
                (PTP_ConnectionPool p, PTP_OutlierDetection p, PTP_LoadBalancer p, PTP_Tls p)
            | None => (connectionPool, outlierDetection, loadBalancer, tls)
            end
          else (connectionPool, outlierDetection, loadBalancer, tls)
      | None => (connectionPool, outlierDetection, loadBalancer, tls)
      end
  end.

Section Builder.

Context (X : Externals).

Definition updateEds (cluster : Cluster) : Cluster :=
  if decide (ClusterDiscoveryType cluster ≠ Cluster_EDS) then cluster
  else
    set_EdsClusterConfig
      (Some {| ServiceName := Name cluster;
               EdsConfig_Ads := true;
               EdsConfig_InitialFetchTimeout := InitialFetchTimeout X |})
      cluster.

Definition lbPolicyClusterProvided (proxy : Proxy) : Cluster_LbPolicy :=
  if IsIstioVersionGE13 X proxy then Cluster_CLUSTER_PROVIDED else Cluster_ORIGINAL_DST_LB.

Definition convertResolution (proxy : Proxy) (resolution : Resolution)
  : Cluster_DiscoveryType :=
  match resolution with
  | ClientSideLB => Cluster_EDS
  | DNSLB => Cluster_STRICT_DNS
  | Passthrough =>
      if decide (Proxy_Type proxy = SidecarProxy) then Cluster_ORIGINAL_DST else Cluster_EDS
  end.

(** [buildIstioMutualTLS]. *)
Definition buildIstioMutualTLS (serviceAccounts : list string) (sni : string) (proxy : Proxy)
  : TLSSettings :=
  {| TLS_Mode := TLSSettings_ISTIO_MUTUAL;
     TLS_CaCertificates :=
       GetOrDefault (TLSClientRootCert (Proxy_Metadata proxy)) (DefaultRootCert X);
     TLS_ClientCertificate :=
       GetOrDefault (TLSClientCertChain (Proxy_Metadata proxy)) (DefaultCertChain X);
     TLS_PrivateKey := GetOrDefault (TLSClientKey (Proxy_Metadata proxy)) (DefaultKey X);
     TLS_SubjectAltNames := serviceAccounts;
     TLS_Sni := sni |}.

Definition conditionallyConvertToIstioMtls (tls : option TLSSettings)
    (serviceAccounts : list string) (sni : string) (proxy : Proxy)
    (autoMTLSEnabled meshExternal : bool) : option TLSSettings * mtlsContextType :=
  let istioMutual (tls : TLSSettings) (mtlsCtx : mtlsContextType) :=
    if decide (TLS_Mode tls = TLSSettings_ISTIO_MUTUAL) then
      let sniToUse := if decide (TLS_Sni tls = "") then sni else TLS_Sni tls in
      let subjectAltNamesToUse :=
        if decide (length (TLS_SubjectAltNames tls) = 0%nat) then serviceAccounts
        else TLS_SubjectAltNames tls in
      (Some (buildIstioMutualTLS subjectAltNamesToUse sniToUse proxy), mtlsCtx)
    else (Some tls, mtlsCtx) in
  match tls with
  | None =>
      if meshExternal || negb autoMTLSEnabled then (None, userSupplied)
      else
        istioMutual
          {| TLS_Mode := TLSSettings_ISTIO_MUTUAL; TLS_ClientCertificate := "";
             TLS_PrivateKey := ""; TLS_CaCertificates := ""; TLS_SubjectAltNames := [];
             TLS_Sni := "" |}
          autoDetected
  | Some tls => istioMutual tls userSupplied
  end.

(** [applyTCPKeepalive]; [tcp] is [settings.Tcp], which the caller has
    checked to be non-nil. *)
Definition applyTCPKeepalive (env : Environment) (cluster : Cluster)
    (tcp : ConnectionPoolSettings_TCPSettings) : Cluster :=
  let '(keepaliveProbes, keepaliveTime, keepaliveInterval, isTCPKeepaliveSet) :=
    match Mesh_TcpKeepalive (Mesh env) with
    | Some ka => (KA_Probes ka, KA_Time ka, KA_Interval ka, true)
    | None => (0, None, None, false)
    end in
  let '(keepaliveProbes, keepaliveTime, keepaliveInterval, isTCPKeepaliveSet) :=
    match Tcp_TcpKeepalive tcp with
    | Some ka => (KA_Probes ka, KA_Time ka, KA_Interval ka, true)
    | None => (keepaliveProbes, keepaliveTime, keepaliveInterval, isTCPKeepaliveSet)
    end in
  if negb isTCPKeepaliveSet then cluster
  else
    let keepalive :=
      {| KeepaliveProbes := if 0 <? keepaliveProbes then Some keepaliveProbes else None;
         KeepaliveTime := (fun d => uint32 (Seconds d)) <$> keepaliveTime;
         KeepaliveInterval := (fun d => uint32 (Seconds d)) <$> keepaliveInterval |} in
    set_UpstreamConnectionOptions (Some {| TcpKeepalive := Some keepalive |}) cluster.

Definition applyConnectionPool (env : Environment) (cluster : Cluster)
    (settings : option ConnectionPoolSettings) (direction : TrafficDirection) : Cluster :=
  match settings with
  | None => cluster
  | Some settings =>
      let threshold := getDefaultCircuitBreakerThresholds direction in
      let '(threshold, cluster, idleTimeout) :=
        match CP_Http settings with
        | Some http =>
            let threshold :=
              if 0 <? Http2MaxRequests http
              then {| MaxConnections := MaxConnections threshold;
                      MaxPendingRequests := MaxPendingRequests threshold;
                      MaxRequests := Some (uint32 (Http2MaxRequests http));
                      MaxRetries := MaxRetries threshold |}
              else threshold in
            let threshold :=
              if 0 <? Http1MaxPendingRequests http
              then {| MaxConnections := MaxConnections threshold;
                      MaxPendingRequests := Some (uint32 (Http1MaxPendingRequests http));
                      MaxRequests := MaxRequests threshold;
                      MaxRetries := MaxRetries threshold |}
              else threshold in
            let cluster :=
              if 0 <? Http_MaxRequestsPerConnection http
              then set_MaxRequestsPerConnection
                     (Some (uint32 (Http_MaxRequestsPerConnection http))) cluster
              else cluster in
            let threshold :=
              if 0 <? Http_MaxRetries http
              then {| MaxConnections := MaxConnections threshold;
                      MaxPendingRequests := MaxPendingRequests threshold;
                      MaxRequests := MaxRequests threshold;
                      MaxRetries := Some (uint32 (Http_MaxRetries http)) |}
              else threshold in
            (threshold, cluster, Http_IdleTimeout http)
        | None => (threshold, cluster, None)
        end in
      let '(threshold, cluster) :=
        match CP_Tcp settings with
        | Some tcp =>
            let cluster :=
              match Tcp_ConnectTimeout tcp with
              | Some d => set_ConnectTimeout (DurationToProtoDuration (Some d)) cluster
              | None => cluster
              end in
            let threshold :=
              if 0 <? Tcp_MaxConnections tcp
              then {| MaxConnections := Some (uint32 (Tcp_MaxConnections tcp));
                      MaxPendingRequests := MaxPendingRequests threshold;
                      MaxRequests := MaxRequests threshold;
                      MaxRetries := MaxRetries threshold |}
              else threshold in
            (threshold, applyTCPKeepalive env cluster tcp)
        | None => (threshold, cluster)
        end in
      let cluster := set_CircuitBreakers (Some {| Thresholds := [threshold] |}) cluster in
      match idleTimeout with
      | Some d =>
          set_CommonHttpProtocolOptions
            (Some {| IdleTimeout := DurationToProtoDuration (Some d) |}) cluster
      | None => cluster
      end
  end.

Definition applyOutlierDetection (cluster : Cluster)
    (outlier : option networking_OutlierDetection) : Cluster :=
  match outlier with
  | None => cluster
  | Some outlier =>
      let enforced := bool_decide (0 < OD_ConsecutiveErrors outlier) in
      let out :=
        {| COD_BaseEjectionTime := DurationToProtoDuration (OD_BaseEjectionTime outlier);
           EnforcingConsecutiveGatewayFailure := if enforced then Some 100 else None;
           EnforcingConsecutive_5Xx := if enforced then Some 0 else None;
           ConsecutiveGatewayFailure :=
             if enforced then Some (uint32 (OD_ConsecutiveErrors outlier)) else None;
           COD_Interval := DurationToProtoDuration (OD_Interval outlier);
           COD_MaxEjectionPercent :=
             if 0 <? OD_MaxEjectionPercent outlier
             then Some (uint32 (OD_MaxEjectionPercent outlier)) else None |} in
      let cluster := set_OutlierDetection (Some out) cluster in
      if 0 <=? OD_MinHealthPercent outlier then
        let common :=
          default {| HealthyPanicThreshold := None; LocalityWeightedLbConfig := false |}
                  (CommonLbConfig cluster) in
        set_CommonLbConfig
          (Some {| HealthyPanicThreshold := Some (OD_MinHealthPercent outlier);
                   LocalityWeightedLbConfig := LocalityWeightedLbConfig common |})
          cluster
      else cluster
  end.

Definition applyLoadBalancer (cluster : Cluster) (lb : option LoadBalancerSettings)
    (port : option Port) (proxy : Proxy) : Cluster :=
  let cluster :=
    match OutlierDetection cluster with
    | Some _ =>
        let common :=
          default {| HealthyPanicThreshold := None; LocalityWeightedLbConfig := false |}
                  (CommonLbConfig cluster) in
        set_CommonLbConfig
          (Some {| HealthyPanicThreshold := HealthyPanicThreshold common;
                   LocalityWeightedLbConfig := true |})
          cluster
    | None => cluster
    end in
  match lb with
  | None => cluster
  | Some lb =>
      if decide (ClusterDiscoveryType cluster = Cluster_ORIGINAL_DST) then
        set_LbPolicy (lbPolicyClusterProvided proxy) cluster
      else if EnableRedisFilter X
              && match port with
                 | Some port => bool_decide (Port_Protocol port = protocol_Redis)
                 | None => false
                 end then
        set_LbPolicy Cluster_MAGLEV cluster
      else
        let cluster :=
          match GetSimple lb with
          | LoadBalancerSettings_LEAST_CONN => set_LbPolicy Cluster_LEAST_REQUEST cluster
          | LoadBalancerSettings_RANDOM => set_LbPolicy Cluster_RANDOM cluster
          | LoadBalancerSettings_ROUND_ROBIN => set_LbPolicy Cluster_ROUND_ROBIN cluster
          | LoadBalancerSettings_PASSTHROUGH =>
              set_ClusterDiscoveryType Cluster_ORIGINAL_DST
                (set_LbPolicy (lbPolicyClusterProvided proxy) cluster)
          end in
        match GetConsistentHash lb with
        | Some consistentHash =>
            let minRingSize :=
              if decide (MinimumRingSize consistentHash ≠ 0)
              then MinimumRingSize consistentHash else 1024 in
            set_LbConfig (Some {| RH_MinimumRingSize := Some minRingSize |})
              (set_LbPolicy Cluster_RING_HASH cluster)
        | None => cluster
        end
  end.

Definition applyLocalityLBSetting (locality : option core_Locality) (clusters : list Cluster)
    (localityLB : option LocalityLoadBalancerSetting) : list Cluster :=
  match locality, localityLB with
  | Some locality, Some localityLB =>
      (fun cluster =>
         let enabledFailover := bool_decide (is_Some (OutlierDetection cluster)) in
         match LoadAssignment cluster with
         | Some la =>
             set_LoadAssignment
               (Some (ApplyLocalityLBSetting X locality la localityLB enabledFailover)) cluster
         | None => cluster
         end) <$> clusters
  | _, _ => clusters
  end.

(** The [switch tls.Mode] of [applyUpstreamTLSSettings]: the cluster after
    the switch, or [None] where the function returns from inside it. *)
Definition applyTLSMode (env : Environment) (cluster : Cluster) (tls : TLSSettings)
    (proxy : Proxy) (certValidationContext : CertificateValidationContext)
  : option Cluster :=
  match TLS_Mode tls with
  | TLSSettings_DISABLE => Some (set_TlsContext None cluster)
  | TLSSettings_SIMPLE =>
      Some
        (set_TlsContext
           (Some
              {| UTC_CommonTlsContext :=
                   {| ValidationContextType :=
                        Some (CommonTlsContext_ValidationContext certValidationContext);
                      TlsCertificates := [];
                      TlsCertificateSdsSecretConfigs := [];
                      AlpnProtocols :=
                        match Http2ProtocolOptions cluster with
                        | Some _ => Some ALPNH2Only
                        | None => None
                        end |};
                 UTC_Sni := TLS_Sni tls |})
           cluster)
  | TLSSettings_MUTUAL | TLSSettings_ISTIO_MUTUAL =>
      if bool_decide (TLS_ClientCertificate tls = "") || bool_decide (TLS_PrivateKey tls = "")
      then None
      else
        let fileMount :=
          bool_decide (SdsUdsPath (Mesh env) = "")
          || bool_decide (TLS_Mode tls = TLSSettings_MUTUAL) in
        let istioMutual := bool_decide (TLS_Mode tls = TLSSettings_ISTIO_MUTUAL) in
        let alpn :=
          match Http2ProtocolOptions cluster with
          | Some _ => if istioMutual then Some ALPNInMeshH2 else Some ALPNH2Only
          | None => if istioMutual then Some ALPNInMesh else None
          end in
        let common :=
          if fileMount then
            {| ValidationContextType :=
                 Some (CommonTlsContext_ValidationContext certValidationContext);
               TlsCertificates :=
                 [ {| CertificateChain :=
                        GetOrDefault (TLSClientCertChain (Proxy_Metadata proxy))
                                     (TLS_ClientCertificate tls);
                      PrivateKey :=
                        GetOrDefault (TLSClientKey (Proxy_Metadata proxy))
                                     (TLS_PrivateKey tls) |} ];
               TlsCertificateSdsSecretConfigs := [];
               AlpnProtocols := alpn |}
          else
            {| ValidationContextType :=
                 Some (CommonTlsContext_CombinedValidationContext
                         {| TrustedCa := None;
                            VerifySubjectAltName := TLS_SubjectAltNames tls |}
                         (ConstructSdsSecretConfig SDSRootResourceName
                            (SdsUdsPath (Mesh env)) (Proxy_Metadata proxy)));
               TlsCertificates := [];
               TlsCertificateSdsSecretConfigs :=
                 [ ConstructSdsSecretConfig SDSDefaultResourceName
                     (SdsUdsPath (Mesh env)) (Proxy_Metadata proxy) ];
               AlpnProtocols := alpn |} in
        let sni :=
          if bool_decide (TLS_Sni tls = "") && istioMutual then Name cluster
          else TLS_Sni tls in
        Some (set_TlsContext (Some {| UTC_CommonTlsContext := common; UTC_Sni := sni |})
                cluster)
  end.

(** The two-entry list installed when the mode was auto detected. *)
Definition autoMtlsTransportSocketMatches (tlsContext : Any)
  : list Cluster_TransportSocketMatch :=
  [ {| TSM_Name := "mtls";
       TSM_Match := [ (MTLSReadyLabelShortname X, "true") ];
       TSM_TransportSocket :=
         {| TS_Name := EnvoyTLSSocketName; TS_TypedConfig := Some tlsContext |} |};
    plaintextTransportSocketMatch ].

Definition applyUpstreamTLSSettings (env : Environment) (cluster : Cluster)
    (tls : option TLSSettings) (mtlsCtxType : mtlsContextType) (proxy : Proxy) : Cluster :=
  match tls with
  | None => cluster
  | Some tls =>
      let trustedCa :=
        if decide (TLS_CaCertificates tls ≠ "")
        then Some (GetOrDefault (TLSClientRootCert (Proxy_Metadata proxy))
                     (TLS_CaCertificates tls))
        else None in
      let certValidationContext :=
        if bool_decide (is_Some trustedCa)
           || bool_decide (0 < length (TLS_SubjectAltNames tls))%nat
        then {| TrustedCa := trustedCa; VerifySubjectAltName := TLS_SubjectAltNames tls |}
        else {| TrustedCa := None; VerifySubjectAltName := [] |} in
      match applyTLSMode env cluster tls proxy certValidationContext with
      | None => cluster
      | Some cluster =>
          if bool_decide (TLS_Mode tls = TLSSettings_ISTIO_MUTUAL)
             && bool_decide (mtlsCtxType = autoDetected)
          then
            let tlsContext := MarshalAny X (TlsContext cluster) in
            let cluster := set_TlsContext None cluster in
            match tlsContext with
            | inr _ => cluster
            | inl tlsContext =>
                set_TransportSocketMatches (autoMtlsTransportSocketMatches tlsContext)
                  cluster
            end
          else cluster
      end
  end.

Definition applyTrafficPolicy (opts : buildClusterOpts) (proxy : Proxy) : Cluster :=
  let '(connectionPool, outlierDetection, loadBalancer, tls) :=
    SelectTrafficPolicyComponents (opts_policy opts) (opts_port opts) in
  let cluster :=
    applyConnectionPool (opts_env opts) (opts_cluster opts) connectionPool
      (opts_direction opts) in
  let cluster := applyOutlierDetection cluster outlierDetection in
  let cluster := applyLoadBalancer cluster loadBalancer (opts_port opts) proxy in
  if decide (opts_clusterMode opts ≠ SniDnatClusterMode) then
    let autoMTLSEnabled := EnableAutoMtls (Mesh (opts_env opts)) in
    let '(tls, mtlsCtxType) :=
      conditionallyConvertToIstioMtls tls (opts_serviceAccounts opts) (opts_sni opts)
        (opts_proxy opts) autoMTLSEnabled (opts_meshExternal opts) in
    applyUpstreamTLSSettings (opts_env opts) cluster tls mtlsCtxType (opts_proxy opts)
  else cluster.

Definition setUpstreamProtocol (node : Proxy) (cluster : Cluster) (port : Port)
    (direction : TrafficDirection) : Cluster :=
  let cluster :=
    if IsHTTP2 X (Port_Protocol port)
    then set_Http2ProtocolOptions (Some {| MaxConcurrentStreams := Some 1073741824 |}) cluster
    else cluster in
  if (IsProtocolSniffingEnabledForInboundPort X node port
      && bool_decide (direction = TrafficDirectionInbound))
     || (IsProtocolSniffingEnabledForOutboundPort X node port
         && bool_decide (direction = TrafficDirectionOutbound))
  then
    set_ProtocolSelection Cluster_USE_DOWNSTREAM_PROTOCOL
      (set_Http2ProtocolOptions (Some {| MaxConcurrentStreams := Some 1073741824 |}) cluster)
  else cluster.

Definition buildBlackHoleCluster (env : Environment) : Cluster :=
  set_LbPolicy Cluster_ROUND_ROBIN
    (set_ConnectTimeout (DurationToProtoDuration (Some (Mesh_ConnectTimeout (Mesh env))))
       (set_ClusterDiscoveryType Cluster_STATIC (set_Name BlackHoleCluster emptyCluster))).

Definition buildDefaultPassthroughCluster (env : Environment) (proxy : Proxy) : Cluster :=
  let cluster :=
    set_LbPolicy (lbPolicyClusterProvided proxy)
      (set_ConnectTimeout (DurationToProtoDuration (Some (Mesh_ConnectTimeout (Mesh env))))
         (set_ClusterDiscoveryType Cluster_ORIGINAL_DST
            (set_Name PassthroughCluster emptyCluster))) in
  let passthroughSettings :=
    {| CP_Tcp := Some {| Tcp_MaxConnections := 1024 * 100; Tcp_ConnectTimeout := None;
                         Tcp_TcpKeepalive := None |};
       CP_Http := None |} in
  applyConnectionPool env cluster (Some passthroughSettings) TrafficDirectionOutbound.

Definition buildDefaultTrafficPolicy (env : Environment)
    (discoveryType : Cluster_DiscoveryType) : TrafficPolicy :=
  let lbPolicy :=
    if decide (discoveryType = Cluster_ORIGINAL_DST) then LoadBalancerSettings_PASSTHROUGH
    else DefaultLbType in
  {| TP_LoadBalancer := Some {| LB_LbPolicy := Some (LoadBalancerSettings_Simple lbPolicy) |};
     TP_ConnectionPool :=
       Some {| CP_Tcp :=
                 Some {| Tcp_MaxConnections := 0;
                         Tcp_ConnectTimeout :=
                           Some {| Seconds := Seconds (Mesh_ConnectTimeout (Mesh env));
                                   Nanos := Nanos (Mesh_ConnectTimeout (Mesh env)) |};
                         Tcp_TcpKeepalive := None |};
               CP_Http := None |};
     TP_OutlierDetection := None;
     TP_Tls := None;
     TP_PortLevelSettings := [] |}.

Definition buildDefaultCluster (env : Environment) (name : string)
    (discoveryType : Cluster_DiscoveryType) (localityLbEndpoints : list LocalityLbEndpoints)
    (direction : TrafficDirection) (proxy : Proxy) (port : option Port)
    (meshExternal : bool) : Cluster :=
  let cluster := set_ClusterDiscoveryType discoveryType (set_Name name emptyCluster) in
  let cluster :=
    if decide (discoveryType = Cluster_STRICT_DNS) then
      let cluster := set_DnsLookupFamily Cluster_V4_ONLY cluster in
      let cluster :=
        set_DnsRefreshRate (DurationToProtoDuration (Mesh_DnsRefreshRate (Mesh env)))
          cluster in
      if IsIstioVersionGE13 X proxy && RespectDNSTTL X
      then set_RespectDnsTtl true cluster else cluster
    else cluster in
  let cluster :=
    if bool_decide (discoveryType = Cluster_STATIC)
       || bool_decide (discoveryType = Cluster_STRICT_DNS)
    then set_LoadAssignment
           (Some {| ClusterName := name; Endpoints := localityLbEndpoints |}) cluster
    else cluster in
  let defaultTrafficPolicy := buildDefaultTrafficPolicy env discoveryType in
  let opts :=
    {| opts_env := env; opts_cluster := cluster; opts_policy := Some defaultTrafficPolicy;
       opts_port := port; opts_serviceAccounts := []; opts_sni := "";
       opts_clusterMode := DefaultClusterMode; opts_direction := direction;
       opts_proxy := proxy; opts_meshExternal := meshExternal |} in
  applyTrafficPolicy opts proxy.

Definition shortHostName (host : string) (attributes : ServiceAttributes) : string :=
  if decide (Attr_ServiceRegistry attributes = KubernetesRegistry X)
  then Attr_Name attributes +:+ "." +:+ Attr_Namespace attributes
  else host.

Definition altStatName (statPattern host subset : string) (port : Port)
    (attributes : ServiceAttributes) : string :=
  let name := ReplaceAll X statPattern serviceStatPattern (shortHostName host attributes) in
  let name := ReplaceAll X name serviceFQDNStatPattern host in
  let name := ReplaceAll X name subsetNameStatPattern subset in
  let name := ReplaceAll X name servicePortStatPattern (Itoa (Port_Port port)) in
  let name := ReplaceAll X name servicePortNameStatPattern (Port_Name port) in
  name.

(** *** Endpoints *)

(** The [LbEndpoint] built for one instance in [buildLocalityLbEndpoints]. *)
Definition buildLbEndpoint (instance : ServiceInstance) : LbEndpoint :=
  let host :=
    BuildAddress (EP_Address (SI_Endpoint instance))
      (uint32 (EP_Port (SI_Endpoint instance))) in
  {| LbEp_Address := host;
     LbEp_LoadBalancingWeight :=
       Some (if 0 <? EP_LbWeight (SI_Endpoint instance)
             then EP_LbWeight (SI_Endpoint instance) else 1);
     LbEp_Metadata :=
       Some (BuildLbEndpointMetadata (EP_UID (SI_Endpoint instance))
               (EP_Network (SI_Endpoint instance)) (SI_MTLSReady instance)) |}.

(** One iteration of the first loop of [buildLocalityLbEndpoints]. *)
Definition groupStep (proxyNetworkView : gmap string bool)
    (lbEndpoints : gmap string (list LbEndpoint)) (instance : ServiceInstance)
  : gmap string (list LbEndpoint) :=
  if negb (default false (proxyNetworkView !! EP_Network (SI_Endpoint instance)))
  then lbEndpoints
  else
    let ep := buildLbEndpoint instance in
    let locality := GetLocality X instance in
    <[locality := default [] (lbEndpoints !! locality) ++ [ep]]> lbEndpoints.

(** The first loop of [buildLocalityLbEndpoints]: the map from locality to
    the endpoints of the instances the proxy may see. *)
Definition groupByLocality (proxyNetworkView : gmap string bool)
    (instances : list ServiceInstance) : gmap string (list LbEndpoint) :=
  foldl (groupStep proxyNetworkView) ∅ instances.

(** [ep.LoadBalancingWeight.GetValue()]. *)
Definition LbEp_weight (ep : LbEndpoint) : Z := default 0 (LbEp_LoadBalancingWeight ep).

(** The second loop, for one entry of the map; [weight] is a [uint32]. *)
Definition localityGroup (locality : string) (eps : list LbEndpoint) : LocalityLbEndpoints :=
  let weight := foldl (fun weight ep => uint32 (weight + LbEp_weight ep)) 0 eps in
  {| LLE_Locality := Some (ConvertLocality locality);
     LbEndpoints := eps;
     LLE_LoadBalancingWeight := Some weight;
     LLE_Priority := 0 |}.

(** The groups before [util.LocalityLbWeightNormalize]. Go ranges over the
    map in an unspecified order; [map_to_list] fixes one. *)
Definition localityGroups (lbEndpoints : gmap string (list LbEndpoint))
  : list LocalityLbEndpoints :=
  (fun '(locality, eps) => localityGroup locality eps) <$> map_to_list lbEndpoints.

Definition buildLocalityLbEndpoints (env : Environment) (proxyNetworkView : gmap string bool)
    (service : Service) (port : Z) (labels : list (gmap string string))
  : list LocalityLbEndpoints :=
  if decide (Svc_Resolution service ≠ DNSLB) then []
  else
    match InstancesByPort env service port labels with
    | inr _ => []
    | inl instances =>
        LocalityLbWeightNormalize X
          (localityGroups (groupByLocality proxyNetworkView instances))
    end.

Definition buildInboundLocalityLbEndpoints (bind : string) (port : Z)
  : list LocalityLbEndpoints :=
  let address := BuildAddress bind (uint32 port) in
  let lbEndpoint :=
    {| LbEp_Address := address; LbEp_LoadBalancingWeight := None; LbEp_Metadata := None |} in
  [ {| LLE_Locality := None; LbEndpoints := [lbEndpoint];
       LLE_LoadBalancingWeight := None; LLE_Priority := 0 |} ].

Definition generateInboundPassthroughClusters (env : Environment) (proxy : Proxy)
  : list Cluster :=
  let '(ipv4, ipv6) := ipv4AndIpv6Support X proxy in
  let clusters := [] in
  let clusters :=
    if (ipv4 : bool) then
      clusters ++
      [ set_UpstreamBindConfig
          (Some {| SourceAddress := InboundPassthroughBindIpv4; SourcePortValue := 0 |})
          (set_Name InboundPassthroughClusterIpv4 (buildDefaultPassthroughCluster env proxy)) ]
    else clusters in
  let clusters :=
    if (ipv6 : bool) then
      clusters ++
      [ set_UpstreamBindConfig
          (Some {| SourceAddress := InboundPassthroughBindIpv6; SourcePortValue := 0 |})
          (set_Name InboundPassthroughClusterIpv6 (buildDefaultPassthroughCluster env proxy)) ]
    else clusters in
  clusters.

(** *** Outbound clusters *)

Context (configgen : ConfigGeneratorImpl).

(** [for _, p := range configgen.Plugins { p.OnOutboundCluster(params, c) }]. *)
Definition callOutboundPlugins (inputParams : InputParams) (cluster : Cluster) : Cluster :=
  foldl (fun cluster p => OnOutboundCluster p inputParams cluster) cluster
    (Plugins configgen).

Definition callInboundPlugins (pluginParams : InputParams) (cluster : Cluster) : Cluster :=
  foldl (fun cluster p => OnInboundCluster p pluginParams cluster) cluster
    (Plugins configgen).

Definition outboundOpts (env : Environment) (proxy : Proxy) (cluster : Cluster)
    (policy : option TrafficPolicy) (port : Port) (serviceAccounts : list string)
    (sni : string) (meshExternal : bool) : buildClusterOpts :=
  {| opts_env := env; opts_cluster := cluster; opts_policy := policy;
     opts_port := Some port; opts_serviceAccounts := serviceAccounts; opts_sni := sni;
     opts_clusterMode := DefaultClusterMode; opts_direction := TrafficDirectionOutbound;
     opts_proxy := proxy; opts_meshExternal := meshExternal |}.

(** The assignment to [lbEndpoints] at the head of the subset loop: the
    variable is declared once per port and is overwritten here. *)
Definition subsetLbEndpoints (env : Environment) (networkView : gmap string bool)
    (service : Service) (port : Port) (discoveryType : Cluster_DiscoveryType)
    (lbEndpoints : list LocalityLbEndpoints) (subset : Subset) : list LocalityLbEndpoints :=
  if bool_decide (discoveryType ≠ Cluster_EDS)
     && bool_decide (size (Subset_Labels subset) ≠ 0%nat)
  then buildLocalityLbEndpoints env networkView service (Port_Port port)
         [Subset_Labels subset]
  else lbEndpoints.

(** The rest of the body of the subset loop of [buildOutboundClusters],
    given the value of [lbEndpoints] it reads. *)
Definition buildSubsetCluster (env : Environment) (proxy : Proxy)
    (inputParams : InputParams) (service : Service) (port : Port)
    (discoveryType : Cluster_DiscoveryType) (destinationRule : DestinationRule)
    (clusterMetadata : option core_Metadata) (serviceAccounts : list string)
    (lbEndpoints : list LocalityLbEndpoints) (subset : Subset) : Cluster :=
  let subsetClusterName :=
    BuildSubsetKey TrafficDirectionOutbound (Subset_Name subset) (Hostname service)
      (Port_Port port) in
  let defaultSni :=
    BuildDNSSrvSubsetKey TrafficDirectionOutbound (Subset_Name subset) (Hostname service)
      (Port_Port port) in
  let subsetCluster :=
    buildDefaultCluster env subsetClusterName discoveryType lbEndpoints
      TrafficDirectionOutbound proxy None (MeshExternal service) in
  let subsetCluster :=
    if decide (OutboundClusterStatName (Mesh env) ≠ "") then
      set_AltStatName
        (altStatName (OutboundClusterStatName (Mesh env)) (Hostname service)
           (Subset_Name subset) port (Attributes service))
        subsetCluster
    else subsetCluster in
  let subsetCluster := setUpstreamProtocol proxy subsetCluster port TrafficDirectionOutbound in
  let subsetCluster :=
    applyTrafficPolicy
      (outboundOpts env proxy subsetCluster (DR_TrafficPolicy destinationRule) port
         serviceAccounts defaultSni (MeshExternal service)) proxy in
  let subsetCluster :=
    applyTrafficPolicy
      (outboundOpts env proxy subsetCluster (Subset_TrafficPolicy subset) port
         serviceAccounts defaultSni (MeshExternal service)) proxy in
  let subsetCluster := updateEds subsetCluster in
  let subsetCluster := set_Metadata clusterMetadata subsetCluster in
  callOutboundPlugins inputParams subsetCluster.

(** The subset loop: the state is the variable [lbEndpoints] and the
    clusters appended so far. *)
Definition subsetLoop (env : Environment) (proxy : Proxy)
    (networkView : gmap string bool) (inputParams : InputParams) (service : Service)
    (port : Port) (discoveryType : Cluster_DiscoveryType) (destinationRule : DestinationRule)
    (clusterMetadata : option core_Metadata) (serviceAccounts : list string)
    (state : list LocalityLbEndpoints * list Cluster) (subsets : list Subset)
  : list LocalityLbEndpoints * list Cluster :=
  foldl
    (fun '(lbEndpoints, clusters) subset =>
       let lbEndpoints :=
         subsetLbEndpoints env networkView service port discoveryType lbEndpoints subset in
       let subsetCluster :=
         buildSubsetCluster env proxy inputParams service port discoveryType
           destinationRule clusterMetadata serviceAccounts lbEndpoints subset in
       (lbEndpoints, clusters ++ [subsetCluster]))
    state subsets.

(** The body of the port loop of [buildOutboundClusters] for a port that is
    not skipped: the clusters it appends. [defaultCluster] is appended to
    the slice as a pointer before the traffic policy is applied, so the list
    shows the cluster as it is when the iteration ends. *)
Definition buildOutboundClustersForPort (env : Environment) (proxy : Proxy)
    (push : PushContext) (networkView : gmap string bool) (service : Service)
    (destRule : option Config) (port : Port) : list Cluster :=
  let inputParams :=
    {| Params_Env := env; Params_Push := push; Params_Node := proxy;
       Params_Service := Some service; Params_Port := Some port;
       Params_ServiceInstance := None; Params_Bind := "" |} in
  let lbEndpoints := buildLocalityLbEndpoints env networkView service (Port_Port port) [] in
  let discoveryType := convertResolution proxy (Svc_Resolution service) in
  let clusterName :=
    BuildSubsetKey TrafficDirectionOutbound "" (Hostname service) (Port_Port port) in
  let serviceAccounts := ServiceAccounts push (Hostname service) (Port_Port port) in
  let defaultCluster :=
    buildDefaultCluster env clusterName discoveryType lbEndpoints TrafficDirectionOutbound
      proxy (Some port) (MeshExternal service) in
  let defaultCluster :=
    if decide (OutboundClusterStatName (Mesh env) ≠ "") then
      set_AltStatName
        (altStatName (OutboundClusterStatName (Mesh env)) (Hostname service) "" port
           (Attributes service))
        defaultCluster
    else defaultCluster in
  let defaultCluster :=
    setUpstreamProtocol proxy defaultCluster port TrafficDirectionOutbound in
  let destinationRule := castDestinationRuleOrDefault destRule in
  let clusterMetadata :=
    match destRule with
    | Some destRule => Some (BuildConfigInfoMetadata (Cfg_ConfigMeta destRule))
    | None => None
    end in
  let defaultSni :=
    BuildDNSSrvSubsetKey TrafficDirectionOutbound "" (Hostname service) (Port_Port port) in
  let defaultCluster :=
    applyTrafficPolicy
      (outboundOpts env proxy defaultCluster (DR_TrafficPolicy destinationRule) port
         serviceAccounts defaultSni (MeshExternal service)) proxy in
  let defaultCluster := set_Metadata clusterMetadata defaultCluster in
  let '(_, subsetClusters) :=
    subsetLoop env proxy networkView inputParams service port discoveryType
      destinationRule clusterMetadata serviceAccounts (lbEndpoints, [])
      (DR_Subsets destinationRule) in
  let defaultCluster := updateEds defaultCluster in
  let defaultCluster := callOutboundPlugins inputParams defaultCluster in
  defaultCluster :: subsetClusters.

(** The port loop of [buildOutboundClusters] over the ports of one service. *)
Definition outboundPortLoop (env : Environment) (proxy : Proxy) (push : PushContext)
    (networkView : gmap string bool) (service : Service) (destRule : option Config)
    (clusters : list Cluster) (ports : list Port) : list Cluster :=
  foldl
    (fun clusters port =>
       if decide (Port_Protocol port = protocol_UDP) then clusters
       else clusters ++
            buildOutboundClustersForPort env proxy push networkView service destRule port)
    clusters ports.

Definition buildOutboundClusters (env : Environment) (proxy : Proxy) (push : PushContext)
  : list Cluster :=
  let networkView := GetNetworkView X proxy in
  foldl
    (fun clusters service =>
       let destRule := Push_DestinationRule push proxy service in
       outboundPortLoop env proxy push networkView service destRule clusters (Ports service))
    [] (Services push proxy).

Definition sniDnatOpts (env : Environment) (proxy : Proxy) (cluster : Cluster)
    (policy : option TrafficPolicy) (port : Port) : buildClusterOpts :=
  {| opts_env := env; opts_cluster := cluster; opts_policy := policy;
     opts_port := Some port; opts_serviceAccounts := []; opts_sni := "";
     opts_clusterMode := SniDnatClusterMode; opts_direction := TrafficDirectionOutbound;
     opts_proxy := proxy; opts_meshExternal := false |}.

(** The body of the subset loop of [buildOutboundSniDnatClusters]. *)
Definition buildSniDnatSubsetCluster (env : Environment) (proxy : Proxy) (service : Service)
    (port : Port) (discoveryType : Cluster_DiscoveryType) (destRule : Config)
    (lbEndpoints : list LocalityLbEndpoints) (subset : Subset) : Cluster :=
  let destinationRule := Cfg_Spec destRule in
  let subsetClusterName :=
    BuildDNSSrvSubsetKey TrafficDirectionOutbound (Subset_Name subset) (Hostname service)
      (Port_Port port) in
  let subsetCluster :=
    buildDefaultCluster env subsetClusterName discoveryType lbEndpoints
      TrafficDirectionOutbound proxy None (MeshExternal service) in
  let subsetCluster := set_TlsContext None subsetCluster in
  let subsetCluster :=
    applyTrafficPolicy
      (sniDnatOpts env proxy subsetCluster (DR_TrafficPolicy destinationRule) port) proxy in
  let subsetCluster :=
    applyTrafficPolicy
      (sniDnatOpts env proxy subsetCluster (Subset_TrafficPolicy subset) port) proxy in
  let subsetCluster := updateEds subsetCluster in
  set_Metadata (Some (BuildConfigInfoMetadata (Cfg_ConfigMeta destRule))) subsetCluster.

(** The body of the port loop of [buildOutboundSniDnatClusters] for a port
    that is not skipped. *)
Definition buildSniDnatClustersForPort (env : Environment) (proxy : Proxy)
    (networkView : gmap string bool) (service : Service) (destRule : option Config)
    (port : Port) : list Cluster :=
  let lbEndpoints := buildLocalityLbEndpoints env networkView service (Port_Port port) [] in
  let discoveryType := convertResolution proxy (Svc_Resolution service) in
  let clusterName :=
    BuildDNSSrvSubsetKey TrafficDirectionOutbound "" (Hostname service) (Port_Port port) in
  let defaultCluster :=
    buildDefaultCluster env clusterName discoveryType lbEndpoints TrafficDirectionOutbound
      proxy None (MeshExternal service) in
  let defaultCluster := set_TlsContext None defaultCluster in
  match destRule with
  | Some destRule =>
      let destinationRule := Cfg_Spec destRule in
      let defaultCluster :=
        applyTrafficPolicy
          (sniDnatOpts env proxy defaultCluster (DR_TrafficPolicy destinationRule) port)
          proxy in
      let defaultCluster :=
        set_Metadata (Some (BuildConfigInfoMetadata (Cfg_ConfigMeta destRule)))
          defaultCluster in
      let '(_, subsetClusters) :=
        foldl
          (fun '(lbEndpoints, clusters) subset =>
             let lbEndpoints :=
               subsetLbEndpoints env networkView service port discoveryType lbEndpoints
                 subset in
             (lbEndpoints,
              clusters ++
              [buildSniDnatSubsetCluster env proxy service port discoveryType destRule
                 lbEndpoints subset]))
          (lbEndpoints, []) (DR_Subsets destinationRule) in
      updateEds defaultCluster :: subsetClusters
  | None => [updateEds defaultCluster]
  end.

Definition sniDnatPortLoop (env : Environment) (proxy : Proxy)
    (networkView : gmap string bool) (service : Service) (destRule : option Config)
    (clusters : list Cluster) (ports : list Port) : list Cluster :=
  foldl
    (fun clusters port =>
       if decide (Port_Protocol port = protocol_UDP) then clusters
       else clusters ++ buildSniDnatClustersForPort env proxy networkView service destRule port)
    clusters ports.

Definition buildOutboundSniDnatClusters (env : Environment) (proxy : Proxy)
    (push : PushContext) : list Cluster :=
  let networkView := GetNetworkView X proxy in
  foldl
    (fun clusters service =>
       if MeshExternal service then clusters
       else
         let destRule := Push_DestinationRule push proxy service in
         sniDnatPortLoop env proxy networkView service destRule clusters (Ports service))
    [] (Services push proxy).

(** *** Inbound clusters *)

Definition buildInboundClusterForPortOrUDS (pluginParams : InputParams)
    (instance : ServiceInstance) : Cluster :=
  let servicePort := ptr_val (EP_ServicePort (SI_Endpoint instance)) in
  let env := Params_Env pluginParams in
  let clusterName :=
    BuildSubsetKey TrafficDirectionInbound (Port_Name servicePort)
      (Hostname (SI_Service instance)) (Port_Port servicePort) in
  let localityLbEndpoints :=
    buildInboundLocalityLbEndpoints (Params_Bind pluginParams)
      (EP_Port (SI_Endpoint instance)) in
  let localCluster :=
    buildDefaultCluster env clusterName Cluster_STATIC localityLbEndpoints
      TrafficDirectionInbound (Params_Node pluginParams) None false in
  let localCluster :=
    if decide (InboundClusterStatName (Mesh env) ≠ "") then
      set_AltStatName
        (altStatName (InboundClusterStatName (Mesh env)) (Hostname (SI_Service instance)) ""
           servicePort (Attributes (SI_Service instance)))
        localCluster
    else localCluster in
  let localCluster :=
    setUpstreamProtocol (Params_Node pluginParams) localCluster servicePort
      TrafficDirectionInbound in
  let localCluster := callInboundPlugins pluginParams localCluster in
  match Push_DestinationRule (Params_Push pluginParams) (Params_Node pluginParams)
          (SI_Service instance) with
  | Some cfg =>
      match DR_TrafficPolicy (Cfg_Spec cfg) with
      | Some trafficPolicy =>
          set_Metadata (Some (BuildConfigInfoMetadata (Cfg_ConfigMeta cfg)))
            (applyConnectionPool env localCluster (TP_ConnectionPool trafficPolicy)
               TrafficDirectionInbound)
      | None => localCluster
      end
  | None => localCluster
  end.

(** [findServiceInstanceForIngressListener]: a copy of the first instance
    on the listener's port; the copy leaves [MTLSReady] at its zero value. *)
Definition findServiceInstanceForIngressListener (instances : list ServiceInstance)
    (ingressListener : IstioIngressListener) : option ServiceInstance :=
  (fun '(_, realInstance) =>
     {| SI_Endpoint := SI_Endpoint realInstance;
        SI_Service := SI_Service realInstance;
        SI_Labels := SI_Labels realInstance;
        SI_ServiceAccount := SI_ServiceAccount realInstance;
        SI_MTLSReady := false |})
  <$> list_find
        (fun realInstance =>
           EP_Port (SI_Endpoint realInstance) = IP_Number (IL_Port ingressListener))
        instances.

(** The management-port loop of [buildInboundClusters]. *)
Definition buildMgmtCluster (env : Environment) (proxy : Proxy) (actualLocalHost : string)
    (port : Port) : Cluster :=
  let clusterName :=
    BuildSubsetKey TrafficDirectionInbound (Port_Name port) ManagementClusterHostname
      (Port_Port port) in
  let localityLbEndpoints := buildInboundLocalityLbEndpoints actualLocalHost (Port_Port port) in
  let mgmtCluster :=
    buildDefaultCluster env clusterName Cluster_STATIC localityLbEndpoints
      TrafficDirectionInbound proxy None false in
  setUpstreamProtocol proxy mgmtCluster port TrafficDirectionInbound.

(** One iteration of the loop over the declared ingress listeners: [None]
    where the iteration ends at a [continue]. The address of the freshly
    allocated [listenPort] is not compared with any other, 0 stands for it. *)
Definition buildIngressListenerCluster (env : Environment) (proxy : Proxy)
    (push : PushContext) (instances : list ServiceInstance) (actualLocalHost : string)
    (ingressListener : IstioIngressListener) : option Cluster :=
  let sidecarScope := Proxy_SidecarScope proxy in
  let sidecarScopeID := SC_Name sidecarScope +:+ "." +:+ SC_Namespace sidecarScope in
  let listenPort :=
    {| Port_Port := IP_Number (IL_Port ingressListener);
       Port_Protocol := protocol_Parse X (IP_Protocol (IL_Port ingressListener));
       Port_Name := IP_Name (IL_Port ingressListener) |} in
  let parsed : option (string * AddressFamily * Z) :=
    if String.prefix (UnixAddressPrefix X) (IL_DefaultEndpoint ingressListener) then
      Some (IL_DefaultEndpoint ingressListener, AddressFamilyUnix, 0)
    else
      let parts := Split X (IL_DefaultEndpoint ingressListener) ":" in
      match parts !! 1%nat with
      | None => None
      | Some part =>
          match Atoi X part with
          | inr _ => None
          | inl port => Some (actualLocalHost, AddressFamilyTCP, port)
          end
      end in
  match parsed with
  | None => None
  | Some (endpointAddress, endpointFamily, port) =>
      let instance :=
        match findServiceInstanceForIngressListener instances ingressListener with
        | Some instance => instance
        | None =>
            {| SI_Endpoint :=
                 {| EP_Family := AddressFamilyTCP; EP_Address := ""; EP_Port := 0;
                    EP_ServicePort := {| ptr_addr := 0%N; ptr_val := listenPort |};
                    EP_UID := ""; EP_Network := ""; EP_Locality := ""; EP_LbWeight := 0 |};
               SI_Service :=
                 {| Hostname := sidecarScopeID; Svc_Resolution := ClientSideLB;
                    MeshExternal := false; Ports := [];
                    Attributes :=
                      {| Attr_ServiceRegistry := ""; Attr_Name := SC_Name sidecarScope;
                         Attr_Namespace := SC_Namespace sidecarScope |} |};
               SI_Labels := ∅; SI_ServiceAccount := ""; SI_MTLSReady := false |}
        end in
      let instance :=
        {| SI_Endpoint :=
             {| EP_Family := endpointFamily; EP_Address := endpointAddress; EP_Port := port;
                EP_ServicePort := {| ptr_addr := 0%N; ptr_val := listenPort |};
                EP_UID := EP_UID (SI_Endpoint instance);
                EP_Network := EP_Network (SI_Endpoint instance);
                EP_Locality := EP_Locality (SI_Endpoint instance);
                EP_LbWeight := EP_LbWeight (SI_Endpoint instance) |};
           SI_Service := SI_Service instance; SI_Labels := SI_Labels instance;
           SI_ServiceAccount := SI_ServiceAccount instance;
           SI_MTLSReady := SI_MTLSReady instance |} in
      let pluginParams :=
        {| Params_Env := env; Params_Node := proxy; Params_ServiceInstance := Some instance;
           Params_Port := Some listenPort; Params_Push := push; Params_Service := None;
           Params_Bind := endpointAddress |} in
      Some (buildInboundClusterForPortOrUDS pluginParams instance)
  end.

Definition buildInboundClusters (env : Environment) (proxy : Proxy) (push : PushContext)
    (instances : list ServiceInstance) (managementPorts : list Port) : list Cluster :=
  let sidecarScope := Proxy_SidecarScope proxy in
  let noneMode := bool_decide (GetInterceptionMode proxy = InterceptionNone) in
  let actualLocalHost := (getActualWildcardAndLocalHost X proxy).2 in
  if negb (HasCustomIngressListeners sidecarScope) then
    if noneMode then []
    else
      let '(_, clusters) :=
        foldl
          (fun '(have, clusters) instance =>
             let servicePort := EP_ServicePort (SI_Endpoint instance) in
             if negb (bool_decide (ptr_addr servicePort ∈ (have : gset N))) then
               let pluginParams :=
                 {| Params_Env := env; Params_Node := proxy;
                    Params_ServiceInstance := Some instance;
                    Params_Port := Some (ptr_val servicePort); Params_Push := push;
                    Params_Service := None; Params_Bind := actualLocalHost |} in
               let localCluster := buildInboundClusterForPortOrUDS pluginParams instance in
               ({[ptr_addr servicePort]} ∪ have, clusters ++ [localCluster])
             else (have, clusters))
          (∅, []) instances in
      foldl
        (fun clusters port => clusters ++ [buildMgmtCluster env proxy actualLocalHost port])
        clusters managementPorts
  else
    foldl
      (fun clusters ingressListener =>
         match buildIngressListenerCluster env proxy push instances actualLocalHost
                 ingressListener with
         | Some localCluster => clusters ++ [localCluster]
         | None => clusters
         end)
      [] (SC_Ingress sidecarScope).

(** *** [BuildClusters] *)

Definition BuildClusters (env : Environment) (proxy : Proxy) (push : PushContext)
  : list Cluster * list PushEvent :=
  let instances := ServiceInstances proxy in
  let outboundClusters := buildOutboundClusters env proxy push in
  let clusters :=
    match Proxy_Type proxy with
    | SidecarProxy =>
        let outboundClusters :=
          outboundClusters ++
          [buildBlackHoleCluster env; buildDefaultPassthroughCluster env proxy] in
        let outboundClusters :=
          applyLocalityLBSetting (Proxy_Locality proxy) outboundClusters
            (LocalityLbSetting (Mesh env)) in
        let outboundClusters :=
          ApplyClusterPatches X EnvoyFilter_SIDECAR_OUTBOUND proxy push outboundClusters in
        let managementPorts :=
          foldl (fun managementPorts ip => managementPorts ++ ManagementPorts env ip) []
            (IPAddresses proxy) in
        let inboundClusters :=
          buildInboundClusters env proxy push instances managementPorts in
        let inboundClusters :=
          inboundClusters ++ generateInboundPassthroughClusters env proxy in
        let inboundClusters :=
          ApplyClusterPatches X EnvoyFilter_SIDECAR_INBOUND proxy push inboundClusters in
        outboundClusters ++ inboundClusters
    | _ =>
        let outboundClusters := outboundClusters ++ [buildBlackHoleCluster env] in
        let outboundClusters :=
          if bool_decide (Proxy_Type proxy = Router)
             && bool_decide (GetRouterMode proxy = SniDnatRouter)
          then outboundClusters ++ buildOutboundSniDnatClusters env proxy push
          else outboundClusters in
        let outboundClusters :=
          applyLocalityLBSetting (Proxy_Locality proxy) outboundClusters
            (LocalityLbSetting (Mesh env)) in
        ApplyClusterPatches X EnvoyFilter_GATEWAY proxy push outboundClusters
    end in
  normalizeClusters proxy clusters.

End Builder.

(** ** The properties, as the specification words them *)

(** The first-wins rule: scanning in emission order with the names seen so
    far, a cluster whose name was seen is rejected, any other is kept. The
    result is the kept clusters and the rejected ones, each in emission
    order. *)
Fixpoint firstWins (seen : list string) (clusters : list Cluster)
  : list Cluster * list Cluster :=
  match clusters with
  | [] => ([], [])
  | cluster :: rest =>
      if bool_decide (Name cluster ∈ seen) then
        let r := firstWins seen rest in (r.1, cluster :: r.2)
      else
        let r := firstWins (Name cluster :: seen) rest in (cluster :: r.1, r.2)
  end.

(** The clusters of a list that are the first of their name, and those that
    are not, by position: the cluster at index [i] is a first occurrence
    when no cluster before index [i] has its name. *)
Definition isRepeat (clusters : list Cluster) (i : nat) (cluster : Cluster) : bool :=
  bool_decide (Name cluster ∈ Name <$> take i clusters).

Definition firstOccurrences (clusters : list Cluster) : list Cluster :=
  omap id (imap (fun i c => if isRepeat clusters i c then None else Some c) clusters).

Definition laterOccurrences (clusters : list Cluster) : list Cluster :=
  omap id (imap (fun i c => if isRepeat clusters i c then Some c else None) clusters).

(** The clusters of [clusters] selected by [h] from whether they repeat a
    name of [pre] or of an earlier cluster of [clusters]. *)
Definition selectAt (h : bool → Cluster → option Cluster) (pre clusters : list Cluster)
  : list Cluster :=
  omap id (imap (fun i c => h (isRepeat (pre ++ clusters) (length pre + i) c) c) clusters).

(** A port-level entry matches a port when it has a port selector and the
    selector's number is the port's number. *)
Definition portMatches (port : Port) (entry : TrafficPolicy_PortTrafficPolicy) : Prop :=
  ∃ sel, PTP_Port entry = Some sel ∧ Number sel = Port_Port port.

Definition rootFacets (policy : TrafficPolicy) :=
  (TP_ConnectionPool policy, TP_OutlierDetection policy, TP_LoadBalancer policy,
   TP_Tls policy).

Definition entryFacets (entry : TrafficPolicy_PortTrafficPolicy) :=
  (PTP_ConnectionPool entry, PTP_OutlierDetection entry, PTP_LoadBalancer entry,
   PTP_Tls entry).

(** The weight of a member endpoint: the endpoint's weight when it is
    greater than 0, and 1 otherwise. *)
Definition memberWeight (instance : ServiceInstance) : Z :=
  if 0 <? EP_LbWeight (SI_Endpoint instance) then EP_LbWeight (SI_Endpoint instance) else 1.

Definition sumZ (l : list Z) : Z := foldr Z.add 0 l.

(** The instances of a locality that the proxy's network view admits. *)
Definition visibleAt (X : Externals) (proxyNetworkView : gmap string bool)
    (locality : string) (instances : list ServiceInstance) : list ServiceInstance :=
  filter
    (fun instance =>
       default false (proxyNetworkView !! EP_Network (SI_Endpoint instance)) = true
       ∧ GetLocality X instance = locality)
    instances.

(** The group weight is the sum of the weights of the group's members. *)
Definition groupWeightIsSum (group : LocalityLbEndpoints) : Prop :=
  LLE_LoadBalancingWeight group = Some (sumZ (LbEp_weight <$> LbEndpoints group)).

(** The fields of a cluster that the properties below speak of. *)
Definition shape (cluster : Cluster) :=
  (Name cluster, EdsClusterConfig cluster, LoadAssignment cluster,
   ClusterDiscoveryType cluster, LbPolicy cluster, TransportSocketMatches cluster).

(** A load assignment goes with the Static and StrictDNS types and with
    no EDS cluster. *)
Definition assignmentFitsType (cluster : Cluster) : Prop :=
  (ClusterDiscoveryType cluster = Cluster_EDS → LoadAssignment cluster = None)
  ∧ (ClusterDiscoveryType cluster = Cluster_STATIC
     ∨ ClusterDiscoveryType cluster = Cluster_STRICT_DNS →
     is_Some (LoadAssignment cluster)).

(** What holds of a cluster once [buildDefaultCluster] returns it: its load
    assignment fits its type, and an OriginalDst cluster has the LB policy
    of [lbPolicyClusterProvided]. *)
Definition wellRouted (X : Externals) (proxy : Proxy) (cluster : Cluster) : Prop :=
  assignmentFitsType cluster
  ∧ (ClusterDiscoveryType cluster = Cluster_ORIGINAL_DST →
     LbPolicy cluster = lbPolicyClusterProvided X proxy).

(** The shape the specification asks of every cluster returned: an EDS
    cluster carries an EDS configuration and no inline endpoints, a Static
    or StrictDNS cluster carries inline endpoints (a load assignment), an
    OriginalDst cluster uses the cluster-provided LB policy. *)
Definition specifiedShape (cluster : Cluster) : Prop :=
  (ClusterDiscoveryType cluster = Cluster_EDS →
   is_Some (EdsClusterConfig cluster) ∧ LoadAssignment cluster = None)
  ∧ (ClusterDiscoveryType cluster = Cluster_STATIC
     ∨ ClusterDiscoveryType cluster = Cluster_STRICT_DNS →
     is_Some (LoadAssignment cluster))
  ∧ (ClusterDiscoveryType cluster = Cluster_ORIGINAL_DST →
     LbPolicy cluster = Cluster_CLUSTER_PROVIDED).

(** The shape the generators give a cluster: as specified, but with the LB
    policy of an OriginalDst cluster the one [lbPolicyClusterProvided] picks
    for the proxy, which depends on the proxy's version. *)
Definition discoveryShape (X : Externals) (proxy : Proxy) (cluster : Cluster) : Prop :=
  (ClusterDiscoveryType cluster = Cluster_EDS →
   is_Some (EdsClusterConfig cluster) ∧ LoadAssignment cluster = None)
  ∧ (ClusterDiscoveryType cluster = Cluster_STATIC
     ∨ ClusterDiscoveryType cluster = Cluster_STRICT_DNS →
     is_Some (LoadAssignment cluster))
  ∧ (ClusterDiscoveryType cluster = Cluster_ORIGINAL_DST →
     LbPolicy cluster = lbPolicyClusterProvided X proxy).

(** The same, with the blackhole sink excepted from carrying endpoints. *)
Definition discoveryShapeButBlackHole (X : Externals) (proxy : Proxy) (cluster : Cluster)
  : Prop :=
  (ClusterDiscoveryType cluster = Cluster_EDS →
   is_Some (EdsClusterConfig cluster) ∧ LoadAssignment cluster = None)
  ∧ (ClusterDiscoveryType cluster = Cluster_STATIC
     ∨ ClusterDiscoveryType cluster = Cluster_STRICT_DNS →
     is_Some (LoadAssignment cluster) ∨ Name cluster = BlackHoleCluster)
  ∧ (ClusterDiscoveryType cluster = Cluster_ORIGINAL_DST →
     LbPolicy cluster = lbPolicyClusterProvided X proxy).

(** The names the outbound generators build start with [outbound], those
    the inbound generator builds with [inbound]. *)
Definition outboundName (name : string) : Prop := String.prefix "outbound" name = true.
Definition inboundName (name : string) : Prop := String.prefix "inbound" name = true.

(** What the generators establish of each cluster they emit. *)
Definition emitted (X : Externals) (env : Environment) (proxy : Proxy) (cluster : Cluster)
  : Prop :=
  discoveryShape X proxy cluster
  ∧ (EnableAutoMtls (Mesh env) = false → TransportSocketMatches cluster = []).

(** Plugins and cluster patches that leave alone the fields of [shape]. *)
Definition pluginsKeepShape (configgen : ConfigGeneratorImpl) : Prop :=
  ∀ p params c, p ∈ Plugins configgen →
    shape (OnOutboundCluster p params c) = shape c
    ∧ shape (OnInboundCluster p params c) = shape c.

Definition patchesKeepShape (X : Externals) (proxy : Proxy) (push : PushContext) : Prop :=
  ∀ ctx clusters,
    shape <$> ApplyClusterPatches X ctx proxy push clusters = shape <$> clusters.

(** A cluster on its way through a generator: named, well routed, and
    without transport-socket matches where auto-mTLS is disabled. *)
Definition prepared (X : Externals) (env : Environment) (proxy : Proxy) (name : string)
    (cluster : Cluster) : Prop :=
  Name cluster = name
  ∧ wellRouted X proxy cluster
  ∧ (EnableAutoMtls (Mesh env) = false → TransportSocketMatches cluster = []).

(** The fields of [shape], with the load assignment reduced to whether
    there is one: the locality settings rewrite an assignment but neither
    add nor remove one. *)
Definition outline (cluster : Cluster) :=
  (Name cluster, EdsClusterConfig cluster, bool_decide (is_Some (LoadAssignment cluster)),
   ClusterDiscoveryType cluster, LbPolicy cluster, TransportSocketMatches cluster).

(** The clusters the generators and sink builders hand to [BuildClusters],
    in emission order, before locality settings, patches and normalization. *)
Definition generated (X : Externals) (configgen : ConfigGeneratorImpl) (env : Environment)
    (proxy : Proxy) (push : PushContext) : list Cluster :=
  match Proxy_Type proxy with
  | SidecarProxy =>
      (buildOutboundClusters X configgen env proxy push
       ++ [buildBlackHoleCluster env; buildDefaultPassthroughCluster X env proxy])
      ++ (buildInboundClusters X configgen env proxy push (ServiceInstances proxy)
            (foldl (fun managementPorts ip => managementPorts ++ ManagementPorts env ip) []
               (IPAddresses proxy))
          ++ generateInboundPassthroughClusters X env proxy)
  | Router =>
      (buildOutboundClusters X configgen env proxy push ++ [buildBlackHoleCluster env])
      ++ (if bool_decide (GetRouterMode proxy = SniDnatRouter)
          then buildOutboundSniDnatClusters X env proxy push else [])
  end.

(** What holds of every cluster returned: the discovery shape, the
    blackhole sink excepted, and no transport-socket matches where auto-mTLS
    is disabled. *)
Definition returned (X : Externals) (env : Environment) (proxy : Proxy) (cluster : Cluster)
  : Prop :=
  discoveryShapeButBlackHole X proxy cluster
  ∧ (EnableAutoMtls (Mesh env) = false → TransportSocketMatches cluster = []).

(** The proxy without the service instances whose service port is UDP. *)
Definition withoutUdpInstances (proxy : Proxy) : Proxy :=
  {| Proxy_Type := Proxy_Type proxy; IPAddresses := IPAddresses proxy;
     Proxy_Locality := Proxy_Locality proxy; Proxy_Metadata := Proxy_Metadata proxy;
     Proxy_SidecarScope := Proxy_SidecarScope proxy;
     ServiceInstances :=
       filter
         (fun instance =>
            Port_Protocol (ptr_val (EP_ServicePort (SI_Endpoint instance))) ≠ protocol_UDP)
         (ServiceInstances proxy);
     GetRouterMode := GetRouterMode proxy;
     GetInterceptionMode := GetInterceptionMode proxy |}.

(** ** A concrete mesh *)

Module Scenario.

Definition externals : Externals :=
  {| IsHTTP2 := fun p => bool_decide (p = "HTTP2") || bool_decide (p = "GRPC");
     protocol_Parse := fun s => s;
     IsIstioVersionGE13 := fun _ => true;
     IsProtocolSniffingEnabledForInboundPort := fun _ _ => false;
     IsProtocolSniffingEnabledForOutboundPort := fun _ _ => false;
     EnableRedisFilter := false;
     RespectDNSTTL := true;
     InitialFetchTimeout := None;
     DefaultRootCert := "/etc/certs/root-cert.pem";
     DefaultCertChain := "/etc/certs/cert-chain.pem";
     DefaultKey := "/etc/certs/key.pem";
     MTLSReadyLabelShortname := "mtlsReady";
     KubernetesRegistry := "Kubernetes";
     UnixAddressPrefix := "unix://";
     GetNetworkView := fun _ => {[ "" := true ]};
     GetLocality := fun i => EP_Locality (SI_Endpoint i);
     LocalityLbWeightNormalize := fun l => l;
     ipv4AndIpv6Support := fun _ => (true, false);
     getActualWildcardAndLocalHost := fun _ => ("0.0.0.0", "127.0.0.1");
     ApplyLocalityLBSetting := fun _ la _ _ => la;
     ApplyClusterPatches := fun _ _ _ cs => cs;
     MarshalAny := fun _ => inl {| TypeUrl := "envoy.api.v2.auth.UpstreamTlsContext";
                                   Value := "" |};
     ReplaceAll := fun s _ _ => s;
     Split := fun s _ => [s];
     Atoi := fun _ => inr "invalid syntax" |}.

(** The same collaborators, for proxies older than Istio 1.3. *)
Definition externalsBefore13 : Externals :=
  {| IsHTTP2 := IsHTTP2 externals;
     protocol_Parse := protocol_Parse externals;
     IsIstioVersionGE13 := fun _ => false;
     IsProtocolSniffingEnabledForInboundPort :=
       IsProtocolSniffingEnabledForInboundPort externals;
     IsProtocolSniffingEnabledForOutboundPort :=
       IsProtocolSniffingEnabledForOutboundPort externals;
     EnableRedisFilter := EnableRedisFilter externals;
     RespectDNSTTL := RespectDNSTTL externals;
     InitialFetchTimeout := InitialFetchTimeout externals;
     DefaultRootCert := DefaultRootCert externals;
     DefaultCertChain := DefaultCertChain externals;
     DefaultKey := DefaultKey externals;
     MTLSReadyLabelShortname := MTLSReadyLabelShortname externals;
     KubernetesRegistry := KubernetesRegistry externals;
     UnixAddressPrefix := UnixAddressPrefix externals;
     GetNetworkView := GetNetworkView externals;
     GetLocality := GetLocality externals;
     LocalityLbWeightNormalize := LocalityLbWeightNormalize externals;
     ipv4AndIpv6Support := ipv4AndIpv6Support externals;
     getActualWildcardAndLocalHost := getActualWildcardAndLocalHost externals;
     ApplyLocalityLBSetting := ApplyLocalityLBSetting externals;
     ApplyClusterPatches := ApplyClusterPatches externals;
     MarshalAny := MarshalAny externals;
     ReplaceAll := ReplaceAll externals;
     Split := Split externals;
     Atoi := Atoi externals |}.

Definition configgen : ConfigGeneratorImpl := {| Plugins := [] |}.

Definition mesh (autoMtls : bool) : MeshConfig :=
  {| Mesh_ConnectTimeout := {| Seconds := 10; Nanos := 0 |};
     Mesh_DnsRefreshRate := Some {| Seconds := 5; Nanos := 0 |};
     OutboundClusterStatName := "";
     InboundClusterStatName := "";
     Mesh_TcpKeepalive := None;
     SdsUdsPath := "";
     EnableAutoMtls := autoMtls;
     LocalityLbSetting := None |}.

Definition httpPort : Port :=
  {| Port_Name := "http"; Port_Port := 9080; Port_Protocol := "HTTP" |}.

Definition dnsUdpPort : Port :=
  {| Port_Name := "dns"; Port_Port := 53; Port_Protocol := protocol_UDP |}.

Definition attrs (name : string) : ServiceAttributes :=
  {| Attr_ServiceRegistry := "Kubernetes"; Attr_Name := name; Attr_Namespace := "default" |}.

Definition reviews : Service :=
  {| Hostname := "reviews"; Svc_Resolution := ClientSideLB; MeshExternal := false;
     Ports := [httpPort]; Attributes := attrs "reviews" |}.

Definition kubeDns : Service :=
  {| Hostname := "kube-dns"; Svc_Resolution := ClientSideLB; MeshExternal := false;
     Ports := [dnsUdpPort]; Attributes := attrs "kube-dns" |}.

Definition env (autoMtls : bool) (instances : list ServiceInstance) : Environment :=
  {| Mesh := mesh autoMtls;
     InstancesByPort := fun _ _ _ => inl instances;
     ManagementPorts := fun _ => [] |}.

Definition push (services : list Service) (rule : option Config) : PushContext :=
  {| Services := fun _ => services;
     Push_DestinationRule := fun _ _ => rule;
     ServiceAccounts := fun _ _ => [] |}.

Definition noMetadata : NodeMetadata :=
  {| TLSClientRootCert := ""; TLSClientCertChain := ""; TLSClientKey := "" |}.

Definition noScope : SidecarScope :=
  {| HasCustomIngressListeners := false; SC_Name := ""; SC_Namespace := "";
     SC_Ingress := [] |}.

Definition proxy (type : NodeType) (instances : list ServiceInstance) : Proxy :=
  {| Proxy_Type := type; IPAddresses := ["10.0.0.1"]; Proxy_Locality := None;
     Proxy_Metadata := noMetadata; Proxy_SidecarScope := noScope;
     ServiceInstances := instances; GetRouterMode := StandardRouter;
     GetInterceptionMode := InterceptionRedirect |}.

Definition endpoint (address : string) (servicePort : PortPtr) (locality : string)
    (weight : Z) : NetworkEndpoint :=
  {| EP_Family := AddressFamilyTCP; EP_Address := address;
     EP_Port := Port_Port (ptr_val servicePort); EP_ServicePort := servicePort;
     EP_UID := ""; EP_Network := ""; EP_Locality := locality; EP_LbWeight := weight |}.

Definition instanceOf (service : Service) (ep : NetworkEndpoint) : ServiceInstance :=
  {| SI_Endpoint := ep; SI_Service := service; SI_Labels := ∅; SI_ServiceAccount := "";
     SI_MTLSReady := false |}.

(** The workload behind the proxy serves the UDP port of [kubeDns]. *)
Definition dnsInstance : ServiceInstance :=
  instanceOf kubeDns (endpoint "10.0.0.1" {| ptr_addr := 1%N; ptr_val := dnsUdpPort |} "" 0).

(** A policy with three port-level entries, two of them for port 9080. *)
Definition tlsOf (mode : TLSSettings_TLSmode) (cert key : string) : TLSSettings :=
  {| TLS_Mode := mode; TLS_ClientCertificate := cert; TLS_PrivateKey := key;
     TLS_CaCertificates := ""; TLS_SubjectAltNames := []; TLS_Sni := "" |}.

Definition simpleLb (s : LoadBalancerSettings_SimpleLB) : LoadBalancerSettings :=
  {| LB_LbPolicy := Some (LoadBalancerSettings_Simple s) |}.

Definition portEntry (number : Z) (lb : option LoadBalancerSettings)
    (tls : option TLSSettings) : TrafficPolicy_PortTrafficPolicy :=
  {| PTP_Port := Some {| Number := number |}; PTP_LoadBalancer := lb;
     PTP_ConnectionPool := None; PTP_OutlierDetection := None; PTP_Tls := tls |}.

Definition layeredPolicy : TrafficPolicy :=
  {| TP_LoadBalancer := Some (simpleLb LoadBalancerSettings_RANDOM);
     TP_ConnectionPool := None; TP_OutlierDetection := None;
     TP_Tls := Some (tlsOf TLSSettings_SIMPLE "" "");
     TP_PortLevelSettings :=
       [ portEntry 8080 (Some (simpleLb LoadBalancerSettings_LEAST_CONN)) None;
         portEntry 9080 None (Some (tlsOf TLSSettings_DISABLE "" ""));
         portEntry 9080 (Some (simpleLb LoadBalancerSettings_ROUND_ROBIN)) None ] |}.

(** A DNS-resolved service with two endpoints in one locality, each of
    weight 2^31. *)
Definition tcpPort : Port :=
  {| Port_Name := "tcp"; Port_Port := 443; Port_Protocol := "TCP" |}.

Definition external : Service :=
  {| Hostname := "external-reviews.org"; Svc_Resolution := DNSLB; MeshExternal := true;
     Ports := [tcpPort]; Attributes := attrs "external-reviews" |}.

Definition heavyInstances : list ServiceInstance :=
  [ instanceOf external
      (endpoint "192.0.2.1" {| ptr_addr := 2%N; ptr_val := tcpPort |} "region/zone" 2147483648);
    instanceOf external
      (endpoint "192.0.2.2" {| ptr_addr := 2%N; ptr_val := tcpPort |} "region/zone" 2147483648) ].

(** The same service with endpoints of weights 3, 0 and 5 in two localities. *)
Definition lightInstances : list ServiceInstance :=
  [ instanceOf external
      (endpoint "192.0.2.1" {| ptr_addr := 2%N; ptr_val := tcpPort |} "region/a" 3);
    instanceOf external
      (endpoint "192.0.2.2" {| ptr_addr := 2%N; ptr_val := tcpPort |} "region/a" 0);
    instanceOf external
      (endpoint "192.0.2.3" {| ptr_addr := 2%N; ptr_val := tcpPort |} "region/b" 5) ].

Definition defaultView : gmap string bool := {[ "" := true ]}.

(** A registry that answers a query with label selectors by the instances
    carrying one of the selected label sets, and a query without selectors
    by all instances. *)
Definition labelled (labels : gmap string string) (i : ServiceInstance) : ServiceInstance :=
  {| SI_Endpoint := SI_Endpoint i; SI_Service := SI_Service i; SI_Labels := labels;
     SI_ServiceAccount := SI_ServiceAccount i; SI_MTLSReady := SI_MTLSReady i |}.

Definition versionedInstances : list ServiceInstance :=
  [ labelled {[ "version" := "v1" ]}
      (instanceOf external
         (endpoint "192.0.2.1" {| ptr_addr := 2%N; ptr_val := tcpPort |} "region/a" 1));
    labelled {[ "version" := "v2" ]}
      (instanceOf external
         (endpoint "192.0.2.2" {| ptr_addr := 2%N; ptr_val := tcpPort |} "region/a" 1)) ].

Definition selectingEnv : Environment :=
  {| Mesh := mesh false;
     InstancesByPort := fun _ _ labels =>
       inl (if decide (labels = []) then versionedInstances
            else filter (fun i => SI_Labels i ∈ labels) versionedInstances);
     ManagementPorts := fun _ => [] |}.

Definition subsetOf (name : string) (labels : gmap string string) : Subset :=
  {| Subset_Name := name; Subset_Labels := labels; Subset_TrafficPolicy := None |}.

(** A destination rule whose subset [v1] selects by label and whose subset
    [all] has no labels. *)
Definition subsetRule : Config :=
  {| Cfg_ConfigMeta := {| CM_Name := "external"; CM_Namespace := "default";
                          CM_ResourceVersion := "1" |};
     Cfg_Spec := {| DR_TrafficPolicy := None;
                    DR_Subsets := [ subsetOf "v1" {[ "version" := "v1" ]};
                                    subsetOf "all" ∅ ] |} |}.

End Scenario.

(** ** Which fields each step leaves alone *)

Ltac destruct_clusters :=
  repeat match goal with c : Cluster |- _ => destruct c end.

Ltac cluster_cases :=
  intros; destruct_clusters; cbn;
  repeat (first [ progress cbn | case_match ]); try done.

Section Frame.

Context (X : Externals).

Lemma shape_applyTCPKeepalive env cluster tcp :
  shape (applyTCPKeepalive env cluster tcp) = shape cluster.
Proof. unfold applyTCPKeepalive. cluster_cases. Qed.

Lemma shape_applyConnectionPool env cluster settings direction :
  shape (applyConnectionPool env cluster settings direction) = shape cluster.
Proof.
  unfold applyConnectionPool. destruct settings as [settings|]; [|done].
  destruct (CP_Http settings) as [http|], (CP_Tcp settings) as [tcp|];
    repeat case_match; simplify_eq;
    repeat match goal with
           | |- context [applyTCPKeepalive ?e ?c ?t] =>
               let H := fresh in
               pose proof (shape_applyTCPKeepalive e c t) as H;
               destruct (applyTCPKeepalive e c t)
           end;
    destruct_clusters; cbn in *; simplify_eq; done.
Qed.

Lemma shape_applyOutlierDetection cluster outlier :
  shape (applyOutlierDetection cluster outlier) = shape cluster.
Proof. unfold applyOutlierDetection. cluster_cases. Qed.

Lemma shape_setUpstreamProtocol node cluster port direction :
  shape (setUpstreamProtocol X node cluster port direction) = shape cluster.
Proof. unfold setUpstreamProtocol. cluster_cases. Qed.

Lemma applyLoadBalancer_frame cluster lb port proxy :
  let cluster' := applyLoadBalancer X cluster lb port proxy in
  Name cluster' = Name cluster
  ∧ EdsClusterConfig cluster' = EdsClusterConfig cluster
  ∧ LoadAssignment cluster' = LoadAssignment cluster
  ∧ TransportSocketMatches cluster' = TransportSocketMatches cluster.
Proof. unfold applyLoadBalancer. cluster_cases. Qed.

Lemma applyLoadBalancer_wellRouted cluster lb port proxy :
  assignmentFitsType cluster →
  is_Some lb
  ∨ (ClusterDiscoveryType cluster = Cluster_ORIGINAL_DST →
     LbPolicy cluster = lbPolicyClusterProvided X proxy) →
  wellRouted X proxy (applyLoadBalancer X cluster lb port proxy).
Proof.
  unfold wellRouted, assignmentFitsType, applyLoadBalancer, GetSimple, GetConsistentHash.
  destruct cluster. cbn. intros (H1 & H2) H3.
  destruct lb as [[[[s|ch]|]]|]; cbn;
  repeat (first [ progress cbn | case_match ]); simplify_eq; cbn in *;
    (split; [split|]); intros; simplify_eq; try done;
    try (by destruct_or?; simplify_eq);
    try (by apply H1); try (by apply H2);
    try (destruct H3 as [[? [=]]|H3]; by apply H3).
Qed.

Lemma applyUpstreamTLSSettings_frame env cluster tls mtlsCtxType proxy :
  let cluster' := applyUpstreamTLSSettings X env cluster tls mtlsCtxType proxy in
  Name cluster' = Name cluster
  ∧ EdsClusterConfig cluster' = EdsClusterConfig cluster
  ∧ LoadAssignment cluster' = LoadAssignment cluster
  ∧ ClusterDiscoveryType cluster' = ClusterDiscoveryType cluster
  ∧ LbPolicy cluster' = LbPolicy cluster
  ∧ (mtlsCtxType = userSupplied →
     TransportSocketMatches cluster' = TransportSocketMatches cluster).
Proof.
  unfold applyUpstreamTLSSettings, applyTLSMode. destruct tls as [tls|]; [|done].
  destruct cluster. cbn.
  repeat (first [ progress cbn | case_match ]); simplify_eq; cbn in *;
    repeat split; try done; intros ->; by repeat case_bool_decide.
Qed.

Lemma assignmentFitsType_ext cluster cluster' :
  LoadAssignment cluster' = LoadAssignment cluster →
  ClusterDiscoveryType cluster' = ClusterDiscoveryType cluster →
  assignmentFitsType cluster → assignmentFitsType cluster'.
Proof. unfold assignmentFitsType. by intros -> ->. Qed.

Lemma wellRouted_ext proxy cluster cluster' :
  LoadAssignment cluster' = LoadAssignment cluster →
  ClusterDiscoveryType cluster' = ClusterDiscoveryType cluster →
  LbPolicy cluster' = LbPolicy cluster →
  wellRouted X proxy cluster → wellRouted X proxy cluster'.
Proof. unfold wellRouted, assignmentFitsType. by intros -> -> ->. Qed.

Lemma wellRouted_shape proxy cluster cluster' :
  shape cluster' = shape cluster →
  wellRouted X proxy cluster → wellRouted X proxy cluster'.
Proof. unfold shape. intros [=]. by apply wellRouted_ext. Qed.

(** [applyTrafficPolicy] keeps the name, the EDS configuration and the load
    assignment; it keeps a cluster well routed, and makes it so when the
    policy selects a load balancer; it touches the transport-socket matches
    only where auto-mTLS is enabled. *)
Lemma applyTrafficPolicy_frame opts proxy :
  let cluster' := applyTrafficPolicy X opts proxy in
  Name cluster' = Name (opts_cluster opts)
  ∧ EdsClusterConfig cluster' = EdsClusterConfig (opts_cluster opts)
  ∧ LoadAssignment cluster' = LoadAssignment (opts_cluster opts)
  ∧ (wellRouted X proxy (opts_cluster opts) → wellRouted X proxy cluster')
  ∧ (assignmentFitsType (opts_cluster opts) →
     is_Some (SelectTrafficPolicyComponents (opts_policy opts) (opts_port opts)).1.2 →
     wellRouted X proxy cluster')
  ∧ (EnableAutoMtls (Mesh (opts_env opts)) = false
     ∨ opts_clusterMode opts = SniDnatClusterMode →
     TransportSocketMatches cluster' = TransportSocketMatches (opts_cluster opts)).
Proof.
  unfold applyTrafficPolicy.
  destruct (SelectTrafficPolicyComponents _ _) as [[[cp od] lb] tls].
  pose proof (shape_applyConnectionPool (opts_env opts) (opts_cluster opts) cp
                (opts_direction opts)) as Hcp.
  set (c1 := applyConnectionPool _ _ _ _) in *.
  pose proof (shape_applyOutlierDetection c1 od) as Hod.
  set (c2 := applyOutlierDetection _ _) in *.
  pose proof (applyLoadBalancer_frame c2 lb (opts_port opts) proxy) as Hlb.
  pose proof (applyLoadBalancer_wellRouted c2 lb (opts_port opts) proxy) as Hwr.
  set (c3 := applyLoadBalancer X _ _ _ _) in *.
  cbv zeta in Hlb. destruct Hlb as (Hn & He & Hl & Ht).
  unfold shape in Hcp, Hod. injection Hcp as Hcp1 Hcp2 Hcp3 Hcp4 Hcp5 Hcp6.
  injection Hod as Hod1 Hod2 Hod3 Hod4 Hod5 Hod6.
  assert (Hfit : assignmentFitsType (opts_cluster opts) → assignmentFitsType c2).
  { intros Hw0. apply (assignmentFitsType_ext c1); [congruence..|].
    apply (assignmentFitsType_ext (opts_cluster opts)); [congruence..|done]. }
  assert (Hwr3 : wellRouted X proxy (opts_cluster opts) → wellRouted X proxy c3).
  { intros [Hw0 Hw1]. apply Hwr; [by apply Hfit|]. right. intros Hod0.
    rewrite Hod5, Hcp5. apply Hw1. congruence. }
  assert (Hwr3' : assignmentFitsType (opts_cluster opts) → is_Some lb →
                  wellRouted X proxy c3).
  { intros Hw0 Hsome. apply Hwr; [by apply Hfit | by left]. }
  cbn [fst snd].
  case_decide as Hmode.
  - destruct (conditionallyConvertToIstioMtls _ _ _ _ _ _ _) as [tls' ctx] eqn:Hconv.
    pose proof (applyUpstreamTLSSettings_frame (opts_env opts) c3 tls' ctx
                  (opts_proxy opts)) as Htls.
    cbv zeta in Htls. destruct Htls as (Tn & Te & Tl & Tt & Tp & Tm).
    cbv zeta. split; [congruence|]. split; [congruence|]. split; [congruence|].
    split; [|split].
    + intros Hw0. by apply (wellRouted_ext proxy c3), Hwr3.
    + intros Hw0 Hsome. by apply (wellRouted_ext proxy c3), Hwr3'.
    + intros [Hauto|Hsni]; [|done].
      rewrite Tm; [congruence|].
      unfold conditionallyConvertToIstioMtls in Hconv. rewrite Hauto in Hconv.
      rewrite orb_true_r in Hconv.
      destruct tls; [|by simplify_eq]. by case_decide; simplify_eq.
  - cbv zeta. split; [congruence|]. split; [congruence|]. split; [congruence|].
    split; [done|]. split; [done|]. intros _. congruence.
Qed.

Lemma buildDefaultCluster_frame env name discoveryType localityLbEndpoints direction proxy
    port meshExternal :
  let cluster :=
    buildDefaultCluster X env name discoveryType localityLbEndpoints direction proxy port
      meshExternal in
  Name cluster = name
  ∧ EdsClusterConfig cluster = None
  ∧ LoadAssignment cluster
    = (if bool_decide (discoveryType = Cluster_STATIC)
          || bool_decide (discoveryType = Cluster_STRICT_DNS)
       then Some {| ClusterName := name; Endpoints := localityLbEndpoints |}
       else None)
  ∧ wellRouted X proxy cluster
  ∧ (EnableAutoMtls (Mesh env) = false → TransportSocketMatches cluster = []).
Proof.
  unfold buildDefaultCluster.
  match goal with
  | |- context [applyTrafficPolicy X ?o proxy] =>
      pose proof (applyTrafficPolicy_frame o proxy) as Hpol; set (opts := o) in *
  end.
  cbv zeta in Hpol. destruct Hpol as (Hn & He & Hl & _ & Hw & Ht). cbv zeta.
  assert (Hstart : assignmentFitsType (opts_cluster opts)).
  { unfold assignmentFitsType. subst opts. cbn [opts_cluster].
    destruct discoveryType, (IsIstioVersionGE13 X proxy && RespectDNSTTL X);
      compute; split; intros; destruct_or?; simplify_eq; eauto. }
  rewrite Hn, He, Hl. subst opts. cbn [opts_cluster opts_env] in *.
  split; [by repeat case_match|]. split; [by repeat case_match|].
  split; [by destruct discoveryType; repeat case_match|].
  split.
  - apply Hw; [done|]. cbn. by destruct port.
  - intros Hauto. rewrite Ht by by left. by repeat case_match.
Qed.

Lemma updateEds_discoveryShape proxy cluster :
  wellRouted X proxy cluster → discoveryShape X proxy (updateEds X cluster).
Proof.
  unfold wellRouted, assignmentFitsType, discoveryShape, updateEds. destruct cluster. cbn.
  intros ((H1 & H2) & H3). case_decide; cbn; naive_solver.
Qed.

Lemma updateEds_frame cluster :
  Name (updateEds X cluster) = Name cluster
  ∧ LoadAssignment (updateEds X cluster) = LoadAssignment cluster
  ∧ TransportSocketMatches (updateEds X cluster) = TransportSocketMatches cluster.
Proof. unfold updateEds. destruct cluster. cbn. by case_decide. Qed.

End Frame.

Section Plugins.

Context (X : Externals) (configgen : ConfigGeneratorImpl).

Lemma callOutboundPlugins_preserves (P : Cluster → Prop) inputParams cluster :
  (∀ p params c, p ∈ Plugins configgen → P c → P (OnOutboundCluster p params c)) →
  P cluster → P (callOutboundPlugins configgen inputParams cluster).
Proof.
  unfold callOutboundPlugins. intros Hp. revert cluster.
  induction (Plugins configgen) as [|p ps IH]; intros cluster Hc; [done|].
  simpl. apply IH.
  - intros q params c Hq. apply Hp. by right.
  - apply Hp; [by left | done].
Qed.

Lemma callInboundPlugins_preserves (P : Cluster → Prop) pluginParams cluster :
  (∀ p params c, p ∈ Plugins configgen → P c → P (OnInboundCluster p params c)) →
  P cluster → P (callInboundPlugins configgen pluginParams cluster).
Proof.
  unfold callInboundPlugins. intros Hp. revert cluster.
  induction (Plugins configgen) as [|p ps IH]; intros cluster Hc; [done|].
  simpl. apply IH.
  - intros q params c Hq. apply Hp. by right.
  - apply Hp; [by left | done].
Qed.

Lemma set_AltStatName_shape v cluster : shape (set_AltStatName v cluster) = shape cluster.
Proof. by destruct cluster. Qed.

Lemma set_Metadata_shape v cluster : shape (set_Metadata v cluster) = shape cluster.
Proof. by destruct cluster. Qed.

Lemma set_TlsContext_shape v cluster : shape (set_TlsContext v cluster) = shape cluster.
Proof. by destruct cluster. Qed.

(** The fields of a subset cluster before the plugins see it. *)
Lemma buildSubsetCluster_fields env proxy inputParams service port discoveryType
    destinationRule clusterMetadata serviceAccounts lbEndpoints subset :
  (∀ p params c, p ∈ Plugins configgen →
     shape (OnOutboundCluster p params c) = shape c) →
  let cluster :=
    buildSubsetCluster X configgen env proxy inputParams service port discoveryType
      destinationRule clusterMetadata serviceAccounts lbEndpoints subset in
  let name :=
    BuildSubsetKey TrafficDirectionOutbound (Subset_Name subset) (Hostname service)
      (Port_Port port) in
  Name cluster = name
  ∧ LoadAssignment cluster
    = (if bool_decide (discoveryType = Cluster_STATIC)
          || bool_decide (discoveryType = Cluster_STRICT_DNS)
       then Some {| ClusterName := name; Endpoints := lbEndpoints |}
       else None)
  ∧ discoveryShape X proxy cluster
  ∧ (EnableAutoMtls (Mesh env) = false → TransportSocketMatches cluster = []).
Proof.
  intros Hplug. unfold buildSubsetCluster.
  set (name := BuildSubsetKey _ _ _ _).
  pose proof (buildDefaultCluster_frame X env name discoveryType lbEndpoints
                TrafficDirectionOutbound proxy None (MeshExternal service)) as H0.
  set (c0 := buildDefaultCluster _ _ _ _ _ _ _ _ _) in *.
  cbv zeta in H0. destruct H0 as (N0 & E0 & L0 & W0 & T0).
  set (c1 := if decide (OutboundClusterStatName (Mesh env) ≠ "") then _ else c0).
  assert (S1 : shape c1 = shape c0).
  { subst c1. destruct (decide (OutboundClusterStatName (Mesh env) ≠ ""));
      [apply set_AltStatName_shape | done]. }
  pose proof (shape_setUpstreamProtocol X proxy c1 port TrafficDirectionOutbound) as S2.
  set (c2 := setUpstreamProtocol _ _ _ _ _) in *.
  match goal with
  | |- context [applyTrafficPolicy X (outboundOpts env proxy c2 ?pol ?pt ?sa ?sni ?me) proxy] =>
      pose proof (applyTrafficPolicy_frame X (outboundOpts env proxy c2 pol pt sa sni me)
                    proxy) as H3;
      set (c3 := applyTrafficPolicy X (outboundOpts env proxy c2 pol pt sa sni me) proxy) in *
  end.
  match goal with
  | |- context [applyTrafficPolicy X (outboundOpts env proxy c3 ?pol ?pt ?sa ?sni ?me) proxy] =>
      pose proof (applyTrafficPolicy_frame X (outboundOpts env proxy c3 pol pt sa sni me)
                    proxy) as H4;
      set (c4 := applyTrafficPolicy X (outboundOpts env proxy c3 pol pt sa sni me) proxy) in *
  end.
  cbv zeta in H3, H4. cbn [opts_cluster opts_env outboundOpts] in H3, H4.
  destruct H3 as (N3 & E3 & L3 & W3 & _ & T3). destruct H4 as (N4 & E4 & L4 & W4 & _ & T4).
  pose proof (updateEds_frame X c4) as (N5 & L5 & T5).
  pose proof (updateEds_discoveryShape X proxy c4) as D5.
  set (c5 := updateEds X c4) in *.
  pose proof (set_Metadata_shape clusterMetadata c5) as S6.
  set (c6 := set_Metadata clusterMetadata c5) in *.
  unfold shape in S1, S2, S6.
  injection S1 as S11 S12 S13 S14 S15 S16. injection S2 as S21 S22 S23 S24 S25 S26.
  injection S6 as S61 S62 S63 S64 S65 S66.
  assert (W2 : wellRouted X proxy c2).
  { apply (wellRouted_ext X proxy c1); [congruence..|].
    by apply (wellRouted_ext X proxy c0); [congruence..|]. }
  assert (D6 : discoveryShape X proxy c6).
  { specialize (D5 (W4 (W3 W2))). unfold discoveryShape in *.
    by rewrite S62, S63, S64, S65. }
  cbv zeta.
  apply (callOutboundPlugins_preserves
           (fun c => Name c = name
                     ∧ LoadAssignment c
                       = (if bool_decide (discoveryType = Cluster_STATIC)
                             || bool_decide (discoveryType = Cluster_STRICT_DNS)
                          then Some {| ClusterName := name; Endpoints := lbEndpoints |}
                          else None)
                     ∧ discoveryShape X proxy c
                     ∧ (EnableAutoMtls (Mesh env) = false →
                        TransportSocketMatches c = []))).
  - intros p params c Hp (Hn & Hl & Hd & Ht).
    specialize (Hplug p params c Hp). unfold shape in Hplug.
    injection Hplug as P1 P2 P3 P4 P5 P6.
    unfold discoveryShape in *. rewrite P1, P2, P3, P4, P5, P6. done.
  - split; [congruence|]. split; [congruence|]. split; [done|].
    intros Hauto. rewrite S66, T5, T4, T3, S26, S16 by by left. by apply T0.
Qed.

End Plugins.

(** ** Normalization of duplicates *)

Section Normalize.

Context (proxy : Proxy).

Lemma normalize_fold (seen : list string) (clusters : list Cluster)
    (have : gmap string bool) (out : list Cluster) (events : list PushEvent) :
  (∀ name, default false (have !! name) = true ↔ name ∈ seen) →
  ∃ have',
    foldl (normalizeStep proxy) (have, out, events) clusters
    = (have', out ++ (firstWins seen clusters).1,
       events ++ (duplicateEvent proxy <$> (firstWins seen clusters).2)).
Proof.
  revert seen have out events.
  induction clusters as [|c rest IH]; intros seen have out events Hhave; simpl.
  - exists have. by rewrite !app_nil_r.
  - destruct (default false (have !! Name c)) eqn:Hc; simpl.
    + rewrite bool_decide_true by (by apply Hhave). simpl.
      destruct (IH seen (<[Name c := true]> have) out (events ++ [duplicateEvent proxy c]))
        as [have' ->].
      * intros name. rewrite lookup_insert. case_decide as Hn; simpl.
        -- subst. split; [intros _; by apply Hhave | done].
        -- apply Hhave.
      * exists have'. by rewrite <- app_assoc.
    + rewrite bool_decide_false.
      2: { intros Hin. apply Hhave in Hin. congruence. }
      simpl.
      destruct (IH (Name c :: seen) (<[Name c := true]> have) (out ++ [c]) events)
        as [have' ->].
      * intros name. rewrite lookup_insert, elem_of_cons. case_decide as Hn; simpl.
        -- subst. split; [intros _; by left | done].
        -- rewrite Hhave. split; [by right | intros [->|]; done].
      * exists have'. by rewrite <- app_assoc.
Qed.

Lemma normalizeClusters_firstWins (clusters : list Cluster) :
  normalizeClusters proxy clusters
  = ((firstWins [] clusters).1, duplicateEvent proxy <$> (firstWins [] clusters).2).
Proof.
  unfold normalizeClusters.
  destruct (normalize_fold [] clusters ∅ [] []) as [have' ->]; [|done].
  intros name. rewrite lookup_empty. simpl. split; [done|]. by intros ?%elem_of_nil.
Qed.

Lemma firstWins_names_fresh (seen : list string) (clusters : list Cluster) :
  ∀ c, c ∈ (firstWins seen clusters).1 → Name c ∉ seen.
Proof.
  revert seen. induction clusters as [|c rest IH]; intros seen c'; simpl.
  - by intros ?%elem_of_nil.
  - case_bool_decide as Hc; simpl.
    + apply IH.
    + intros [->|Hin]%elem_of_cons; [done|].
      apply IH in Hin. intros Hs. apply Hin. by right.
Qed.

Lemma firstWins_NoDup (seen : list string) (clusters : list Cluster) :
  NoDup (Name <$> (firstWins seen clusters).1).
Proof.
  revert seen. induction clusters as [|c rest IH]; intros seen; simpl.
  - constructor.
  - case_bool_decide as Hc; simpl; [apply IH|].
    constructor; [|apply IH].
    intros (c' & Heq & Hin)%list_elem_of_fmap.
    apply firstWins_names_fresh in Hin. apply Hin. rewrite <- Heq. by left.
Qed.

Lemma firstWins_sublist (seen : list string) (clusters : list Cluster) :
  (firstWins seen clusters).1 `sublist_of` clusters.
Proof.
  revert seen. induction clusters as [|c rest IH]; intros seen; simpl.
  - constructor.
  - case_bool_decide; simpl; [by apply sublist_cons | by apply sublist_skip].
Qed.

Lemma firstWins_covers (seen : list string) (clusters : list Cluster) :
  ∀ c, c ∈ clusters → Name c ∈ seen ∨ Name c ∈ Name <$> (firstWins seen clusters).1.
Proof.
  revert seen. induction clusters as [|c rest IH]; intros seen c'; simpl.
  - by intros ?%elem_of_nil.
  - intros [->|Hin]%elem_of_cons.
    + case_bool_decide; simpl; [by left | right; by left].
    + case_bool_decide; simpl.
      * by apply IH.
      * destruct (IH (Name c :: seen) c' Hin) as [[->|]%elem_of_cons|];
          [right; by left | by left | right; by right].
Qed.

Lemma firstWins_partition (seen : list string) (clusters : list Cluster) :
  (length (firstWins seen clusters).1 + length (firstWins seen clusters).2
   = length clusters)%nat.
Proof.
  revert seen. induction clusters as [|c rest IH]; intros seen; simpl; [done|].
  case_bool_decide; simpl.
  - specialize (IH seen). lia.
  - specialize (IH (Name c :: seen)). lia.
Qed.

Lemma firstWins_ext (seen seen' : list string) (clusters : list Cluster) :
  (∀ name, name ∈ seen ↔ name ∈ seen') →
  firstWins seen clusters = firstWins seen' clusters.
Proof.
  revert seen seen'. induction clusters as [|c rest IH]; intros seen seen' Heq; simpl; [done|].
  rewrite (bool_decide_ext _ _ (Heq (Name c))).
  case_bool_decide; [by rewrite (IH seen seen')|].
  rewrite (IH (Name c :: seen) (Name c :: seen')); [done|].
  intros name. rewrite !elem_of_cons, Heq. done.
Qed.

Lemma selectAt_cons h (pre : list Cluster) (c : Cluster) (rest : list Cluster) :
  selectAt h pre (c :: rest)
  = from_option (fun y => [y]) [] (h (bool_decide (Name c ∈ Name <$> pre)) c)
    ++ selectAt h (pre ++ [c]) rest.
Proof.
  unfold selectAt. rewrite imap_cons. simpl omap.
  assert (Hhead : isRepeat (pre ++ c :: rest) (length pre + 0) c
                  = bool_decide (Name c ∈ Name <$> pre)).
  { unfold isRepeat. by rewrite Nat.add_0_r, take_app_length. }
  rewrite Hhead.
  assert (Htail :
    imap ((fun i c0 => h (isRepeat (pre ++ c :: rest) (length pre + i) c0) c0) ∘ S) rest
    = imap (fun i c0 => h (isRepeat ((pre ++ [c]) ++ rest) (length (pre ++ [c]) + i) c0) c0)
        rest).
  { apply imap_ext. intros i c' _. simpl.
    rewrite <- app_assoc, length_app. simpl.
    by replace (length pre + 1 + i)%nat with (length pre + S i)%nat by lia. }
  rewrite Htail. by destruct (h _ c).
Qed.

Lemma firstWins_by_position (pre clusters : list Cluster) :
  (firstWins (Name <$> pre) clusters).1
  = selectAt (fun b c => if b then None else Some c) pre clusters
  ∧ (firstWins (Name <$> pre) clusters).2
    = selectAt (fun b c => if b then Some c else None) pre clusters.
Proof.
  revert pre. induction clusters as [|c rest IH]; intros pre; [done|].
  rewrite !selectAt_cons. destruct (IH (pre ++ [c])) as [IH1 IH2].
  simpl firstWins. case_bool_decide as Hc; simpl.
  - rewrite (firstWins_ext (Name <$> pre) (Name <$> pre ++ [c])).
    + by rewrite IH1, IH2.
    + intros name. rewrite fmap_app, elem_of_app. simpl.
      rewrite list_elem_of_singleton. split; [tauto | intros [?| ->]; done].
  - rewrite (firstWins_ext (Name c :: (Name <$> pre)) (Name <$> pre ++ [c])).
    + by rewrite IH1, IH2.
    + intros name. rewrite fmap_app, elem_of_cons, elem_of_app. simpl.
      rewrite list_elem_of_singleton. tauto.
Qed.

End Normalize.

(** C1. [normalizeClusters] keeps exactly the clusters that are the first of
    their name and rejects every later cluster of a name already seen; it
    records one duplicate event per rejected cluster, in order; the clusters
    kept stand in emission order; and so the names returned are pairwise
    distinct, and every name emitted is returned. *)
Theorem normalizeClusters_first_wins (proxy : Proxy) (clusters : list Cluster) :
  let kept := (normalizeClusters proxy clusters).1 in
  let events := (normalizeClusters proxy clusters).2 in
  kept = firstOccurrences clusters
  ∧ events = duplicateEvent proxy <$> laterOccurrences clusters
  ∧ (kept, laterOccurrences clusters) = firstWins [] clusters
  ∧ kept `sublist_of` clusters
  ∧ (length kept + length events = length clusters)%nat
  ∧ (∀ c, c ∈ clusters → Name c ∈ Name <$> kept)
  ∧ NoDup (Name <$> kept).
Proof.
  simpl. rewrite normalizeClusters_firstWins. simpl.
  destruct (firstWins_by_position [] clusters) as [H1 H2].
  assert (E1 : (firstWins [] clusters).1 = firstOccurrences clusters) by exact H1.
  assert (E2 : (firstWins [] clusters).2 = laterOccurrences clusters) by exact H2.
  repeat split.
  - exact E1.
  - by rewrite E2.
  - rewrite <- E2. by destruct (firstWins [] clusters).
  - apply firstWins_sublist.
  - rewrite length_fmap. apply firstWins_partition.
  - intros c Hc. destruct (firstWins_covers [] clusters c Hc) as [?%elem_of_nil|]; done.
  - apply firstWins_NoDup.
Qed.

(** ** Applying the resolved TLS settings *)

Section Tls.

Context (X : Externals).

Lemma GetOrDefault_nonempty (s def : string) : def ≠ "" → GetOrDefault s def ≠ "".
Proof. intros Hdef. unfold GetOrDefault. by case_decide. Qed.


Lemma applyTLSMode_istio_mutual env cluster tls proxy cvc :
  TLS_Mode tls = TLSSettings_ISTIO_MUTUAL →
  TLS_ClientCertificate tls ≠ "" →
  TLS_PrivateKey tls ≠ "" →
  ∃ ctx, applyTLSMode env cluster tls proxy cvc = Some (set_TlsContext (Some ctx) cluster).
Proof.
  intros Hmode Hcert Hkey. unfold applyTLSMode. rewrite Hmode.
  rewrite (bool_decide_false _ Hcert), (bool_decide_false _ Hkey). simpl. eauto.
Qed.

Lemma set_TlsContext_twice a b cluster :
  set_TlsContext a (set_TlsContext b cluster) = set_TlsContext a cluster.
Proof. by destruct cluster. Qed.

Lemma TlsContext_set a cluster : TlsContext (set_TlsContext a cluster) = a.
Proof. by destruct cluster. Qed.

End Tls.



(** C5. When the TLS intent is absent, auto-mTLS is enabled and the service
    is not mesh-external, the mode is synthesized as MeshMutual and marked
    auto detected. Provided the default key material paths are not empty and
    the TLS context marshals, applying the result leaves the cluster's own
    TLS context empty and installs exactly two transport-socket matches: the
    first, named mtls, matches endpoints whose mTLS-ready label is true and
    carries the TLS socket configured with the marshalled context, the very
    context a user-supplied setting would have attached to the cluster; the
    second is the plaintext raw-buffer match, which matches every endpoint. *)
Theorem auto_mtls_transport_socket_matches (X : Externals) (env : Environment)
    (cluster : Cluster) (serviceAccounts : list string) (sni : string) (proxy : Proxy) :
  DefaultCertChain X ≠ "" →
  DefaultKey X ≠ "" →
  (∀ ctx, ∃ any, MarshalAny X (Some ctx) = inl any) →
  ∃ resolved ctx any,
    conditionallyConvertToIstioMtls X None serviceAccounts sni proxy true false
    = (Some resolved, autoDetected)
    ∧ TLS_Mode resolved = TLSSettings_ISTIO_MUTUAL
    ∧ TlsContext (applyUpstreamTLSSettings X env cluster (Some resolved) userSupplied proxy)
      = Some ctx
    ∧ MarshalAny X (Some ctx) = inl any
    ∧ let cluster' :=
        applyUpstreamTLSSettings X env cluster (Some resolved) autoDetected proxy in
      TlsContext cluster' = None
      ∧ TransportSocketMatches cluster'
        = [ {| TSM_Name := "mtls";
               TSM_Match := [ (MTLSReadyLabelShortname X, "true") ];
               TSM_TransportSocket :=
                 {| TS_Name := EnvoyTLSSocketName; TS_TypedConfig := Some any |} |};
            {| TSM_Name := "plaintext";
               TSM_Match := [];
               TSM_TransportSocket :=
                 {| TS_Name := EnvoyRawBufferSocketName; TS_TypedConfig := None |} |} ]
      ∧ cluster'
        = set_TransportSocketMatches (TransportSocketMatches cluster')
            (set_TlsContext None cluster).
Proof.
  intros Hchain Hkey Hmarshal.
  set (resolved := buildIstioMutualTLS X serviceAccounts sni proxy).
  assert (Hcert : TLS_ClientCertificate resolved ≠ "") by by apply GetOrDefault_nonempty.
  assert (Hpriv : TLS_PrivateKey resolved ≠ "") by by apply GetOrDefault_nonempty.
  assert (Hmode : TLS_Mode resolved = TLSSettings_ISTIO_MUTUAL) by done.
  pose (cvc :=
    if bool_decide (is_Some
         (if decide (TLS_CaCertificates resolved ≠ "")
          then Some (GetOrDefault (TLSClientRootCert (Proxy_Metadata proxy))
                       (TLS_CaCertificates resolved))
          else None))
       || bool_decide (0 < length (TLS_SubjectAltNames resolved))%nat
    then {| TrustedCa :=
              if decide (TLS_CaCertificates resolved ≠ "")
              then Some (GetOrDefault (TLSClientRootCert (Proxy_Metadata proxy))
                           (TLS_CaCertificates resolved))
              else None;
            VerifySubjectAltName := TLS_SubjectAltNames resolved |}
    else {| TrustedCa := None; VerifySubjectAltName := [] |}).
  destruct (applyTLSMode_istio_mutual env cluster resolved proxy cvc Hmode Hcert Hpriv)
    as [ctx Hctx].
  destruct (Hmarshal ctx) as [any Hany].
  exists resolved, ctx, any.
  assert (Huser :
    applyUpstreamTLSSettings X env cluster (Some resolved) userSupplied proxy
    = set_TlsContext (Some ctx) cluster).
  { unfold applyUpstreamTLSSettings. fold cvc. rewrite Hctx.
    by rewrite Hmode. }
  assert (Hauto :
    applyUpstreamTLSSettings X env cluster (Some resolved) autoDetected proxy
    = set_TransportSocketMatches (autoMtlsTransportSocketMatches X any)
        (set_TlsContext None cluster)).
  { unfold applyUpstreamTLSSettings. fold cvc. rewrite Hctx.
    rewrite Hmode. simpl. rewrite TlsContext_set, Hany. by rewrite set_TlsContext_twice. }
  split; [|split; [done|split; [|split; [done|]]]].
  - unfold conditionallyConvertToIstioMtls. simpl. done.
  - by rewrite Huser, TlsContext_set.
  - cbv zeta. rewrite Hauto. by destruct cluster.
Qed.

Lemma auto_mtls_transport_socket_matches_witness :
  ∃ resolved ctx any,
    conditionallyConvertToIstioMtls Scenario.externals None [] "outbound_.9080_._.reviews"
      (Scenario.proxy SidecarProxy []) true false
    = (Some resolved, autoDetected)
    ∧ TLS_Mode resolved = TLSSettings_ISTIO_MUTUAL
    ∧ TlsContext (applyUpstreamTLSSettings Scenario.externals (Scenario.env true [])
                    emptyCluster (Some resolved) userSupplied (Scenario.proxy SidecarProxy []))
      = Some ctx
    ∧ MarshalAny Scenario.externals (Some ctx) = inl any
    ∧ TlsContext (applyUpstreamTLSSettings Scenario.externals (Scenario.env true [])
                    emptyCluster (Some resolved) autoDetected (Scenario.proxy SidecarProxy []))
      = None.
Proof.
  destruct (auto_mtls_transport_socket_matches Scenario.externals (Scenario.env true [])
              emptyCluster [] "outbound_.9080_._.reviews" (Scenario.proxy SidecarProxy []))
    as (resolved & ctx & any & H1 & H2 & H3 & H4 & H5 & _).
  - simpl. discriminate.
  - simpl. discriminate.
  - intros ctx. eexists. reflexivity.
  - exists resolved, ctx, any. repeat split; assumption.
Defined.

(** ** The traffic-policy resolver *)

Section Resolver.

Lemma findPortLevelSettings_first (port : Port)
    (before : list TrafficPolicy_PortTrafficPolicy) entry after :
  0 ≤ Port_Port port < 2 ^ 32 →
  Forall (fun e => ¬ portMatches port e) before →
  portMatches port entry →
  findPortLevelSettings port (before ++ entry :: after) = Some entry.
Proof.
  intros Hrange Hbefore (sel & Hsel & Hnum).
  induction Hbefore as [|e before He _ IH]; simpl.
  - rewrite Hsel, bool_decide_true; [done|].
    unfold uint32. rewrite Z.mod_small; [done | lia].
  - destruct (PTP_Port e) as [sel'|] eqn:Hp; [|done].
    rewrite bool_decide_false; [done|].
    intros Heq. apply He. exists sel'. split; [done|].
    unfold uint32 in Heq. rewrite Z.mod_small in Heq; [done | lia].
Qed.

Lemma findPortLevelSettings_none (port : Port)
    (entries : list TrafficPolicy_PortTrafficPolicy) :
  0 ≤ Port_Port port < 2 ^ 32 →
  Forall (fun e => ¬ portMatches port e) entries →
  findPortLevelSettings port entries = None.
Proof.
  intros Hrange Hnone. induction Hnone as [|e entries He _ IH]; simpl; [done|].
  destruct (PTP_Port e) as [sel'|] eqn:Hp; [|done].
  rewrite bool_decide_false; [done|].
  intros Heq. apply He. exists sel'. split; [done|].
  unfold uint32 in Heq. rewrite Z.mod_small in Heq; [done | lia].
Qed.

End Resolver.

(** C6. For a port number in the range of [uint32], the resolver returns
    the four root facets when no port is given or no port-level entry
    matches the port; when the port-level settings hold an entry matching
    the port, it returns the four facets of the first such entry, as they
    are, whatever the root facets and the later entries. *)
Theorem SelectTrafficPolicyComponents_first_match (policy : TrafficPolicy) (port : Port) :
  0 ≤ Port_Port port < 2 ^ 32 →
  SelectTrafficPolicyComponents (Some policy) None = rootFacets policy
  ∧ (Forall (fun e => ¬ portMatches port e) (TP_PortLevelSettings policy) →
     SelectTrafficPolicyComponents (Some policy) (Some port) = rootFacets policy)
  ∧ (∀ before entry after,
       TP_PortLevelSettings policy = before ++ entry :: after →
       Forall (fun e => ¬ portMatches port e) before →
       portMatches port entry →
       SelectTrafficPolicyComponents (Some policy) (Some port) = entryFacets entry).
Proof.
  intros Hrange. split; [done|]. split.
  - intros Hnone. unfold SelectTrafficPolicyComponents.
    rewrite (findPortLevelSettings_none port _ Hrange Hnone). by case_decide.
  - intros before entry after Heq Hbefore Hentry. unfold SelectTrafficPolicyComponents.
    rewrite Heq, (findPortLevelSettings_first port before entry after Hrange Hbefore Hentry).
    rewrite decide_True; [done|]. rewrite length_app. simpl. lia.
Qed.

Lemma SelectTrafficPolicyComponents_first_match_witness :
  SelectTrafficPolicyComponents (Some Scenario.layeredPolicy) (Some Scenario.httpPort)
  = (None, None, None, Some (Scenario.tlsOf TLSSettings_DISABLE "" "")).
Proof.
  refine (proj2 (proj2 (SelectTrafficPolicyComponents_first_match Scenario.layeredPolicy
                          Scenario.httpPort _))
            [Scenario.portEntry 8080 (Some (Scenario.simpleLb LoadBalancerSettings_LEAST_CONN))
               None]
            (Scenario.portEntry 9080 None (Some (Scenario.tlsOf TLSSettings_DISABLE "" "")))
            [Scenario.portEntry 9080
               (Some (Scenario.simpleLb LoadBalancerSettings_ROUND_ROBIN)) None]
            _ _ _).
  - simpl. lia.
  - reflexivity.
  - constructor; [|constructor]. intros (sel & Hsel & Hnum). simpl in Hsel.
    injection Hsel as <-. simpl in Hnum. lia.
  - exists {| Number := 9080 |}. split; reflexivity.
Defined.

(** ** The endpoint materializer *)

Section Endpoints.

Context (X : Externals) (view : gmap string bool).

Lemma groupByLocality_fold (instances : list ServiceInstance)
    (m : gmap string (list LbEndpoint)) (locality : string) :
  foldl (groupStep X view) m instances !! locality
  = match visibleAt X view locality instances with
    | [] => m !! locality
    | members => Some (default [] (m !! locality) ++ (buildLbEndpoint <$> members))
    end.
Proof.
  revert m. induction instances as [|i rest IH]; intros m; simpl; [done|].
  rewrite IH. unfold visibleAt. rewrite filter_cons.
  case_decide as Hi.
  - destruct Hi as [Hview Hloc]. unfold groupStep. rewrite Hview. simpl.
    rewrite Hloc, lookup_insert_eq.
    destruct (filter _ rest); simpl; [done|]. by rewrite <- app_assoc.
  - unfold groupStep.
    destruct (default false (view !! EP_Network (SI_Endpoint i))) eqn:Hview; simpl; [|done].
    rewrite lookup_insert_ne; [done|]. intros Hloc. by apply Hi.
Qed.

Lemma groupByLocality_lookup (instances : list ServiceInstance) (locality : string) :
  groupByLocality X view instances !! locality
  = match visibleAt X view locality instances with
    | [] => None
    | members => Some (buildLbEndpoint <$> members)
    end.
Proof.
  unfold groupByLocality.
  rewrite groupByLocality_fold, lookup_empty. done.
Qed.

Lemma weight_fold (eps : list LbEndpoint) (w : Z) :
  foldl (fun weight ep => uint32 (weight + LbEp_weight ep)) w eps
  = if decide (eps = []) then w else (w + sumZ (LbEp_weight <$> eps)) mod 2 ^ 32.
Proof.
  revert w. induction eps as [|ep eps IH]; intros w; simpl; [done|].
  rewrite IH. unfold uint32.
  destruct (decide (eps = [])) as [->|Hnil].
  - simpl. by rewrite Z.add_0_r.
  - by rewrite Zplus_mod_idemp_l, Z.add_assoc.
Qed.

Lemma buildLbEndpoint_weight (instance : ServiceInstance) :
  LbEp_weight (buildLbEndpoint instance) = memberWeight instance.
Proof. done. Qed.

Lemma memberWeight_pos (instance : ServiceInstance) : 0 < memberWeight instance.
Proof. unfold memberWeight. destruct (Z.ltb_spec 0 (EP_LbWeight (SI_Endpoint instance))); lia. Qed.

Lemma sumZ_memberWeight_nonneg (members : list ServiceInstance) :
  0 ≤ sumZ (memberWeight <$> members).
Proof.
  induction members as [|i rest IH]; [done|].
  change (0 ≤ memberWeight i + sumZ (memberWeight <$> rest)).
  pose proof (memberWeight_pos i). lia.
Qed.

End Endpoints.

(** C9 (as amended). Before normalization, every locality group that the
    endpoint materializer emits holds the endpoints of the instances of one
    locality that the proxy's network view admits, in their order; each
    member's weight is the endpoint's weight when it is greater than 0 and 1
    otherwise; and the group's weight is the sum of its members' weights
    reduced modulo 2^32, hence the sum itself whenever the sum is below
    2^32. *)
Theorem locality_group_weight (X : Externals) (env : Environment)
    (view : gmap string bool) (service : Service) (port : Z)
    (labels : list (gmap string string)) (instances : list ServiceInstance) :
  Svc_Resolution service = DNSLB →
  InstancesByPort env service port labels = inl instances →
  let groups := localityGroups (groupByLocality X view instances) in
  buildLocalityLbEndpoints X env view service port labels
  = LocalityLbWeightNormalize X groups
  ∧ ∀ group, group ∈ groups →
      ∃ locality,
        let members := visibleAt X view locality instances in
        members ≠ []
        ∧ LLE_Locality group = Some (ConvertLocality locality)
        ∧ LbEndpoints group = buildLbEndpoint <$> members
        ∧ LbEp_weight <$> LbEndpoints group = memberWeight <$> members
        ∧ LLE_LoadBalancingWeight group
          = Some (sumZ (LbEp_weight <$> LbEndpoints group) mod 2 ^ 32)
        ∧ (sumZ (LbEp_weight <$> LbEndpoints group) < 2 ^ 32 → groupWeightIsSum group).
Proof.
  intros Hres Hinst groups. split.
  - unfold buildLocalityLbEndpoints. rewrite decide_False by (by rewrite Hres; intros ?).
    by rewrite Hinst.
  - intros group ([locality eps] & -> & Hin)%list_elem_of_fmap.
    apply elem_of_map_to_list in Hin. rewrite groupByLocality_lookup in Hin.
    exists locality. cbv zeta.
    destruct (visibleAt X view locality instances) as [|i members] eqn:Hvis; [done|].
    injection Hin as <-.
    assert (Hweights : LbEp_weight <$> (buildLbEndpoint <$> i :: members)
                       = memberWeight <$> i :: members).
    { rewrite <- list_fmap_compose. by apply list_fmap_ext. }
    assert (Hfold : LLE_LoadBalancingWeight
                      (localityGroup locality (buildLbEndpoint <$> i :: members))
                    = Some (sumZ (LbEp_weight <$> (buildLbEndpoint <$> i :: members))
                            mod 2 ^ 32)).
    { unfold localityGroup. cbn [LLE_LoadBalancingWeight]. rewrite weight_fold.
      rewrite decide_False by done. by rewrite Z.add_0_l. }
    split; [done|]. split; [done|]. split; [done|]. split; [exact Hweights|].
    split; [exact Hfold|].
    intros Hsmall. unfold groupWeightIsSum.
    etrans; [exact Hfold|]. apply (f_equal Some), Z.mod_small.
    split; [|exact Hsmall].
    pose proof (sumZ_memberWeight_nonneg (i :: members)) as Hpos.
    rewrite <- Hweights in Hpos. exact Hpos.
Qed.

Lemma locality_group_weight_witness :
  Forall groupWeightIsSum
    (localityGroups
       (groupByLocality Scenario.externals Scenario.defaultView Scenario.lightInstances)).
Proof.
  destruct (locality_group_weight Scenario.externals
              (Scenario.env false Scenario.lightInstances) Scenario.defaultView
              Scenario.external 443 [] Scenario.lightInstances) as [_ Hgroups].
  - reflexivity.
  - reflexivity.
  - apply Forall_forall. intros group Hgroup.
    destruct (Hgroups group Hgroup) as (locality & _ & _ & _ & _ & _ & Hsum).
    apply Hsum. clear Hgroups Hsum.
    remember (localityGroups
                (groupByLocality Scenario.externals Scenario.defaultView
                   Scenario.lightInstances)) as groups eqn:Hgroups.
    vm_compute in Hgroups. subst groups.
    repeat (apply elem_of_cons in Hgroup as [-> | Hgroup]; [reflexivity|]).
    by apply elem_of_nil in Hgroup.
Defined.

(** C9 as stated fails where the 32-bit sum wraps: two endpoints of one
    locality, each of weight 2^31, form a group of weight 0. *)
Lemma locality_group_weight_wraps :
  let groups :=
    localityGroups
      (groupByLocality Scenario.externals Scenario.defaultView Scenario.heavyInstances) in
  (LLE_LoadBalancingWeight <$> groups) = [Some 0]
  ∧ (sumZ <$> (fmap LbEp_weight <$> (LbEndpoints <$> groups))) = [4294967296]
  ∧ ¬ Forall groupWeightIsSum groups.
Proof.
  split; [by vm_compute|]. split; [by vm_compute|].
  intros Hall. vm_compute in Hall.
  apply Forall_cons_1 in Hall as [Hhead _]. discriminate Hhead.
Qed.

(** ** The subset loop of the outbound generator *)

Section SubsetLoop.

Context (X : Externals) (configgen : ConfigGeneratorImpl).
Context (env : Environment) (proxy : Proxy) (networkView : gmap string bool).
Context (inputParams : InputParams) (service : Service) (port : Port).
Context (discoveryType : Cluster_DiscoveryType) (destinationRule : DestinationRule).
Context (clusterMetadata : option core_Metadata) (serviceAccounts : list string).

Local Abbreviation loop :=
  (subsetLoop X configgen env proxy networkView inputParams service port discoveryType
     destinationRule clusterMetadata serviceAccounts).
Local Abbreviation build :=
  (buildSubsetCluster X configgen env proxy inputParams service port discoveryType
     destinationRule clusterMetadata serviceAccounts).

Lemma subsetLoop_app state (l1 l2 : list Subset) :
  loop state (l1 ++ l2) = loop (loop state l1) l2.
Proof. unfold subsetLoop. apply foldl_app. Qed.

Lemma subsetLoop_cons lbEndpoints clusters (s : Subset) (l : list Subset) :
  loop (lbEndpoints, clusters) (s :: l)
  = loop (subsetLbEndpoints X env networkView service port discoveryType lbEndpoints s,
          clusters
          ++ [build (subsetLbEndpoints X env networkView service port discoveryType
                       lbEndpoints s) s]) l.
Proof. done. Qed.

Lemma subsetLoop_clusters lbEndpoints clusters (l : list Subset) :
  ∃ added, (loop (lbEndpoints, clusters) l).2 = clusters ++ added
           ∧ length added = length l.
Proof.
  revert lbEndpoints clusters. induction l as [|s l IH]; intros lbEndpoints clusters.
  - exists []. by rewrite app_nil_r.
  - rewrite subsetLoop_cons.
    set (lb := subsetLbEndpoints X env networkView service port discoveryType lbEndpoints s).
    destruct (IH lb (clusters ++ [build lb s])) as (added & -> & Hlen).
    eexists (_ :: added). rewrite <- app_assoc. split; [done|]. simpl. by rewrite Hlen.
Qed.

Lemma subsetLoop_unlabelled lbEndpoints clusters (l : list Subset) :
  Forall (fun s => size (Subset_Labels s) = 0%nat) l →
  (loop (lbEndpoints, clusters) l).1 = lbEndpoints.
Proof.
  intros Hl. revert clusters. induction Hl as [|s l Hs _ IH]; intros clusters; [done|].
  rewrite subsetLoop_cons. unfold subsetLbEndpoints at 1.
  rewrite (bool_decide_false (size (Subset_Labels s) ≠ 0%nat)) by (by intros ?).
  rewrite andb_false_r. apply IH.
Qed.

Lemma subsetLoop_reuse lbEndpoints clusters (before : list Subset) (s1 : Subset)
    (mid : list Subset) (s2 : Subset) (after : list Subset) :
  discoveryType ≠ Cluster_EDS →
  size (Subset_Labels s1) ≠ 0%nat →
  Forall (fun s => size (Subset_Labels s) = 0%nat) mid →
  size (Subset_Labels s2) = 0%nat →
  (loop (lbEndpoints, clusters) (before ++ s1 :: mid ++ s2 :: after)).2
    !! (length clusters + length before + 1 + length mid)%nat
  = Some (build (buildLocalityLbEndpoints X env networkView service (Port_Port port)
                   [Subset_Labels s1]) s2).
Proof.
  intros Htype Hs1 Hmid Hs2.
  rewrite subsetLoop_app.
  destruct (loop (lbEndpoints, clusters) before) as [lb1 out1] eqn:Hbefore.
  destruct (subsetLoop_clusters lbEndpoints clusters before) as (added1 & Hout1 & Hlen1).
  rewrite Hbefore in Hout1. simpl in Hout1. subst out1.
  rewrite subsetLoop_cons.
  assert (subsetLbEndpoints X env networkView service port discoveryType lb1 s1
          = buildLocalityLbEndpoints X env networkView service (Port_Port port)
              [Subset_Labels s1]) as ->.
  { unfold subsetLbEndpoints. by rewrite !bool_decide_true. }
  set (filtered := buildLocalityLbEndpoints _ _ _ _ _ _).
  rewrite subsetLoop_app.
  destruct (loop (filtered, (clusters ++ added1) ++ [build filtered s1]) mid)
    as [lb2 out2] eqn:Hloop2.
  pose proof (subsetLoop_unlabelled filtered ((clusters ++ added1) ++ [build filtered s1])
                mid Hmid) as Hlb2.
  destruct (subsetLoop_clusters filtered ((clusters ++ added1) ++ [build filtered s1]) mid)
    as (added2 & Hout2 & Hlen2).
  rewrite Hloop2 in Hlb2, Hout2. simpl in Hlb2, Hout2. subst lb2 out2.
  rewrite subsetLoop_cons.
  assert (subsetLbEndpoints X env networkView service port discoveryType filtered s2
          = filtered) as ->.
  { unfold subsetLbEndpoints.
    rewrite (bool_decide_false (size (Subset_Labels s2) ≠ 0%nat)) by (by intros ?).
    by rewrite andb_false_r. }
  match goal with
  | |- (loop (?lb, ?out) after).2 !! _ = _ =>
      destruct (subsetLoop_clusters lb out after) as (added3 & -> & _)
  end.
  rewrite lookup_app_l.
  2: { rewrite !length_app. simpl. lia. }
  rewrite lookup_app_r.
  2: { rewrite !length_app. simpl. lia. }
  rewrite !length_app. simpl.
  replace (length clusters + length before + 1 + length mid
           - (length clusters + length added1 + 1 + length added2))%nat with 0%nat by lia.
  done.
Qed.

End SubsetLoop.

(** C10. In the body of the port loop of the outbound generator, for a
    discovery type other than EDS: when a subset with labels is followed,
    after any number of subsets without labels, by a subset without labels,
    the cluster of that later subset is built from the endpoint list
    materialized for the labelled subset, not from the full list of the
    port. For StrictDNS, and plugins that leave the load assignment alone,
    these are the endpoints that cluster carries. *)
Theorem outbound_subset_reuses_filtered_endpoints (X : Externals)
    (configgen : ConfigGeneratorImpl) (env : Environment) (proxy : Proxy)
    (push : PushContext) (networkView : gmap string bool) (service : Service)
    (destRule : option Config) (port : Port)
    (before : list Subset) (s1 : Subset) (mid : list Subset) (s2 : Subset)
    (after : list Subset) :
  let discoveryType := convertResolution proxy (Svc_Resolution service) in
  let destinationRule := castDestinationRuleOrDefault destRule in
  let filtered :=
    buildLocalityLbEndpoints X env networkView service (Port_Port port)
      [Subset_Labels s1] in
  let inputParams :=
    {| Params_Env := env; Params_Push := push; Params_Node := proxy;
       Params_Service := Some service; Params_Port := Some port;
       Params_ServiceInstance := None; Params_Bind := "" |} in
  let clusterMetadata :=
    (fun destRule => BuildConfigInfoMetadata (Cfg_ConfigMeta destRule)) <$> destRule in
  let serviceAccounts := ServiceAccounts push (Hostname service) (Port_Port port) in
  let reusing :=
    buildSubsetCluster X configgen env proxy inputParams service port discoveryType
      destinationRule clusterMetadata serviceAccounts filtered s2 in
  DR_Subsets destinationRule = before ++ s1 :: mid ++ s2 :: after →
  discoveryType ≠ Cluster_EDS →
  size (Subset_Labels s1) ≠ 0%nat →
  Forall (fun s => size (Subset_Labels s) = 0%nat) mid →
  size (Subset_Labels s2) = 0%nat →
  buildOutboundClustersForPort X configgen env proxy push networkView service destRule port
    !! (1 + length before + 1 + length mid)%nat
  = Some reusing
  ∧ (discoveryType = Cluster_STRICT_DNS →
     (∀ p params c, p ∈ Plugins configgen →
        shape (OnOutboundCluster p params c) = shape c) →
     LoadAssignment reusing
     = Some {| ClusterName :=
                 BuildSubsetKey TrafficDirectionOutbound (Subset_Name s2)
                   (Hostname service) (Port_Port port);
               Endpoints := filtered |}).
Proof.
  intros discoveryType destinationRule filtered inputParams clusterMetadata serviceAccounts
    reusing Hsubsets Htype Hs1 Hmid Hs2.
  split.
  - unfold buildOutboundClustersForPort.
    fold discoveryType destinationRule inputParams serviceAccounts.
    replace (match destRule with
             | Some destRule0 => Some (BuildConfigInfoMetadata (Cfg_ConfigMeta destRule0))
             | None => None
             end) with clusterMetadata by by destruct destRule.
    rewrite Hsubsets.
    match goal with
    | |- context [subsetLoop _ _ _ _ _ _ _ _ _ _ _ _ (?lb, []) _] =>
        pose proof (subsetLoop_reuse X configgen env proxy networkView inputParams service
                      port discoveryType destinationRule clusterMetadata serviceAccounts
                      lb [] before s1 mid s2 after Htype Hs1 Hmid Hs2) as Hreuse;
        destruct (subsetLoop X configgen env proxy networkView inputParams service port
                    discoveryType destinationRule clusterMetadata serviceAccounts
                    (lb, []) (before ++ s1 :: mid ++ s2 :: after)) as [lb' out]
    end.
    simpl in Hreuse. exact Hreuse.
  - intros Hdns Hplug.
    destruct (buildSubsetCluster_fields X configgen env proxy inputParams service port
                discoveryType destinationRule clusterMetadata serviceAccounts filtered s2
                Hplug) as (_ & Hload & _).
    fold reusing in Hload. rewrite Hload, Hdns. done.
Qed.

Lemma outbound_subset_reuses_filtered_endpoints_witness :
  let clusters :=
    buildOutboundClustersForPort Scenario.externals Scenario.configgen
      Scenario.selectingEnv (Scenario.proxy SidecarProxy [])
      (Scenario.push [Scenario.external] (Some Scenario.subsetRule)) Scenario.defaultView
      Scenario.external (Some Scenario.subsetRule) Scenario.tcpPort in
  Name <$> clusters
  = [ "outbound|443||external-reviews.org"; "outbound|443|v1|external-reviews.org";
      "outbound|443|all|external-reviews.org" ]
  ∧ ((fun c => length <$> (LbEndpoints <$> default [] (Endpoints <$> LoadAssignment c)))
       <$> clusters)
    = [ [2%nat]; [1%nat]; [1%nat] ]
  ∧ (LoadAssignment <$> clusters !! 2%nat)
    = Some (Some {| ClusterName := "outbound|443|all|external-reviews.org";
                    Endpoints :=
                      buildLocalityLbEndpoints Scenario.externals Scenario.selectingEnv
                        Scenario.defaultView Scenario.external 443
                        [ {[ "version" := "v1" ]} ] |}).
Proof.
  intros clusters. split; [by vm_compute|]. split; [by vm_compute|].
  destruct (outbound_subset_reuses_filtered_endpoints Scenario.externals Scenario.configgen
              Scenario.selectingEnv (Scenario.proxy SidecarProxy [])
              (Scenario.push [Scenario.external] (Some Scenario.subsetRule))
              Scenario.defaultView Scenario.external (Some Scenario.subsetRule)
              Scenario.tcpPort [] (Scenario.subsetOf "v1" {[ "version" := "v1" ]}) []
              (Scenario.subsetOf "all" ∅) [])
    as [Hat Hload].
  - reflexivity.
  - by vm_compute.
  - by vm_compute.
  - constructor.
  - reflexivity.
  - subst clusters. simpl length in Hat. simpl Nat.add in Hat. rewrite Hat.
    refine (f_equal Some (Hload _ _)); [reflexivity|].
    intros p params c Hp. exfalso. exact (proj1 (elem_of_nil p) Hp).
Defined.

(** ** What each generator emits *)

Section Generators.

Context (X : Externals) (configgen : ConfigGeneratorImpl).
Context (env : Environment) (proxy : Proxy) (push : PushContext).
Context (Hplugins : pluginsKeepShape configgen).

Lemma emitted_shape cluster cluster' :
  shape cluster' = shape cluster →
  emitted X env proxy cluster → emitted X env proxy cluster'.
Proof.
  unfold shape, emitted, discoveryShape. intros [= H1 H2 H3 H4 H5 H6].
  by rewrite H2, H3, H4, H5, H6.
Qed.

Lemma outbound_plugins_shape inputParams cluster :
  shape (callOutboundPlugins configgen inputParams cluster) = shape cluster.
Proof.
  apply (callOutboundPlugins_preserves configgen (fun c => shape c = shape cluster));
    [|done].
  intros p params c Hp <-. by apply Hplugins.
Qed.

Lemma inbound_plugins_shape pluginParams cluster :
  shape (callInboundPlugins configgen pluginParams cluster) = shape cluster.
Proof.
  apply (callInboundPlugins_preserves configgen (fun c => shape c = shape cluster));
    [|done].
  intros p params c Hp <-. by apply Hplugins.
Qed.

Lemma BuildSubsetKey_outbound subsetName hostname port :
  outboundName (BuildSubsetKey TrafficDirectionOutbound subsetName hostname port).
Proof. reflexivity. Qed.

Lemma BuildDNSSrvSubsetKey_outbound subsetName hostname port :
  outboundName (BuildDNSSrvSubsetKey TrafficDirectionOutbound subsetName hostname port).
Proof. reflexivity. Qed.

Lemma BuildSubsetKey_inbound subsetName hostname port :
  inboundName (BuildSubsetKey TrafficDirectionInbound subsetName hostname port).
Proof. reflexivity. Qed.

Lemma buildSubsetCluster_emitted inputParams service port discoveryType destinationRule
    clusterMetadata serviceAccounts lbEndpoints subset :
  let cluster :=
    buildSubsetCluster X configgen env proxy inputParams service port discoveryType
      destinationRule clusterMetadata serviceAccounts lbEndpoints subset in
  outboundName (Name cluster) ∧ emitted X env proxy cluster.
Proof.
  destruct (buildSubsetCluster_fields X configgen env proxy inputParams service port
              discoveryType destinationRule clusterMetadata serviceAccounts lbEndpoints
              subset) as (Hn & _ & Hd & Ht).
  { intros p params c Hp. by apply Hplugins. }
  cbv zeta in *. rewrite Hn. split; [apply BuildSubsetKey_outbound | by split].
Qed.

Lemma subsetLoop_emitted networkView inputParams service port discoveryType destinationRule
    clusterMetadata serviceAccounts lbEndpoints clusters subsets :
  Forall (fun c => outboundName (Name c) ∧ emitted X env proxy c) clusters →
  Forall (fun c => outboundName (Name c) ∧ emitted X env proxy c)
    (subsetLoop X configgen env proxy networkView inputParams service port discoveryType
       destinationRule clusterMetadata serviceAccounts (lbEndpoints, clusters) subsets).2.
Proof.
  revert lbEndpoints clusters. induction subsets as [|s l IH]; intros lb clusters Hc; [done|].
  rewrite subsetLoop_cons. apply IH. apply Forall_app. split; [done|].
  constructor; [|constructor]. apply buildSubsetCluster_emitted.
Qed.

Lemma buildOutboundClustersForPort_emitted networkView service destRule port :
  Forall (fun c => outboundName (Name c) ∧ emitted X env proxy c)
    (buildOutboundClustersForPort X configgen env proxy push networkView service destRule
       port).
Proof.
  unfold buildOutboundClustersForPort.
  set (inputParams := Build_InputParams _ _ _ _ _ _ _).
  set (lbEndpoints := buildLocalityLbEndpoints _ _ _ _ _ _).
  set (discoveryType := convertResolution _ _).
  set (name := BuildSubsetKey _ _ _ _).
  pose proof (buildDefaultCluster_frame X env name discoveryType lbEndpoints
                TrafficDirectionOutbound proxy (Some port) (MeshExternal service)) as H0.
  set (c0 := buildDefaultCluster _ _ _ _ _ _ _ _ _) in *.
  cbv zeta in H0. destruct H0 as (N0 & E0 & L0 & W0 & T0).
  set (c1 := if decide (OutboundClusterStatName (Mesh env) ≠ "") then _ else c0).
  assert (S1 : shape c1 = shape c0).
  { subst c1. destruct (decide (OutboundClusterStatName (Mesh env) ≠ ""));
      [apply set_AltStatName_shape | done]. }
  pose proof (shape_setUpstreamProtocol X proxy c1 port TrafficDirectionOutbound) as S2.
  set (c2 := setUpstreamProtocol _ _ _ _ _) in *.
  match goal with
  | |- context [applyTrafficPolicy X (outboundOpts env proxy c2 ?pol ?pt ?sa ?sni ?me) proxy] =>
      pose proof (applyTrafficPolicy_frame X (outboundOpts env proxy c2 pol pt sa sni me)
                    proxy) as H3;
      set (c3 := applyTrafficPolicy X (outboundOpts env proxy c2 pol pt sa sni me) proxy) in *
  end.
  cbv zeta in H3. cbn [opts_cluster opts_env outboundOpts] in H3.
  destruct H3 as (N3 & E3 & L3 & W3 & _ & T3).
  set (meta := match destRule with Some _ => _ | None => None end).
  pose proof (set_Metadata_shape meta c3) as S4. set (c4 := set_Metadata meta c3) in *.
  pose proof (updateEds_frame X c4) as (N5 & L5 & T5).
  pose proof (updateEds_discoveryShape X proxy c4) as D5.
  set (c5 := updateEds X c4) in *.
  pose proof (outbound_plugins_shape inputParams c5) as S6.
  set (c6 := callOutboundPlugins configgen inputParams c5) in *.
  unfold shape in S1, S2, S4.
  injection S1 as S11 S12 S13 S14 S15 S16. injection S2 as S21 S22 S23 S24 S25 S26.
  injection S4 as S41 S42 S43 S44 S45 S46.
  assert (W4 : wellRouted X proxy c4).
  { apply (wellRouted_ext X proxy c3); [congruence..|]. apply W3.
    apply (wellRouted_ext X proxy c1); [congruence..|].
    by apply (wellRouted_ext X proxy c0); [congruence..|]. }
  assert (Hdefault : outboundName (Name c6) ∧ emitted X env proxy c6).
  { split.
    - replace (Name c6) with name; [apply BuildSubsetKey_outbound|].
      unfold shape in S6. injection S6 as -> _ _ _ _ _. congruence.
    - apply (emitted_shape c5); [done|]. split; [by apply D5|].
      intros Hauto. rewrite T5, S46, T3, S26, S16 by by left. by apply T0. }
  match goal with
  | |- context [subsetLoop _ _ _ _ ?nv ?ip ?sv ?pt ?dt ?dr ?cm ?sa (?lb, []) ?subsets] =>
      pose proof (subsetLoop_emitted nv ip sv pt dt dr cm sa lb [] subsets
                    (Forall_nil_2 _)) as Hloop;
      destruct (subsetLoop X configgen env proxy nv ip sv pt dt dr cm sa (lb, []) subsets)
        as [lb' subsetClusters]
  end.
  simpl in Hloop. by constructor.
Qed.

(** *** Clusters on their way through a generator *)

Lemma prepared_shape name cluster cluster' :
  shape cluster' = shape cluster →
  prepared X env proxy name cluster → prepared X env proxy name cluster'.
Proof.
  unfold prepared. intros Hs (Hn & Hw & Ht).
  split; [|split].
  - unfold shape in Hs. injection Hs as -> _ _ _ _ _. done.
  - by apply (wellRouted_shape X proxy cluster).
  - unfold shape in Hs. injection Hs as _ _ _ _ _ ->. done.
Qed.

Lemma prepared_buildDefaultCluster name discoveryType localityLbEndpoints direction port
    meshExternal :
  prepared X env proxy name
    (buildDefaultCluster X env name discoveryType localityLbEndpoints direction proxy port
       meshExternal).
Proof.
  destruct (buildDefaultCluster_frame X env name discoveryType localityLbEndpoints direction
              proxy port meshExternal) as (Hn & _ & _ & Hw & Ht).
  by split.
Qed.

Lemma prepared_applyTrafficPolicy name opts :
  opts_env opts = env →
  EnableAutoMtls (Mesh env) = false ∨ opts_clusterMode opts = SniDnatClusterMode
  ∨ EnableAutoMtls (Mesh env) = true →
  prepared X env proxy name (opts_cluster opts) →
  (EnableAutoMtls (Mesh env) = false ∨ opts_clusterMode opts = SniDnatClusterMode →
   prepared X env proxy name (applyTrafficPolicy X opts proxy))
  ∧ (Name (applyTrafficPolicy X opts proxy) = name
     ∧ wellRouted X proxy (applyTrafficPolicy X opts proxy)).
Proof.
  intros Henv _ (Hn & Hw & Ht).
  destruct (applyTrafficPolicy_frame X opts proxy) as (N & _ & _ & W & _ & T).
  rewrite Henv in T. split.
  - intros Hmode. split; [congruence|]. split; [by apply W|].
    intros Hauto. rewrite T by done. by apply Ht.
  - split; [congruence | by apply W].
Qed.

Lemma prepared_emitted name cluster :
  prepared X env proxy name cluster →
  Name (updateEds X cluster) = name ∧ emitted X env proxy (updateEds X cluster).
Proof.
  intros (Hn & Hw & Ht). destruct (updateEds_frame X cluster) as (N & _ & T).
  split; [congruence|]. split; [by apply updateEds_discoveryShape|].
  intros Hauto. rewrite T. by apply Ht.
Qed.

Lemma prepared_assigned_emitted name cluster :
  prepared X env proxy name cluster →
  is_Some (LoadAssignment cluster) →
  emitted X env proxy cluster.
Proof.
  intros (Hn & ((H1 & H2) & H3) & Ht) Hl. split; [|done].
  split; [|by split]. intros Heds. rewrite (H1 Heds) in Hl. by destruct Hl.
Qed.

(** *** The port loops as concatenations *)

Lemma outboundPortLoop_flat_map networkView service destRule clusters ports :
  outboundPortLoop X configgen env proxy push networkView service destRule clusters ports
  = clusters
    ++ flat_map (buildOutboundClustersForPort X configgen env proxy push networkView service
                   destRule)
         (filter (fun port => Port_Protocol port ≠ protocol_UDP) ports).
Proof.
  unfold outboundPortLoop. revert clusters.
  induction ports as [|p l IH]; intros clusters; simpl.
  - by rewrite app_nil_r.
  - rewrite IH, filter_cons. destruct (decide (Port_Protocol p = protocol_UDP)).
    + by rewrite decide_False by tauto.
    + rewrite decide_True by done. simpl. by rewrite <- app_assoc.
Qed.

Lemma buildOutboundClusters_flat_map :
  buildOutboundClusters X configgen env proxy push
  = flat_map
      (fun service =>
         flat_map
           (buildOutboundClustersForPort X configgen env proxy push (GetNetworkView X proxy)
              service (Push_DestinationRule push proxy service))
           (filter (fun port => Port_Protocol port ≠ protocol_UDP) (Ports service)))
      (Services push proxy).
Proof.
  unfold buildOutboundClusters.
  assert (Hgen : ∀ services acc,
    foldl (fun clusters service =>
             outboundPortLoop X configgen env proxy push (GetNetworkView X proxy) service
               (Push_DestinationRule push proxy service) clusters (Ports service))
      acc services
    = acc ++ flat_map
               (fun service =>
                  flat_map
                    (buildOutboundClustersForPort X configgen env proxy push
                       (GetNetworkView X proxy) service
                       (Push_DestinationRule push proxy service))
                    (filter (fun port => Port_Protocol port ≠ protocol_UDP) (Ports service)))
               services).
  { induction services as [|sv l IH]; intros acc; simpl.
    - by rewrite app_nil_r.
    - by rewrite IH, outboundPortLoop_flat_map, <- app_assoc. }
  apply (Hgen _ []).
Qed.

Lemma Forall_flat_map {A B} (P : B → Prop) (f : A → list B) (l : list A) :
  (∀ x, x ∈ l → Forall P (f x)) → Forall P (flat_map f l).
Proof.
  induction l as [|x l IH]; intros Hf; simpl; [constructor|].
  apply Forall_app. split; [apply Hf; by left|]. apply IH. intros y Hy. apply Hf. by right.
Qed.

Lemma buildOutboundClusters_emitted :
  Forall (fun c => outboundName (Name c) ∧ emitted X env proxy c)
    (buildOutboundClusters X configgen env proxy push).
Proof.
  rewrite buildOutboundClusters_flat_map.
  apply Forall_flat_map. intros service _. apply Forall_flat_map. intros port _.
  apply buildOutboundClustersForPort_emitted.
Qed.

(** *** The SNI-DNAT generator *)

Lemma Name_set_Metadata v cluster : Name (set_Metadata v cluster) = Name cluster.
Proof. by destruct cluster. Qed.

Lemma prepared_sniDnat name cluster policy port :
  prepared X env proxy name cluster →
  prepared X env proxy name (applyTrafficPolicy X (sniDnatOpts env proxy cluster policy port)
                               proxy).
Proof.
  intros Hp.
  destruct (prepared_applyTrafficPolicy name (sniDnatOpts env proxy cluster policy port))
    as [H _]; [done| by right; left | done |].
  apply H. by right.
Qed.

Lemma buildSniDnatSubsetCluster_emitted service port discoveryType destRule lbEndpoints
    subset :
  let cluster :=
    buildSniDnatSubsetCluster X env proxy service port discoveryType destRule lbEndpoints
      subset in
  outboundName (Name cluster) ∧ emitted X env proxy cluster.
Proof.
  unfold buildSniDnatSubsetCluster. cbv zeta.
  set (name := BuildDNSSrvSubsetKey _ _ _ _).
  pose proof (prepared_buildDefaultCluster name discoveryType lbEndpoints
                TrafficDirectionOutbound None (MeshExternal service)) as H0.
  apply (prepared_shape name _ _ (set_TlsContext_shape None _)) in H0.
  apply (prepared_sniDnat name _ (DR_TrafficPolicy (Cfg_Spec destRule)) port) in H0.
  apply (prepared_sniDnat name _ (Subset_TrafficPolicy subset) port) in H0.
  apply prepared_emitted in H0 as [Hn He].
  split.
  - rewrite Name_set_Metadata, Hn. apply BuildDNSSrvSubsetKey_outbound.
  - by apply (emitted_shape _ _ (set_Metadata_shape _ _)).
Qed.

Lemma buildSniDnatClustersForPort_emitted networkView service destRule port :
  Forall (fun c => outboundName (Name c) ∧ emitted X env proxy c)
    (buildSniDnatClustersForPort X env proxy networkView service destRule port).
Proof.
  unfold buildSniDnatClustersForPort. cbv zeta.
  set (name := BuildDNSSrvSubsetKey _ _ _ _).
  set (lbEndpoints := buildLocalityLbEndpoints _ _ _ _ _ _).
  set (discoveryType := convertResolution _ _).
  pose proof (prepared_buildDefaultCluster name discoveryType lbEndpoints
                TrafficDirectionOutbound None (MeshExternal service)) as H0.
  apply (prepared_shape name _ _ (set_TlsContext_shape None _)) in H0.
  destruct destRule as [destRule|].
  - apply (prepared_sniDnat name _ (DR_TrafficPolicy (Cfg_Spec destRule)) port) in H0.
    apply (prepared_shape name _ _ (set_Metadata_shape
             (Some (BuildConfigInfoMetadata (Cfg_ConfigMeta destRule))) _)) in H0.
    apply prepared_emitted in H0 as [Hn He].
    assert (Hloop : ∀ subsets lb clusters,
      Forall (fun c => outboundName (Name c) ∧ emitted X env proxy c) clusters →
      Forall (fun c => outboundName (Name c) ∧ emitted X env proxy c)
        (foldl
           (fun '(lbEndpoints, clusters) subset =>
              let lbEndpoints :=
                subsetLbEndpoints X env networkView service port discoveryType lbEndpoints
                  subset in
              (lbEndpoints,
               clusters ++
               [buildSniDnatSubsetCluster X env proxy service port discoveryType destRule
                  lbEndpoints subset]))
           (lb, clusters) subsets).2).
    { induction subsets as [|sb l IH]; intros lb clusters Hc; [done|]. simpl. apply IH.
      apply Forall_app. split; [done|]. constructor; [|constructor].
      apply buildSniDnatSubsetCluster_emitted. }
    specialize (Hloop (DR_Subsets (Cfg_Spec destRule)) lbEndpoints [] (Forall_nil_2 _)).
    destruct (foldl _ _ _) as [lb' subsetClusters]. simpl in Hloop.
    constructor; [|done]. split; [|done]. rewrite Hn. apply BuildDNSSrvSubsetKey_outbound.
  - apply prepared_emitted in H0 as [Hn He].
    constructor; [|constructor]. split; [|done]. rewrite Hn.
    apply BuildDNSSrvSubsetKey_outbound.
Qed.

Lemma sniDnatPortLoop_flat_map networkView service destRule clusters ports :
  sniDnatPortLoop X env proxy networkView service destRule clusters ports
  = clusters
    ++ flat_map (buildSniDnatClustersForPort X env proxy networkView service destRule)
         (filter (fun port => Port_Protocol port ≠ protocol_UDP) ports).
Proof.
  unfold sniDnatPortLoop. revert clusters.
  induction ports as [|p l IH]; intros clusters; simpl.
  - by rewrite app_nil_r.
  - rewrite IH, filter_cons. destruct (decide (Port_Protocol p = protocol_UDP)).
    + by rewrite decide_False by tauto.
    + rewrite decide_True by done. simpl. by rewrite <- app_assoc.
Qed.

Lemma buildOutboundSniDnatClusters_flat_map :
  buildOutboundSniDnatClusters X env proxy push
  = flat_map
      (fun service =>
         flat_map
           (buildSniDnatClustersForPort X env proxy (GetNetworkView X proxy) service
              (Push_DestinationRule push proxy service))
           (filter (fun port => Port_Protocol port ≠ protocol_UDP) (Ports service)))
      (filter (fun service => MeshExternal service = false) (Services push proxy)).
Proof.
  unfold buildOutboundSniDnatClusters. cbv zeta.
  assert (Hgen : ∀ services acc,
    foldl (fun clusters service =>
             if MeshExternal service then clusters
             else sniDnatPortLoop X env proxy (GetNetworkView X proxy) service
                    (Push_DestinationRule push proxy service) clusters (Ports service))
      acc services
    = acc ++ flat_map
               (fun service =>
                  flat_map
                    (buildSniDnatClustersForPort X env proxy (GetNetworkView X proxy)
                       service (Push_DestinationRule push proxy service))
                    (filter (fun port => Port_Protocol port ≠ protocol_UDP) (Ports service)))
               (filter (fun service => MeshExternal service = false) services)).
  { induction services as [|sv l IH]; intros acc; simpl.
    - by rewrite app_nil_r.
    - rewrite IH, filter_cons. destruct (MeshExternal sv) eqn:Hext.
      + by rewrite decide_False by done.
      + rewrite decide_True by done. simpl.
        by rewrite sniDnatPortLoop_flat_map, <- app_assoc. }
  apply (Hgen _ []).
Qed.

Lemma buildOutboundSniDnatClusters_emitted :
  Forall (fun c => outboundName (Name c) ∧ emitted X env proxy c)
    (buildOutboundSniDnatClusters X env proxy push).
Proof.
  rewrite buildOutboundSniDnatClusters_flat_map.
  apply Forall_flat_map. intros service _. apply Forall_flat_map. intros port _.
  apply buildSniDnatClustersForPort_emitted.
Qed.

(** *** The inbound generator *)

Lemma static_cluster_emitted name localityLbEndpoints port cluster :
  shape cluster
  = shape (buildDefaultCluster X env name Cluster_STATIC localityLbEndpoints
             TrafficDirectionInbound proxy port false) →
  Name cluster = name ∧ emitted X env proxy cluster.
Proof.
  intros Hs.
  pose proof (prepared_buildDefaultCluster name Cluster_STATIC localityLbEndpoints
                TrafficDirectionInbound port false) as Hp.
  destruct (buildDefaultCluster_frame X env name Cluster_STATIC localityLbEndpoints
              TrafficDirectionInbound proxy port false) as (Hn & _ & Hl & _).
  split.
  - unfold shape in Hs. injection Hs as -> _ _ _ _ _. done.
  - apply (emitted_shape _ _ Hs). apply (prepared_assigned_emitted name); [done|].
    rewrite Hl. simpl. eauto.
Qed.

Lemma buildInboundClusterForPortOrUDS_emitted pluginParams instance :
  Params_Env pluginParams = env →
  Params_Node pluginParams = proxy →
  let cluster := buildInboundClusterForPortOrUDS X configgen pluginParams instance in
  inboundName (Name cluster) ∧ emitted X env proxy cluster.
Proof.
  intros Henv Hnode. unfold buildInboundClusterForPortOrUDS. rewrite Henv, Hnode. cbv zeta.
  set (name := BuildSubsetKey _ _ _ _).
  set (eps := buildInboundLocalityLbEndpoints _ _).
  set (c0 := buildDefaultCluster X env name Cluster_STATIC eps TrafficDirectionInbound proxy
               None false).
  set (c1 := if decide (InboundClusterStatName (Mesh env) ≠ "") then _ else c0).
  assert (S1 : shape c1 = shape c0).
  { subst c1. destruct (decide (InboundClusterStatName (Mesh env) ≠ ""));
      [apply set_AltStatName_shape | done]. }
  pose proof (shape_setUpstreamProtocol X proxy c1
                (ptr_val (EP_ServicePort (SI_Endpoint instance)))
                TrafficDirectionInbound) as S2.
  set (c2 := setUpstreamProtocol _ _ _ _ _) in *.
  pose proof (inbound_plugins_shape pluginParams c2) as S3.
  set (c3 := callInboundPlugins configgen pluginParams c2) in *.
  assert (S : shape c3 = shape c0) by congruence.
  assert (Hfinal : ∀ c, shape c = shape c0 → inboundName (Name c) ∧ emitted X env proxy c).
  { intros c Hc. destruct (static_cluster_emitted name eps None c Hc) as [Hn He].
    split; [|done]. rewrite Hn. apply BuildSubsetKey_inbound. }
  destruct (Push_DestinationRule _ _ _) as [cfg|]; [|by apply Hfinal].
  destruct (DR_TrafficPolicy (Cfg_Spec cfg)) as [policy|]; [|by apply Hfinal].
  apply Hfinal. rewrite set_Metadata_shape, shape_applyConnectionPool. done.
Qed.

Lemma buildMgmtCluster_emitted actualLocalHost port :
  let cluster := buildMgmtCluster X env proxy actualLocalHost port in
  inboundName (Name cluster) ∧ emitted X env proxy cluster.
Proof.
  unfold buildMgmtCluster. cbv zeta.
  set (name := BuildSubsetKey _ _ _ _).
  destruct (static_cluster_emitted name
              (buildInboundLocalityLbEndpoints actualLocalHost (Port_Port port)) None
              (setUpstreamProtocol X proxy
                 (buildDefaultCluster X env name Cluster_STATIC
                    (buildInboundLocalityLbEndpoints actualLocalHost (Port_Port port))
                    TrafficDirectionInbound proxy None false)
                 port TrafficDirectionInbound)) as [Hn He].
  { apply shape_setUpstreamProtocol. }
  split; [|done]. rewrite Hn. apply BuildSubsetKey_inbound.
Qed.

Lemma buildIngressListenerCluster_emitted instances actualLocalHost ingressListener cluster :
  buildIngressListenerCluster X configgen env proxy push instances actualLocalHost
    ingressListener = Some cluster →
  inboundName (Name cluster) ∧ emitted X env proxy cluster.
Proof.
  unfold buildIngressListenerCluster. cbv zeta.
  destruct (if String.prefix _ _ then _ else _) as [[[address family] port]|]; [|done].
  intros [= <-]. by apply buildInboundClusterForPortOrUDS_emitted.
Qed.

Lemma buildInboundClusters_emitted instances managementPorts :
  Forall (fun c => inboundName (Name c) ∧ emitted X env proxy c)
    (buildInboundClusters X configgen env proxy push instances managementPorts).
Proof.
  unfold buildInboundClusters. cbv zeta.
  destruct (HasCustomIngressListeners (Proxy_SidecarScope proxy)); simpl.
  - assert (Hloop : ∀ l acc,
      Forall (fun c => inboundName (Name c) ∧ emitted X env proxy c) acc →
      Forall (fun c => inboundName (Name c) ∧ emitted X env proxy c)
        (foldl
           (fun clusters ingressListener =>
              match buildIngressListenerCluster X configgen env proxy push instances
                      (getActualWildcardAndLocalHost X proxy).2 ingressListener with
              | Some localCluster => clusters ++ [localCluster]
              | None => clusters
              end)
           acc l)).
    { induction l as [|il l IH]; intros acc Hacc; [done|]. simpl. apply IH.
      destruct (buildIngressListenerCluster _ _ _ _ _ _ _ _) as [c|] eqn:Hc; [|done].
      apply Forall_app. split; [done|]. constructor; [|constructor].
      by apply (buildIngressListenerCluster_emitted instances
                  (getActualWildcardAndLocalHost X proxy).2 il). }
    apply Hloop. constructor.
  - destruct (bool_decide (GetInterceptionMode proxy = InterceptionNone)); [constructor|].
    assert (Hinst : ∀ l have acc,
      Forall (fun c => inboundName (Name c) ∧ emitted X env proxy c) acc →
      Forall (fun c => inboundName (Name c) ∧ emitted X env proxy c)
        (foldl
           (fun '(have, clusters) instance =>
              let servicePort := EP_ServicePort (SI_Endpoint instance) in
              if negb (bool_decide (ptr_addr servicePort ∈ (have : gset N))) then
                let pluginParams :=
                  {| Params_Env := env; Params_Node := proxy;
                     Params_ServiceInstance := Some instance;
                     Params_Port := Some (ptr_val servicePort); Params_Push := push;
                     Params_Service := None;
                     Params_Bind := (getActualWildcardAndLocalHost X proxy).2 |} in
                let localCluster :=
                  buildInboundClusterForPortOrUDS X configgen pluginParams instance in
                ({[ptr_addr servicePort]} ∪ have, clusters ++ [localCluster])
              else (have, clusters))
           (have, acc) l).2).
    { induction l as [|i l IH]; intros have acc Hacc; [done|]. simpl.
      destruct (negb _); apply IH; [|done].
      apply Forall_app. split; [done|]. constructor; [|constructor].
      by apply buildInboundClusterForPortOrUDS_emitted. }
    specialize (Hinst instances ∅ [] (Forall_nil_2 _)).
    destruct (foldl _ _ instances) as [have clusters]. simpl in Hinst.
    revert clusters Hinst. induction managementPorts as [|p l IH]; intros clusters Hc; [done|].
    simpl. apply IH. apply Forall_app. split; [done|]. constructor; [|constructor].
    apply buildMgmtCluster_emitted.
Qed.

(** *** The sinks *)

Lemma buildBlackHoleCluster_fields :
  Name (buildBlackHoleCluster env) = BlackHoleCluster
  ∧ ClusterDiscoveryType (buildBlackHoleCluster env) = Cluster_STATIC
  ∧ LoadAssignment (buildBlackHoleCluster env) = None
  ∧ EdsClusterConfig (buildBlackHoleCluster env) = None
  ∧ LbPolicy (buildBlackHoleCluster env) = Cluster_ROUND_ROBIN
  ∧ TransportSocketMatches (buildBlackHoleCluster env) = [].
Proof. done. Qed.

Lemma sinks_shape :
  shape (buildDefaultPassthroughCluster X env proxy)
  = (PassthroughCluster, None, None, Cluster_ORIGINAL_DST, lbPolicyClusterProvided X proxy,
     []).
Proof. unfold buildDefaultPassthroughCluster. by rewrite shape_applyConnectionPool. Qed.

Lemma passthrough_emitted cluster name :
  shape cluster
  = (name, None, None, Cluster_ORIGINAL_DST, lbPolicyClusterProvided X proxy, []) →
  emitted X env proxy cluster.
Proof.
  unfold shape, emitted, discoveryShape. intros [= _ -> -> -> -> ->].
  repeat split; try done; intros; destruct_or?; done.
Qed.

Lemma generateInboundPassthroughClusters_emitted :
  Forall (fun c => (Name c = InboundPassthroughClusterIpv4
                    ∨ Name c = InboundPassthroughClusterIpv6)
                   ∧ emitted X env proxy c)
    (generateInboundPassthroughClusters X env proxy).
Proof.
  unfold generateInboundPassthroughClusters.
  pose proof sinks_shape as Hs. unfold shape in Hs. injection Hs as _ H2 H3 H4 H5 H6.
  assert (H4' : ∀ bind,
    shape (set_UpstreamBindConfig bind
             (set_Name InboundPassthroughClusterIpv4
                (buildDefaultPassthroughCluster X env proxy)))
    = (InboundPassthroughClusterIpv4, None, None, Cluster_ORIGINAL_DST,
       lbPolicyClusterProvided X proxy, [])).
  { intros bind. destruct (buildDefaultPassthroughCluster X env proxy). cbn in *.
    unfold shape. cbn. congruence. }
  assert (H6' : ∀ bind,
    shape (set_UpstreamBindConfig bind
             (set_Name InboundPassthroughClusterIpv6
                (buildDefaultPassthroughCluster X env proxy)))
    = (InboundPassthroughClusterIpv6, None, None, Cluster_ORIGINAL_DST,
       lbPolicyClusterProvided X proxy, [])).
  { intros bind. destruct (buildDefaultPassthroughCluster X env proxy). cbn in *.
    unfold shape. cbn. congruence. }
  assert (Hsink : ∀ c name,
            shape c = (name, None, None, Cluster_ORIGINAL_DST,
                       lbPolicyClusterProvided X proxy, []) →
            Name c = name ∧ emitted X env proxy c).
  { intros c name Hc. split; [|by eapply passthrough_emitted].
    unfold shape in Hc. by injection Hc as -> _ _ _ _ _. }
  destruct (ipv4AndIpv6Support X proxy) as [[] []]; simpl.
  - constructor; [|constructor; [|constructor]].
    + destruct (Hsink _ _ (H4' (Some {| SourceAddress := InboundPassthroughBindIpv4;
                                        SourcePortValue := 0 |}))) as [-> He].
      split; [by left | done].
    + destruct (Hsink _ _ (H6' (Some {| SourceAddress := InboundPassthroughBindIpv6;
                                        SourcePortValue := 0 |}))) as [-> He].
      split; [by right | done].
  - constructor; [|constructor].
    destruct (Hsink _ _ (H4' (Some {| SourceAddress := InboundPassthroughBindIpv4;
                                      SourcePortValue := 0 |}))) as [-> He].
    split; [by left | done].
  - constructor; [|constructor].
    destruct (Hsink _ _ (H6' (Some {| SourceAddress := InboundPassthroughBindIpv6;
                                      SourcePortValue := 0 |}))) as [-> He].
    split; [by right | done].
  - constructor.
Qed.

End Generators.

(** ** [BuildClusters] as a whole *)

Section Build.

Context (X : Externals) (configgen : ConfigGeneratorImpl).
Context (env : Environment) (proxy : Proxy) (push : PushContext).

Lemma shape_outline (cluster cluster' : Cluster) :
  shape cluster' = shape cluster → outline cluster' = outline cluster.
Proof. unfold shape, outline. by intros [= -> -> -> -> -> ->]. Qed.

Lemma shapes_outlines (clusters clusters' : list Cluster) :
  shape <$> clusters' = shape <$> clusters → outline <$> clusters' = outline <$> clusters.
Proof.
  assert (Hg : ∀ l : list Cluster,
            outline <$> l
            = (fun '(n, e, la, t, p, m) =>
                 (n, e, bool_decide (is_Some (la : option ClusterLoadAssignment)), t, p, m))
              <$> (shape <$> l)).
  { intros l. rewrite <- list_fmap_compose. by apply list_fmap_ext. }
  intros H. by rewrite !Hg, H.
Qed.

Lemma applyLocalityLBSetting_outline locality clusters localityLB :
  outline <$> applyLocalityLBSetting X locality clusters localityLB = outline <$> clusters.
Proof.
  unfold applyLocalityLBSetting. destruct locality, localityLB; try done.
  rewrite <- list_fmap_compose. apply list_fmap_ext. intros i cl _. simpl.
  destruct cl as [? ? ? ? ? ? la]. cbn. by destruct la.
Qed.

Lemma returned_outline (cluster cluster' : Cluster) :
  outline cluster' = outline cluster →
  returned X env proxy cluster → returned X env proxy cluster'.
Proof.
  unfold outline, returned, discoveryShapeButBlackHole.
  intros [= H1 H2 H3 H4 H5 H6]. rewrite H1, H2, H4, H5, H6.
  assert (Hsome : is_Some (LoadAssignment cluster') ↔ is_Some (LoadAssignment cluster)).
  { by rewrite <- (bool_decide_eq_true (is_Some (LoadAssignment cluster'))), H3,
         bool_decide_eq_true. }
  assert (Hnone : LoadAssignment cluster' = None ↔ LoadAssignment cluster = None).
  { rewrite !eq_None_not_Some. by rewrite Hsome. }
  by rewrite Hsome, Hnone.
Qed.

Lemma Forall_outlines (P : Cluster → Prop) (clusters clusters' : list Cluster) :
  (∀ c c', outline c' = outline c → P c → P c') →
  outline <$> clusters' = outline <$> clusters →
  Forall P clusters → Forall P clusters'.
Proof.
  intros HP H Hall. apply Forall_lookup. intros i c' Hi.
  assert (Ho : (outline <$> clusters) !! i = Some (outline c')).
  { by rewrite <- H, list_lookup_fmap, Hi. }
  rewrite list_lookup_fmap in Ho.
  destruct (clusters !! i) as [c|] eqn:Hc; [|done].
  apply (inj Some) in Ho.
  apply (HP c); [by symmetry|]. by eapply Forall_lookup_1.
Qed.

(** [BuildClusters] normalizes a list with the outlines of [generated]. *)
Lemma BuildClusters_generated :
  patchesKeepShape X proxy push →
  ∃ clusters,
    BuildClusters X configgen env proxy push = normalizeClusters proxy clusters
    ∧ outline <$> clusters = outline <$> generated X configgen env proxy push.
Proof.
  intros Hpatch. unfold BuildClusters, generated. cbv zeta.
  destruct (Proxy_Type proxy) eqn:Htype.
  - eexists. split; [reflexivity|].
    rewrite !(fmap_app outline).
    rewrite !(shapes_outlines _ _ (Hpatch _ _)).
    by rewrite applyLocalityLBSetting_outline, !(fmap_app outline).
  - eexists. split; [reflexivity|].
    rewrite (shapes_outlines _ _ (Hpatch _ _)), applyLocalityLBSetting_outline.
    rewrite bool_decide_true by done. simpl.
    destruct (bool_decide (GetRouterMode proxy = SniDnatRouter)); [done|].
    by rewrite app_nil_r.
Qed.

Lemma emitted_returned cluster : emitted X env proxy cluster → returned X env proxy cluster.
Proof.
  unfold emitted, returned, discoveryShape, discoveryShapeButBlackHole.
  intros ((H1 & H2 & H3) & H4). repeat split; try done.
  - by apply H1.
  - by apply H1.
  - intros Ht. left. by apply H2.
Qed.

Lemma blackhole_returned : returned X env proxy (buildBlackHoleCluster env).
Proof.
  unfold returned, discoveryShapeButBlackHole. repeat split; try done. intros _. by right.
Qed.

Lemma generated_returned :
  pluginsKeepShape configgen →
  Forall (returned X env proxy) (generated X configgen env proxy push).
Proof.
  intros Hplug. unfold generated.
  pose proof (buildOutboundClusters_emitted X configgen env proxy push Hplug) as Hout.
  assert (Hout' : Forall (returned X env proxy)
                    (buildOutboundClusters X configgen env proxy push)).
  { eapply Forall_impl; [exact Hout|]. intros c [_ Hc]. by apply emitted_returned. }
  destruct (Proxy_Type proxy).
  - repeat (apply Forall_app; split); [done| | |].
    + constructor; [apply blackhole_returned|]. constructor; [|constructor].
      apply emitted_returned. eapply passthrough_emitted. apply sinks_shape.
    + eapply Forall_impl; [apply (buildInboundClusters_emitted X configgen env proxy push
                                    Hplug)|].
      intros c [_ Hc]. by apply emitted_returned.
    + eapply Forall_impl; [apply generateInboundPassthroughClusters_emitted|].
      intros c [_ Hc]. by apply emitted_returned.
  - repeat (apply Forall_app; split); [done| |].
    + constructor; [apply blackhole_returned | constructor].
    + destruct (bool_decide _); [|constructor].
      eapply Forall_impl; [apply buildOutboundSniDnatClusters_emitted|].
      intros c [_ Hc]. by apply emitted_returned.
Qed.

Lemma firstWins_Forall (P : Cluster → Prop) (seen : list string) (clusters : list Cluster) :
  Forall P clusters → Forall P (firstWins seen clusters).1.
Proof.
  intros Hall. revert seen. induction Hall as [|c l Hc Hl IH]; intros seen; simpl; [done|].
  case_bool_decide; simpl; [apply IH|]. constructor; [done | apply IH].
Qed.

Lemma normalizeClusters_Forall (P : Cluster → Prop) (clusters : list Cluster) :
  Forall P clusters → Forall P (normalizeClusters proxy clusters).1.
Proof.
  intros Hall. rewrite normalizeClusters_firstWins. simpl. by apply firstWins_Forall.
Qed.

Lemma BuildClusters_returned :
  pluginsKeepShape configgen →
  patchesKeepShape X proxy push →
  Forall (returned X env proxy) (BuildClusters X configgen env proxy push).1.
Proof.
  intros Hplug Hpatch.
  destruct (BuildClusters_generated Hpatch) as (clusters & -> & Hout).
  apply normalizeClusters_Forall.
  apply (Forall_outlines _ (generated X configgen env proxy push)); [|done|].
  - intros c c'. apply returned_outline.
  - by apply generated_returned.
Qed.

Lemma normalizeClusters_first_wins_parts (clusters : list Cluster) :
  (∀ c, c ∈ clusters → Name c ∈ Name <$> (normalizeClusters proxy clusters).1)
  ∧ NoDup (Name <$> (normalizeClusters proxy clusters).1).
Proof.
  rewrite normalizeClusters_firstWins. simpl. split; [|apply firstWins_NoDup].
  intros c Hc. destruct (firstWins_covers [] clusters c Hc) as [?%elem_of_nil|]; done.
Qed.

(** *** Names *)

Lemma outline_names (clusters clusters' : list Cluster) :
  outline <$> clusters' = outline <$> clusters → Name <$> clusters' = Name <$> clusters.
Proof.
  intros H. apply (f_equal (fmap (fun o => o.1.1.1.1.1))) in H.
  by rewrite <- !list_fmap_compose in H.
Qed.

Lemma filter_absent {A} (f : A → string) (x : string) (l : list A) :
  x ∉ f <$> l → filter (fun a => f a = x) l = [].
Proof.
  induction l as [|a l IH]; [done|]. rewrite fmap_cons, not_elem_of_cons. intros [Hne Hl].
  rewrite filter_cons, decide_False by (by intros ?). by apply IH.
Qed.

Lemma count_unique {A} (f : A → string) (x : string) (l : list A) :
  NoDup (f <$> l) → x ∈ f <$> l → length (filter (fun a => f a = x) l) = 1%nat.
Proof.
  induction l as [|a l IH]; [by intros _ ?%elem_of_nil|].
  rewrite fmap_cons. intros [Ha Hl]%NoDup_cons. rewrite filter_cons.
  destruct (decide (f a = x)) as [<-|Hne].
  - intros _. simpl. by rewrite filter_absent.
  - intros [?|?]%elem_of_cons; [congruence | by apply IH].
Qed.

Lemma normalizeClusters_count (clusters : list Cluster) (name : string) :
  name ∈ Name <$> clusters →
  length (filter (fun c => Name c = name) (normalizeClusters proxy clusters).1) = 1%nat.
Proof.
  intros (c & -> & Hc)%list_elem_of_fmap.
  destruct (normalizeClusters_first_wins_parts clusters) as (Hcover & Hnodup).
  apply count_unique; [done | by apply Hcover].
Qed.

Lemma outboundName_not_other (name : string) :
  outboundName name →
  ¬ inboundName name
  ∧ name ≠ InboundPassthroughClusterIpv4
  ∧ name ≠ InboundPassthroughClusterIpv6
  ∧ name ≠ PassthroughCluster.
Proof.
  unfold outboundName, inboundName. destruct name as [|a name]; [done|].
  destruct a as [[] [] [] [] [] [] [] []]; cbn; intros H; try discriminate H;
    repeat split; intros H'; discriminate H'.
Qed.

Lemma generated_gateway_names :
  pluginsKeepShape configgen →
  Proxy_Type proxy ≠ SidecarProxy →
  Forall (fun c => Name c = BlackHoleCluster ∨ outboundName (Name c))
    (generated X configgen env proxy push).
Proof.
  intros Hplug Htype. unfold generated. destruct (Proxy_Type proxy); [done|].
  repeat (apply Forall_app; split).
  - eapply Forall_impl; [apply (buildOutboundClusters_emitted X configgen env proxy push
                                  Hplug)|].
    intros c [Hc _]. by right.
  - constructor; [by left | constructor].
  - destruct (bool_decide _); [|constructor].
    eapply Forall_impl; [apply buildOutboundSniDnatClusters_emitted|].
    intros c [Hc _]. by right.
Qed.

End Build.

(** ** Invariants of the clusters returned *)

Lemma Scenario_plugins : pluginsKeepShape Scenario.configgen.
Proof. intros p params c Hp. by apply elem_of_nil in Hp. Qed.

Lemma Scenario_patches proxy push : patchesKeepShape Scenario.externals proxy push.
Proof. intros ctx clusters. reflexivity. Qed.

Lemma Scenario_patches_before13 proxy push :
  patchesKeepShape Scenario.externalsBefore13 proxy push.
Proof. intros ctx clusters. reflexivity. Qed.

(** C2 (as amended). With plugins and cluster patches that keep the name,
    type, EDS configuration, load assignment, LB policy and transport-socket
    matches of a cluster, every cluster [BuildClusters] returns has this
    shape: an EDS cluster carries an EDS configuration and no load
    assignment; a Static or StrictDNS cluster carries a load assignment,
    unless it is the blackhole sink, which is Static and carries none; an
    OriginalDst cluster has the cluster-provided LB policy when the proxy is
    at version 1.3 or later, and the policy ORIGINAL_DST_LB when the proxy
    is older. *)
Theorem BuildClusters_discovery_shape (X : Externals) (configgen : ConfigGeneratorImpl)
    (env : Environment) (proxy : Proxy) (push : PushContext) :
  pluginsKeepShape configgen →
  patchesKeepShape X proxy push →
  let clusters := (BuildClusters X configgen env proxy push).1 in
  Forall
    (fun cluster =>
       (ClusterDiscoveryType cluster = Cluster_EDS →
        is_Some (EdsClusterConfig cluster) ∧ LoadAssignment cluster = None)
       ∧ (ClusterDiscoveryType cluster = Cluster_STATIC
          ∨ ClusterDiscoveryType cluster = Cluster_STRICT_DNS →
          is_Some (LoadAssignment cluster) ∨ Name cluster = BlackHoleCluster))
    clusters
  ∧ (IsIstioVersionGE13 X proxy = true →
     Forall
       (fun cluster =>
          ClusterDiscoveryType cluster = Cluster_ORIGINAL_DST →
          LbPolicy cluster = Cluster_CLUSTER_PROVIDED)
       clusters)
  ∧ (IsIstioVersionGE13 X proxy = false →
     Forall
       (fun cluster =>
          ClusterDiscoveryType cluster = Cluster_ORIGINAL_DST →
          LbPolicy cluster = Cluster_ORIGINAL_DST_LB)
       clusters)
  ∧ Name (buildBlackHoleCluster env) = BlackHoleCluster
  ∧ ClusterDiscoveryType (buildBlackHoleCluster env) = Cluster_STATIC
  ∧ LoadAssignment (buildBlackHoleCluster env) = None.
Proof.
  intros Hplug Hpatch clusters. subst clusters.
  pose proof (BuildClusters_returned X configgen env proxy push Hplug Hpatch) as Hall.
  split; [|split; [|split; [|done]]].
  - eapply Forall_impl; [exact Hall|]. intros c [(Heds & Hstatic & _) _]. by split.
  - intros Hversion. eapply Forall_impl; [exact Hall|].
    intros c [(_ & _ & Hpolicy) _] Htype. rewrite (Hpolicy Htype).
    unfold lbPolicyClusterProvided. by rewrite Hversion.
  - intros Hversion. eapply Forall_impl; [exact Hall|].
    intros c [(_ & _ & Hpolicy) _] Htype. rewrite (Hpolicy Htype).
    unfold lbPolicyClusterProvided. by rewrite Hversion.
Qed.

Lemma BuildClusters_discovery_shape_witness :
  let env := Scenario.env true [] in
  let proxy := Scenario.proxy SidecarProxy [] in
  let push := Scenario.push [Scenario.reviews] None in
  Forall
    (fun cluster =>
       ClusterDiscoveryType cluster = Cluster_ORIGINAL_DST →
       LbPolicy cluster = Cluster_CLUSTER_PROVIDED)
    (BuildClusters Scenario.externals Scenario.configgen env proxy push).1
  ∧ Forall
      (fun cluster =>
         ClusterDiscoveryType cluster = Cluster_ORIGINAL_DST →
         LbPolicy cluster = Cluster_ORIGINAL_DST_LB)
      (BuildClusters Scenario.externalsBefore13 Scenario.configgen env proxy push).1
  ∧ Forall
      (fun cluster =>
         (ClusterDiscoveryType cluster = Cluster_EDS →
          is_Some (EdsClusterConfig cluster) ∧ LoadAssignment cluster = None)
         ∧ (ClusterDiscoveryType cluster = Cluster_STATIC
            ∨ ClusterDiscoveryType cluster = Cluster_STRICT_DNS →
            is_Some (LoadAssignment cluster) ∨ Name cluster = BlackHoleCluster))
      (BuildClusters Scenario.externalsBefore13 Scenario.configgen env proxy push).1.
Proof.
  cbv zeta. split; [|split].
  - apply (BuildClusters_discovery_shape Scenario.externals Scenario.configgen
             (Scenario.env true []) (Scenario.proxy SidecarProxy [])
             (Scenario.push [Scenario.reviews] None) Scenario_plugins
             (Scenario_patches _ _)).
    reflexivity.
  - apply (BuildClusters_discovery_shape Scenario.externalsBefore13 Scenario.configgen
             (Scenario.env true []) (Scenario.proxy SidecarProxy [])
             (Scenario.push [Scenario.reviews] None) Scenario_plugins
             (Scenario_patches_before13 _ _)).
    reflexivity.
  - apply (BuildClusters_discovery_shape Scenario.externalsBefore13 Scenario.configgen
             (Scenario.env true []) (Scenario.proxy SidecarProxy [])
             (Scenario.push [Scenario.reviews] None) Scenario_plugins
             (Scenario_patches_before13 _ _)).
Defined.

(** C2 as stated fails in two places. For a sidecar with one service, the
    second cluster returned is the blackhole sink, which is Static and
    carries no load assignment. For the same sidecar at a version older than
    1.3, the third cluster returned is the default passthrough sink, which
    is OriginalDst and has the LB policy ORIGINAL_DST_LB, not the
    cluster-provided one. *)
Lemma BuildClusters_discovery_shape_exceptions :
  let env := Scenario.env false [] in
  let proxy := Scenario.proxy SidecarProxy [] in
  let push := Scenario.push [Scenario.reviews] None in
  let clusters := (BuildClusters Scenario.externals Scenario.configgen env proxy push).1 in
  let older :=
    (BuildClusters Scenario.externalsBefore13 Scenario.configgen env proxy push).1 in
  (clusters !! 1%nat = Some (buildBlackHoleCluster env)
   ∧ ClusterDiscoveryType (buildBlackHoleCluster env) = Cluster_STATIC
   ∧ LoadAssignment (buildBlackHoleCluster env) = None
   ∧ ¬ Forall specifiedShape clusters)
  ∧ (older !! 2%nat
     = Some (buildDefaultPassthroughCluster Scenario.externalsBefore13 env proxy)
     ∧ ClusterDiscoveryType
         (buildDefaultPassthroughCluster Scenario.externalsBefore13 env proxy)
       = Cluster_ORIGINAL_DST
     ∧ LbPolicy (buildDefaultPassthroughCluster Scenario.externalsBefore13 env proxy)
       = Cluster_ORIGINAL_DST_LB
     ∧ ¬ Forall specifiedShape older
     ∧ ¬ Forall
           (fun cluster =>
              ClusterDiscoveryType cluster = Cluster_ORIGINAL_DST →
              LbPolicy cluster = Cluster_CLUSTER_PROVIDED)
           older).
Proof.
  assert (Hsink :
    (BuildClusters Scenario.externals Scenario.configgen (Scenario.env false [])
       (Scenario.proxy SidecarProxy []) (Scenario.push [Scenario.reviews] None)).1 !! 1%nat
    = Some (buildBlackHoleCluster (Scenario.env false []))) by by vm_compute.
  assert (Hpass :
    (BuildClusters Scenario.externalsBefore13 Scenario.configgen (Scenario.env false [])
       (Scenario.proxy SidecarProxy []) (Scenario.push [Scenario.reviews] None)).1 !! 2%nat
    = Some (buildDefaultPassthroughCluster Scenario.externalsBefore13
              (Scenario.env false []) (Scenario.proxy SidecarProxy []))) by by vm_compute.
  assert (Htype :
    ClusterDiscoveryType
      (buildDefaultPassthroughCluster Scenario.externalsBefore13
         (Scenario.env false []) (Scenario.proxy SidecarProxy []))
    = Cluster_ORIGINAL_DST) by reflexivity.
  assert (Hpolicy :
    LbPolicy
      (buildDefaultPassthroughCluster Scenario.externalsBefore13
         (Scenario.env false []) (Scenario.proxy SidecarProxy []))
    = Cluster_ORIGINAL_DST_LB) by reflexivity.
  cbv zeta. split.
  - split; [exact Hsink|]. split; [reflexivity|]. split; [reflexivity|].
    intros Hall. apply (Forall_lookup_1 _ _ _ _ Hall) in Hsink.
    destruct Hsink as (_ & Hstatic & _).
    destruct Hstatic as [la Hla]; [by left|]. discriminate Hla.
  - split; [exact Hpass|]. split; [exact Htype|]. split; [exact Hpolicy|]. split.
    + intros Hall. apply (Forall_lookup_1 _ _ _ _ Hall) in Hpass.
      destruct Hpass as (_ & _ & Hlb). specialize (Hlb Htype).
      rewrite Hpolicy in Hlb. discriminate Hlb.
    + intros Hall. pose proof (Forall_lookup_1 _ _ _ _ Hall Hpass Htype) as Hlb.
      cbv beta in Hlb. rewrite Hpolicy in Hlb. discriminate Hlb.
Qed.

(** C4. With plugins and cluster patches that keep the fields of [shape],
    and auto-mTLS disabled in the mesh configuration, no cluster that
    [BuildClusters] returns has transport-socket matches. *)
Theorem BuildClusters_no_transport_socket_matches (X : Externals)
    (configgen : ConfigGeneratorImpl) (env : Environment) (proxy : Proxy)
    (push : PushContext) :
  pluginsKeepShape configgen →
  patchesKeepShape X proxy push →
  EnableAutoMtls (Mesh env) = false →
  Forall (fun cluster => TransportSocketMatches cluster = [])
    (BuildClusters X configgen env proxy push).1.
Proof.
  intros Hplug Hpatch Hauto.
  eapply Forall_impl; [by apply BuildClusters_returned|]. intros c [_ Hc]. by apply Hc.
Qed.

Lemma BuildClusters_no_transport_socket_matches_witness :
  Forall (fun cluster => TransportSocketMatches cluster = [])
    (BuildClusters Scenario.externals Scenario.configgen (Scenario.env false [])
       (Scenario.proxy SidecarProxy [Scenario.dnsInstance])
       (Scenario.push [Scenario.reviews; Scenario.kubeDns] None)).1.
Proof.
  apply (BuildClusters_no_transport_socket_matches Scenario.externals Scenario.configgen
           (Scenario.env false []) (Scenario.proxy SidecarProxy [Scenario.dnsInstance])
           (Scenario.push [Scenario.reviews; Scenario.kubeDns] None)).
  - exact Scenario_plugins.
  - apply Scenario_patches.
  - reflexivity.
Defined.

(** C8. With plugins and cluster patches that keep the fields of [shape]:
    the clusters returned for a sidecar proxy hold exactly one cluster named
    BlackHoleCluster and exactly one named PassthroughCluster; the clusters
    returned for any other proxy, a gateway, are the blackhole sink and
    clusters with outbound names, so none has an inbound name, none is an
    inbound passthrough sink, and none is named PassthroughCluster. *)
Theorem BuildClusters_sinks_by_proxy_type (X : Externals) (configgen : ConfigGeneratorImpl)
    (env : Environment) (proxy : Proxy) (push : PushContext) :
  pluginsKeepShape configgen →
  patchesKeepShape X proxy push →
  let clusters := (BuildClusters X configgen env proxy push).1 in
  (Proxy_Type proxy = SidecarProxy →
   length (filter (fun c => Name c = BlackHoleCluster) clusters) = 1%nat
   ∧ length (filter (fun c => Name c = PassthroughCluster) clusters) = 1%nat)
  ∧ (Proxy_Type proxy ≠ SidecarProxy →
     Forall (fun c => (Name c = BlackHoleCluster ∨ outboundName (Name c))
                      ∧ ¬ inboundName (Name c)
                      ∧ Name c ≠ InboundPassthroughClusterIpv4
                      ∧ Name c ≠ InboundPassthroughClusterIpv6
                      ∧ Name c ≠ PassthroughCluster)
       clusters).
Proof.
  intros Hplug Hpatch clusters. subst clusters.
  destruct (BuildClusters_generated X configgen env proxy push Hpatch)
    as (clusters & -> & Hout).
  pose proof (outline_names _ _ Hout) as Hnames.
  split.
  - intros Htype.
    assert (Hin : BlackHoleCluster ∈ Name <$> clusters
                  ∧ PassthroughCluster ∈ Name <$> clusters).
    { rewrite Hnames. unfold generated. rewrite Htype. rewrite !fmap_app.
      split; apply elem_of_app; left; apply elem_of_app; right; simpl.
      - by left.
      - apply elem_of_cons. right. apply elem_of_cons. left.
        pose proof (sinks_shape X env proxy) as Hs. unfold shape in Hs.
        by injection Hs as -> _ _ _ _ _. }
    destruct Hin as [Hb Hp]. split; by apply normalizeClusters_count.
  - intros Htype. apply normalizeClusters_Forall.
    pose proof (generated_gateway_names X configgen env proxy push Hplug Htype) as Hgen.
    assert (Hall : Forall (fun c => Name c = BlackHoleCluster ∨ outboundName (Name c))
                     clusters).
    { apply Forall_lookup. intros i c Hi.
      assert (Hg : (Name <$> generated X configgen env proxy push) !! i = Some (Name c)).
      { by rewrite <- Hnames, list_lookup_fmap, Hi. }
      rewrite list_lookup_fmap in Hg.
      destruct (generated X configgen env proxy push !! i) as [g|] eqn:Hgi; [|done].
      apply (inj Some) in Hg. rewrite <- Hg.
      apply (Forall_lookup_1 _ _ _ _ Hgen Hgi). }
    eapply Forall_impl; [exact Hall|]. intros c Hc. split; [done|].
    destruct Hc as [-> | Hc]; [by repeat split | by apply outboundName_not_other].
Qed.

Lemma BuildClusters_sinks_by_proxy_type_witness :
  let sidecar :=
    (BuildClusters Scenario.externals Scenario.configgen (Scenario.env true [])
       (Scenario.proxy SidecarProxy [Scenario.dnsInstance])
       (Scenario.push [Scenario.reviews] None)).1 in
  length (filter (fun c => Name c = BlackHoleCluster) sidecar) = 1%nat
  ∧ length (filter (fun c => Name c = PassthroughCluster) sidecar) = 1%nat.
Proof.
  apply (BuildClusters_sinks_by_proxy_type Scenario.externals Scenario.configgen
           (Scenario.env true []) (Scenario.proxy SidecarProxy [Scenario.dnsInstance])
           (Scenario.push [Scenario.reviews] None) Scenario_plugins (Scenario_patches _ _)).
  reflexivity.
Defined.

(** The outbound generator and the SNI-DNAT generator emit the
    concatenation, over the services and over the ports of each service that
    are not UDP, of the clusters of that port: a UDP port contributes
    nothing, and removing it from the port loop leaves the output as it
    is. *)
Theorem outbound_generators_skip_udp (X : Externals) (configgen : ConfigGeneratorImpl)
    (env : Environment) (proxy : Proxy) (push : PushContext) :
  buildOutboundClusters X configgen env proxy push
  = flat_map
      (fun service =>
         flat_map
           (buildOutboundClustersForPort X configgen env proxy push (GetNetworkView X proxy)
              service (Push_DestinationRule push proxy service))
           (filter (fun port => Port_Protocol port ≠ protocol_UDP) (Ports service)))
      (Services push proxy)
  ∧ buildOutboundSniDnatClusters X env proxy push
    = flat_map
        (fun service =>
           flat_map
             (buildSniDnatClustersForPort X env proxy (GetNetworkView X proxy) service
                (Push_DestinationRule push proxy service))
             (filter (fun port => Port_Protocol port ≠ protocol_UDP) (Ports service)))
        (filter (fun service => MeshExternal service = false) (Services push proxy))
  ∧ (∀ networkView service destRule clusters before port after,
       Port_Protocol port = protocol_UDP →
       outboundPortLoop X configgen env proxy push networkView service destRule clusters
         (before ++ port :: after)
       = outboundPortLoop X configgen env proxy push networkView service destRule clusters
           (before ++ after)
       ∧ sniDnatPortLoop X env proxy networkView service destRule clusters
           (before ++ port :: after)
         = sniDnatPortLoop X env proxy networkView service destRule clusters
             (before ++ after)).
Proof.
  split; [apply buildOutboundClusters_flat_map|].
  split; [apply buildOutboundSniDnatClusters_flat_map|].
  intros networkView service destRule clusters before port after Hudp.
  rewrite !outboundPortLoop_flat_map, !sniDnatPortLoop_flat_map.
  rewrite !filter_app, filter_cons, decide_False; [done|]. by intros ?.
Qed.

(** C3. The claim fails on the inbound generator, which has no test for
    UDP where the outbound generators have one: a sidecar whose workload
    serves the UDP port 53 of kube-dns is sent the inbound cluster
    inbound|53|dns|kube-dns for that port, while the outbound generator emits
    nothing for the same port; the cluster is gone when the instance is left
    out. *)
Theorem inbound_cluster_for_udp_port :
  let env := Scenario.env false [] in
  let proxy := Scenario.proxy SidecarProxy [Scenario.dnsInstance] in
  let push := Scenario.push [Scenario.kubeDns] None in
  Port_Protocol (ptr_val (EP_ServicePort (SI_Endpoint Scenario.dnsInstance))) = protocol_UDP
  ∧ buildOutboundClusters Scenario.externals Scenario.configgen env proxy push = []
  ∧ Name <$> buildInboundClusters Scenario.externals Scenario.configgen env proxy push
               (ServiceInstances proxy) []
    = [ "inbound|53|dns|kube-dns" ]
  ∧ Name <$> (BuildClusters Scenario.externals Scenario.configgen env proxy push).1
    = [ "BlackHoleCluster"; "PassthroughCluster"; "inbound|53|dns|kube-dns";
        "InboundPassthroughClusterIpv4" ]
  ∧ Name <$> (BuildClusters Scenario.externals Scenario.configgen env
                (withoutUdpInstances proxy) push).1
    = [ "BlackHoleCluster"; "PassthroughCluster"; "InboundPassthroughClusterIpv4" ]
  ∧ (BuildClusters Scenario.externals Scenario.configgen env proxy push).1
    ≠ (BuildClusters Scenario.externals Scenario.configgen env (withoutUdpInstances proxy)
         push).1.
Proof.
  assert (H0 : buildOutboundClusters Scenario.externals Scenario.configgen
                 (Scenario.env false [])
                 (Scenario.proxy SidecarProxy [Scenario.dnsInstance])
                 (Scenario.push [Scenario.kubeDns] None) = []) by by vm_compute.
  assert (Hin : Name <$> buildInboundClusters Scenario.externals Scenario.configgen
                           (Scenario.env false [])
                           (Scenario.proxy SidecarProxy [Scenario.dnsInstance])
                           (Scenario.push [Scenario.kubeDns] None)
                           [Scenario.dnsInstance] []
                = [ "inbound|53|dns|kube-dns" ]) by by vm_compute.
  assert (H1 : Name <$> (BuildClusters Scenario.externals Scenario.configgen
                           (Scenario.env false [])
                           (Scenario.proxy SidecarProxy [Scenario.dnsInstance])
                           (Scenario.push [Scenario.kubeDns] None)).1
               = [ "BlackHoleCluster"; "PassthroughCluster"; "inbound|53|dns|kube-dns";
                   "InboundPassthroughClusterIpv4" ]) by by vm_compute.
  assert (H2 : Name <$> (BuildClusters Scenario.externals Scenario.configgen
                           (Scenario.env false [])
                           (withoutUdpInstances
                              (Scenario.proxy SidecarProxy [Scenario.dnsInstance]))
                           (Scenario.push [Scenario.kubeDns] None)).1
               = [ "BlackHoleCluster"; "PassthroughCluster";
                   "InboundPassthroughClusterIpv4" ]) by by vm_compute.
  cbv zeta. split; [reflexivity|]. split; [exact H0|]. split; [exact Hin|].
  split; [exact H1|]. split; [exact H2|].
  intros Heq. rewrite Heq, H2 in H1. discriminate H1.
Qed.

(** ** Further properties of the builder *)

(** [convertResolution] never yields Static or LogicalDNS; it yields
    OriginalDst exactly for a passthrough service seen by a sidecar, and
    StrictDNS exactly for a DNS-resolved service. *)
Theorem convertResolution_range (proxy : Proxy) (resolution : Resolution) :
  convertResolution proxy resolution ≠ Cluster_STATIC
  ∧ convertResolution proxy resolution ≠ Cluster_LOGICAL_DNS
  ∧ (convertResolution proxy resolution = Cluster_ORIGINAL_DST
     ↔ resolution = Passthrough ∧ Proxy_Type proxy = SidecarProxy)
  ∧ (convertResolution proxy resolution = Cluster_STRICT_DNS ↔ resolution = DNSLB).
Proof.
  unfold convertResolution.
  destruct resolution; repeat case_decide; repeat split; try done;
    try (by intros [? ?]); by intros [[=] ?].
Qed.

Lemma firstWins_distinct (seen : list string) (clusters : list Cluster) :
  (∀ c, c ∈ clusters → Name c ∉ seen) →
  NoDup (Name <$> clusters) →
  firstWins seen clusters = (clusters, []).
Proof.
  revert seen. induction clusters as [|c l IH]; intros seen Hseen Hnd; [done|].
  rewrite fmap_cons in Hnd. apply NoDup_cons in Hnd as [Hc Hl]. simpl.
  rewrite bool_decide_false by (apply Hseen; by left).
  rewrite IH; [done| |done].
  intros c' Hc' [Heq|Hin]%elem_of_cons.
  - apply Hc. rewrite <- Heq. apply list_elem_of_fmap. eauto.
  - apply (Hseen c'); [by right | done].
Qed.

(** Normalizing twice changes nothing: the clusters kept by
    [normalizeClusters] are all kept by a second pass, which records no
    duplicate event. *)
Theorem normalizeClusters_idempotent (proxy : Proxy) (clusters : list Cluster) :
  normalizeClusters proxy (normalizeClusters proxy clusters).1
  = ((normalizeClusters proxy clusters).1, []).
Proof.
  rewrite (normalizeClusters_firstWins proxy (normalizeClusters proxy clusters).1).
  rewrite firstWins_distinct; [done| |].
  - intros c _. apply not_elem_of_nil.
  - rewrite normalizeClusters_firstWins. apply firstWins_NoDup.
Qed.

(** Every endpoint of every locality group comes from an instance whose
    network is in the proxy's network view and whose locality is the
    group's; an instance outside the view contributes to no group. *)
Theorem locality_groups_respect_network_view (X : Externals) (view : gmap string bool)
    (instances : list ServiceInstance) (group : LocalityLbEndpoints) (ep : LbEndpoint) :
  group ∈ localityGroups (groupByLocality X view instances) →
  ep ∈ LbEndpoints group →
  ∃ instance,
    instance ∈ instances
    ∧ ep = buildLbEndpoint instance
    ∧ view !! EP_Network (SI_Endpoint instance) = Some true
    ∧ LLE_Locality group = Some (ConvertLocality (GetLocality X instance)).
Proof.
  intros ([locality eps] & -> & Hin)%list_elem_of_fmap Hep.
  apply elem_of_map_to_list in Hin. rewrite groupByLocality_lookup in Hin.
  destruct (visibleAt X view locality instances) as [|i members] eqn:Hvis; [done|].
  injection Hin as <-.
  change (ep ∈ buildLbEndpoint <$> i :: members) in Hep.
  apply list_elem_of_fmap in Hep as (instance & -> & Hi).
  rewrite <- Hvis in Hi. unfold visibleAt in Hi.
  apply list_elem_of_filter in Hi as [[Hview Hloc] Hi].
  exists instance. split; [done|]. split; [done|]. split.
  - destruct (view !! EP_Network (SI_Endpoint instance)) as [[]|]; done.
  - cbn. by rewrite Hloc.
Qed.

Lemma locality_groups_respect_network_view_witness :
  ∃ instance,
    instance ∈ Scenario.lightInstances
    ∧ Scenario.defaultView !! EP_Network (SI_Endpoint instance) = Some true.
Proof.
  destruct (locality_groups_respect_network_view Scenario.externals Scenario.defaultView
              Scenario.lightInstances
              (localityGroup "region/b"
                 [buildLbEndpoint
                    (Scenario.instanceOf Scenario.external
                       (Scenario.endpoint "192.0.2.3"
                          {| ptr_addr := 2%N; ptr_val := Scenario.tcpPort |} "region/b" 5))])
              (buildLbEndpoint
                 (Scenario.instanceOf Scenario.external
                    (Scenario.endpoint "192.0.2.3"
                       {| ptr_addr := 2%N; ptr_val := Scenario.tcpPort |} "region/b" 5))))
    as (instance & Hin & _ & Hview & _).
  - remember (localityGroups
                (groupByLocality Scenario.externals Scenario.defaultView
                   Scenario.lightInstances)) as groups eqn:Hgroups.
    vm_compute in Hgroups. subst groups.
    apply elem_of_cons. right. apply elem_of_cons. left. reflexivity.
  - apply elem_of_cons. left. reflexivity.
  - exists instance. split; assumption.
Defined.

(** *** Load balancer *)

(** A consistent-hash load balancer on a cluster that is not OriginalDst,
    with the Redis filter disabled, selects RingHash; the minimum ring size
    is the configured one, and 1024 when the configured one is 0. *)
Theorem applyLoadBalancer_consistent_hash (X : Externals) (cluster : Cluster)
    (consistentHash : LoadBalancerSettings_ConsistentHashLB) (port : option Port)
    (proxy : Proxy) :
  ClusterDiscoveryType cluster ≠ Cluster_ORIGINAL_DST →
  EnableRedisFilter X = false →
  let cluster' :=
    applyLoadBalancer X cluster
      (Some {| LB_LbPolicy := Some (LoadBalancerSettings_ConsistentHash consistentHash) |})
      port proxy in
  LbPolicy cluster' = Cluster_RING_HASH
  ∧ LbConfig cluster'
    = Some {| RH_MinimumRingSize :=
                Some (if decide (MinimumRingSize consistentHash = 0) then 1024
                      else MinimumRingSize consistentHash) |}
  ∧ ClusterDiscoveryType cluster' = ClusterDiscoveryType cluster.
Proof.
  intros Htype Hredis cluster'. subst cluster'.
  unfold applyLoadBalancer, GetSimple, GetConsistentHash. rewrite Hredis.
  destruct cluster as [n a t e ct lbp la cb tc h2 ch mr dr dl rt od ub lc clc uco ps md tsm]. cbn in *.
  destruct od; cbn; rewrite decide_False by done; cbn;
    destruct (decide (MinimumRingSize consistentHash = 0)) as [->|Hne]; cbn;
    try done; by rewrite decide_True by done.
Qed.

Lemma applyLoadBalancer_consistent_hash_witness :
  LbConfig (applyLoadBalancer Scenario.externals emptyCluster
              (Some {| LB_LbPolicy :=
                         Some (LoadBalancerSettings_ConsistentHash
                                 {| MinimumRingSize := 0 |}) |})
              None (Scenario.proxy SidecarProxy []))
  = Some {| RH_MinimumRingSize := Some 1024 |}.
Proof.
  refine (proj1 (proj2 (applyLoadBalancer_consistent_hash Scenario.externals emptyCluster
                          {| MinimumRingSize := 0 |} None (Scenario.proxy SidecarProxy [])
                          _ _))).
  - discriminate.
  - reflexivity.
Defined.

(** On an OriginalDst cluster every load balancer setting, also one for a
    Redis port or with a consistent hash, gives the cluster-provided LB
    policy and leaves type and LB configuration alone. *)
Theorem applyLoadBalancer_original_dst (X : Externals) (cluster : Cluster)
    (lb : LoadBalancerSettings) (port : option Port) (proxy : Proxy) :
  ClusterDiscoveryType cluster = Cluster_ORIGINAL_DST →
  let cluster' := applyLoadBalancer X cluster (Some lb) port proxy in
  LbPolicy cluster' = lbPolicyClusterProvided X proxy
  ∧ LbConfig cluster' = LbConfig cluster
  ∧ ClusterDiscoveryType cluster' = Cluster_ORIGINAL_DST.
Proof.
  intros Htype cluster'. subst cluster'. unfold applyLoadBalancer.
  destruct cluster as [n a t e ct lbp la cb tc h2 ch mr dr dl rt od ub lc clc uco ps md tsm]. cbn in *. subst.
  by destruct od.
Qed.

Lemma applyLoadBalancer_original_dst_witness :
  LbPolicy (applyLoadBalancer Scenario.externals
              (set_ClusterDiscoveryType Cluster_ORIGINAL_DST emptyCluster)
              (Some (Scenario.simpleLb LoadBalancerSettings_RANDOM))
              (Some Scenario.httpPort) (Scenario.proxy SidecarProxy []))
  = Cluster_CLUSTER_PROVIDED.
Proof.
  refine (proj1 (applyLoadBalancer_original_dst Scenario.externals
                   (set_ClusterDiscoveryType Cluster_ORIGINAL_DST emptyCluster)
                   (Scenario.simpleLb LoadBalancerSettings_RANDOM)
                   (Some Scenario.httpPort) (Scenario.proxy SidecarProxy []) _)).
  reflexivity.
Defined.

(** The simple choice Passthrough, on a cluster that is not OriginalDst and
    with the Redis filter disabled, turns the cluster into an OriginalDst
    cluster with the cluster-provided LB policy; the other simple choices
    keep the type and map LeastConn to LeastRequest, Random to Random and
    RoundRobin to RoundRobin. *)
Theorem applyLoadBalancer_simple (X : Externals) (cluster : Cluster)
    (simple : LoadBalancerSettings_SimpleLB) (port : option Port) (proxy : Proxy) :
  ClusterDiscoveryType cluster ≠ Cluster_ORIGINAL_DST →
  EnableRedisFilter X = false →
  let cluster' :=
    applyLoadBalancer X cluster
      (Some {| LB_LbPolicy := Some (LoadBalancerSettings_Simple simple) |}) port proxy in
  (LbPolicy cluster', ClusterDiscoveryType cluster')
  = match simple with
    | LoadBalancerSettings_LEAST_CONN => (Cluster_LEAST_REQUEST, ClusterDiscoveryType cluster)
    | LoadBalancerSettings_RANDOM => (Cluster_RANDOM, ClusterDiscoveryType cluster)
    | LoadBalancerSettings_ROUND_ROBIN => (Cluster_ROUND_ROBIN, ClusterDiscoveryType cluster)
    | LoadBalancerSettings_PASSTHROUGH =>
        (lbPolicyClusterProvided X proxy, Cluster_ORIGINAL_DST)
    end
  ∧ LbConfig cluster' = LbConfig cluster.
Proof.
  intros Htype Hredis cluster'. subst cluster'.
  unfold applyLoadBalancer, GetSimple, GetConsistentHash. rewrite Hredis.
  destruct cluster as [n a t e ct lbp la cb tc h2 ch mr dr dl rt od ub lc clc uco ps md tsm]. cbn in *.
  destruct od, simple; cbn; by rewrite decide_False by done.
Qed.

Lemma applyLoadBalancer_simple_witness :
  ClusterDiscoveryType
    (applyLoadBalancer Scenario.externals
       (set_ClusterDiscoveryType Cluster_EDS emptyCluster)
       (Some (Scenario.simpleLb LoadBalancerSettings_PASSTHROUGH)) None
       (Scenario.proxy SidecarProxy []))
  = Cluster_ORIGINAL_DST.
Proof.
  pose proof (applyLoadBalancer_simple Scenario.externals
                (set_ClusterDiscoveryType Cluster_EDS emptyCluster)
                LoadBalancerSettings_PASSTHROUGH None (Scenario.proxy SidecarProxy []))
    as H.
  destruct H as [H _]; [discriminate | reflexivity |].
  exact (f_equal snd H).
Defined.

(** *** Connection pool, TLS intent, EDS reference *)

(** Without settings [applyConnectionPool] returns the cluster as it is.
    With settings it installs exactly one circuit-breaker threshold; there,
    a retry or connection limit that is not positive counts as unset: the
    threshold keeps the default of the direction (1024 parallel retries
    outbound, none inbound), and no connection limit. *)
Theorem applyConnectionPool_single_threshold (env : Environment)
    (cluster : Cluster) (settings : ConnectionPoolSettings) (direction : TrafficDirection) :
  applyConnectionPool env cluster None direction = cluster
  ∧ ∃ threshold,
      CircuitBreakers (applyConnectionPool env cluster (Some settings) direction)
      = Some {| Thresholds := [threshold] |}
      ∧ MaxRetries threshold
        = match CP_Http settings with
          | Some http =>
              if 0 <? Http_MaxRetries http then Some (uint32 (Http_MaxRetries http))
              else if decide (direction = TrafficDirectionInbound) then None else Some 1024
          | None => if decide (direction = TrafficDirectionInbound) then None else Some 1024
          end
      ∧ MaxConnections threshold
        = match CP_Tcp settings with
          | Some tcp =>
              if 0 <? Tcp_MaxConnections tcp then Some (uint32 (Tcp_MaxConnections tcp))
              else None
          | None => None
          end.
Proof.
  split; [done|].
  unfold applyConnectionPool, getDefaultCircuitBreakerThresholds, applyTCPKeepalive.
  destruct cluster as [n a t e ct lbp la cb tc h2 ch mr dr dl rt od ub lc clc uco ps md tsm].
  destruct (CP_Http settings) as [http|], (CP_Tcp settings) as [tcp|],
    (decide (direction = TrafficDirectionInbound)); cbn;
    repeat case_match; cbn; eexists; (split; [reflexivity|]); cbn; done.
Qed.

(** A TLS intent given by the user is never marked auto detected, and an
    absent intent stays absent, marked user supplied, for a mesh-external
    service and wherever auto-mTLS is disabled. *)
Theorem conditionallyConvertToIstioMtls_user_supplied (X : Externals) (tls : TLSSettings)
    (serviceAccounts : list string) (sni : string) (proxy : Proxy)
    (autoMTLSEnabled meshExternal : bool) :
  (conditionallyConvertToIstioMtls X (Some tls) serviceAccounts sni proxy autoMTLSEnabled
     meshExternal).2 = userSupplied
  ∧ conditionallyConvertToIstioMtls X None serviceAccounts sni proxy autoMTLSEnabled true
    = (None, userSupplied)
  ∧ conditionallyConvertToIstioMtls X None serviceAccounts sni proxy false meshExternal
    = (None, userSupplied)
  ∧ (TLS_Mode tls ≠ TLSSettings_ISTIO_MUTUAL →
     conditionallyConvertToIstioMtls X (Some tls) serviceAccounts sni proxy autoMTLSEnabled
       meshExternal = (Some tls, userSupplied)).
Proof.
  unfold conditionallyConvertToIstioMtls. repeat split.
  - by case_decide.
  - by destruct meshExternal.
  - intros Hmode. by rewrite decide_False.
Qed.

(** For the MeshMutual mode the SNI and the subject alternative names of the
    intent win over the generated SNI and the service accounts when they
    are not empty, and the key material paths of the intent are replaced by
    those of the proxy metadata or the defaults. *)
Theorem conditionallyConvertToIstioMtls_mesh_mutual (X : Externals) (tls : TLSSettings)
    (serviceAccounts : list string) (sni : string) (proxy : Proxy)
    (autoMTLSEnabled meshExternal : bool) :
  TLS_Mode tls = TLSSettings_ISTIO_MUTUAL →
  ∃ resolved,
    conditionallyConvertToIstioMtls X (Some tls) serviceAccounts sni proxy autoMTLSEnabled
      meshExternal = (Some resolved, userSupplied)
    ∧ TLS_Mode resolved = TLSSettings_ISTIO_MUTUAL
    ∧ TLS_Sni resolved = (if decide (TLS_Sni tls = "") then sni else TLS_Sni tls)
    ∧ TLS_SubjectAltNames resolved
      = (if decide (TLS_SubjectAltNames tls = []) then serviceAccounts
         else TLS_SubjectAltNames tls)
    ∧ TLS_ClientCertificate resolved
      = GetOrDefault (TLSClientCertChain (Proxy_Metadata proxy)) (DefaultCertChain X)
    ∧ TLS_PrivateKey resolved
      = GetOrDefault (TLSClientKey (Proxy_Metadata proxy)) (DefaultKey X).
Proof.
  intros Hmode. unfold conditionallyConvertToIstioMtls. rewrite decide_True by done.
  eexists. split; [reflexivity|]. cbn. repeat split.
  destruct (TLS_SubjectAltNames tls); by repeat case_decide.
Qed.

Lemma conditionallyConvertToIstioMtls_mesh_mutual_witness :
  ∃ resolved,
    conditionallyConvertToIstioMtls Scenario.externals
      (Some (Scenario.tlsOf TLSSettings_ISTIO_MUTUAL "" "")) ["spiffe://a"] "sni.example"
      (Scenario.proxy SidecarProxy []) false false
    = (Some resolved, userSupplied)
    ∧ TLS_Sni resolved = "sni.example".
Proof.
  destruct (conditionallyConvertToIstioMtls_mesh_mutual Scenario.externals
              (Scenario.tlsOf TLSSettings_ISTIO_MUTUAL "" "") ["spiffe://a"] "sni.example"
              (Scenario.proxy SidecarProxy []) false false)
    as (resolved & H1 & _ & H3 & _); [reflexivity|].
  exists resolved. split; [exact H1 | exact H3].
Defined.


(** *** Names and counts of the clusters emitted *)

Section EmittedNames.

Context (X : Externals) (configgen : ConfigGeneratorImpl).
Context (env : Environment) (proxy : Proxy) (push : PushContext).
Context (Hplugins : pluginsKeepShape configgen).





End EmittedNames.


